(** * The Vulkan swapchain frame lifecycle (vulkan/vulkan_swapchain.cc)

    A shallow embedding of [vulkan::VulkanSwapchain]: chain negotiation (the
    constructor with [GetImages], [GetSize], [CreateSkiaSurface] and
    [CreateSwapchainImages]), [GetNextBackbuffer], [AcquireSurface] and
    [Submit].

    The object's fields are a record that the member functions thread
    through a small monad.  The collaborators whose code lives in other
    translation units (the Vulkan proc table, [VulkanDevice],
    [VulkanSurface], [VulkanBackbuffer], [VulkanImage], Skia) are a record
    of functions over an abstract world [W]: any driver, real or fake, is an
    instance.  Every call that reaches a collaborator is appended to a
    trace together with its arguments and its answer, so that call order
    and call arguments can be stated as properties of the trace. *)

From Stdlib Require Import ZArith NArith List Lia Bool.
From stdpp Require Import base list.
Import ListNotations.

Local Open Scope N_scope.

(** ** Vulkan and Skia vocabulary *)

(** Non-dispatchable handles; [VK_NULL_HANDLE] is 0. *)
Definition VkHandle := N.
Definition VK_NULL_HANDLE : VkHandle := 0.

Definition VkSemaphore := VkHandle.
Definition VkFence := VkHandle.
Definition VkCommandBuffer := VkHandle.
Definition VkImage := VkHandle.
Definition VkSwapchainKHR := VkHandle.
Definition VkSurfaceKHR := VkHandle.

(** [VkResult] is a C enumeration: any 32-bit code can come back from the
    driver, and [AcquireSurface] has a [default:] arm for the codes it does
    not name. *)
Definition VkResult := Z.
Definition VK_SUCCESS : VkResult := 0%Z.
Definition VK_ERROR_DEVICE_LOST : VkResult := (-4)%Z.
Definition VK_ERROR_SURFACE_LOST_KHR : VkResult := (-1000000000)%Z.
Definition VK_SUBOPTIMAL_KHR : VkResult := 1000001003%Z.
Definition VK_ERROR_OUT_OF_DATE_KHR : VkResult := (-1000001004)%Z.

Definition VkBool32 := N.
Definition VK_FALSE : VkBool32 := 0.
Definition VK_TRUE : VkBool32 := 1.

Definition VkPipelineStageFlagBits := N.
Definition VK_PIPELINE_STAGE_TOP_OF_PIPE_BIT : VkPipelineStageFlagBits := 0x1.
Definition VK_PIPELINE_STAGE_COLOR_ATTACHMENT_OUTPUT_BIT
  : VkPipelineStageFlagBits := 0x400.
Definition VK_PIPELINE_STAGE_BOTTOM_OF_PIPE_BIT
  : VkPipelineStageFlagBits := 0x2000.

Definition VkAccessFlagBits := N.
Definition VK_ACCESS_COLOR_ATTACHMENT_WRITE_BIT : VkAccessFlagBits := 0x100.
Definition VK_ACCESS_MEMORY_READ_BIT : VkAccessFlagBits := 0x8000.

Definition VkImageLayout := N.
Definition VK_IMAGE_LAYOUT_UNDEFINED : VkImageLayout := 0.
Definition VK_IMAGE_LAYOUT_COLOR_ATTACHMENT_OPTIMAL : VkImageLayout := 2.
Definition VK_IMAGE_LAYOUT_PRESENT_SRC_KHR : VkImageLayout := 1000001002.

Definition VkPresentModeKHR := N.
Definition VK_PRESENT_MODE_IMMEDIATE_KHR : VkPresentModeKHR := 0.
Definition VK_PRESENT_MODE_MAILBOX_KHR : VkPresentModeKHR := 1.
Definition VK_PRESENT_MODE_FIFO_KHR : VkPresentModeKHR := 2.
Definition VK_PRESENT_MODE_FIFO_RELAXED_KHR : VkPresentModeKHR := 3.

Definition VkFormat := N.
Definition VK_FORMAT_R16G16B16A16_SFLOAT : VkFormat := 97.
Definition VkColorSpaceKHR := N.

Definition VK_IMAGE_USAGE_COLOR_ATTACHMENT_BIT : N := 0x10.
Definition VK_SHARING_MODE_EXCLUSIVE : N := 0.
Definition VK_SURFACE_TRANSFORM_IDENTITY_BIT_KHR : N := 0x1.
Definition VK_COMPOSITE_ALPHA_INHERIT_BIT_KHR : N := 0x8.
Definition VK_IMAGE_TILING_OPTIMAL : N := 0.

(** Fixed-width unsigned integers, with the wrap-around of the C++ types. *)
Definition u32 (x : N) : N := x mod 2 ^ 32.
Definition size_t (x : N) : N := x mod 2 ^ 64.
Definition UINT64_MAX : N := 2 ^ 64 - 1.

(** A [uint32_t] handed to an [int32_t] parameter: the number of
    [-2^31 .. 2^31 - 1] that is congruent to it modulo 2^32. *)
Definition int32_t (x : N) : Z :=
  let y := Z.of_N (u32 x) in
  if (y <? 2 ^ 31)%Z then y else (y - 2 ^ 32)%Z.

Record VkExtent2D := { width : N; height : N }.

Record VkSurfaceFormatKHR := { format : VkFormat; colorSpace : VkColorSpaceKHR }.

(** The members of [VkSurfaceCapabilitiesKHR] this file reads. *)
Record VkSurfaceCapabilitiesKHR := {
  minImageCount : N;
  currentExtent : VkExtent2D;
  minImageExtent : VkExtent2D;
  maxImageExtent : VkExtent2D
}.

Record VkSwapchainCreateInfoKHR := {
  ci_surface : VkSurfaceKHR;
  ci_minImageCount : N;
  ci_imageFormat : VkFormat;
  ci_imageColorSpace : VkColorSpaceKHR;
  ci_imageExtent : VkExtent2D;
  ci_imageArrayLayers : N;
  ci_imageUsage : N;
  ci_imageSharingMode : N;
  ci_queueFamilyIndexCount : N;
  ci_preTransform : N;
  ci_compositeAlpha : N;
  ci_presentMode : VkPresentModeKHR;
  ci_clipped : VkBool32;
  ci_oldSwapchain : VkSwapchainKHR
}.

Record VkPresentInfoKHR := {
  pi_waitSemaphores : list VkSemaphore;
  pi_swapchains : list VkSwapchainKHR;
  pi_imageIndices : list N
}.

(** [SkISize] holds two [int32_t]. *)
Record SkISize := { fWidth : Z; fHeight : Z }.

Inductive SkColorSpace := MakeSRGB | MakeSRGBLinear.

Definition GrPixelConfig := N.
Definition kUnknown_GrPixelConfig : GrPixelConfig := 0.

Record GrVkImageInfo := {
  fImage : VkImage;
  fImageTiling : N;
  fImageLayout : VkImageLayout;
  fFormat : VkFormat;
  fLevelCount : N
}.

(** The constructor of [GrBackendRenderTarget] takes its width and height
    as [int]. *)
Record GrBackendRenderTarget := {
  rt_width : Z;
  rt_height : Z;
  rt_sampleCnt : N;
  rt_stencilBits : N;
  rt_info : GrVkImageInfo
}.

(** A Skia surface object; [sk_sp<SkSurface>] is [option SkSurface], with
    [None] for the null pointer. *)
Definition SkSurface := N.
Definition GrContext := N.

(** One backbuffer slot (vulkan_backbuffer.h): what the object answers from
    its own members.  Its fences live in the driver, so waiting on them and
    resetting them are calls to the platform below. *)
Record VulkanBackbuffer := {
  bb_valid : bool;
  usage_semaphore : VkSemaphore;
  render_semaphore : VkSemaphore;
  usage_fence : VkFence;
  render_fence : VkFence;
  usage_command_buffer : VkCommandBuffer;
  render_command_buffer : VkCommandBuffer
}.

(** One swapchain image wrapper (vulkan_image.h). *)
Record VulkanImage := {
  img_handle : VkImage;
  img_valid : bool
}.

Inductive AcquireStatus := Success | ErrorSurfaceOutOfDate | ErrorSurfaceLost.

Definition AcquireResult : Type := AcquireStatus * option SkSurface.

(** ** The object *)

Record VulkanSwapchain := {
  capabilities_ : VkSurfaceCapabilitiesKHR;
  surface_format_ : VkSurfaceFormatKHR;
  swapchain_ : VkSwapchainKHR;
  backbuffers_ : list VulkanBackbuffer;
  images_ : list VulkanImage;
  surfaces_ : list (option SkSurface);
  current_pipeline_stage_ : VkPipelineStageFlagBits;
  current_backbuffer_index_ : N;
  current_image_index_ : N;
  valid_ : bool
}.

Definition set_capabilities_ v (s : VulkanSwapchain) :=
  {| capabilities_ := v; surface_format_ := surface_format_ s;
     swapchain_ := swapchain_ s; backbuffers_ := backbuffers_ s;
     images_ := images_ s; surfaces_ := surfaces_ s;
     current_pipeline_stage_ := current_pipeline_stage_ s;
     current_backbuffer_index_ := current_backbuffer_index_ s;
     current_image_index_ := current_image_index_ s; valid_ := valid_ s |}.

Definition set_surface_format_ v (s : VulkanSwapchain) :=
  {| capabilities_ := capabilities_ s; surface_format_ := v;
     swapchain_ := swapchain_ s; backbuffers_ := backbuffers_ s;
     images_ := images_ s; surfaces_ := surfaces_ s;
     current_pipeline_stage_ := current_pipeline_stage_ s;
     current_backbuffer_index_ := current_backbuffer_index_ s;
     current_image_index_ := current_image_index_ s; valid_ := valid_ s |}.

Definition set_swapchain_ v (s : VulkanSwapchain) :=
  {| capabilities_ := capabilities_ s; surface_format_ := surface_format_ s;
     swapchain_ := v; backbuffers_ := backbuffers_ s;
     images_ := images_ s; surfaces_ := surfaces_ s;
     current_pipeline_stage_ := current_pipeline_stage_ s;
     current_backbuffer_index_ := current_backbuffer_index_ s;
     current_image_index_ := current_image_index_ s; valid_ := valid_ s |}.

Definition set_backbuffers_ v (s : VulkanSwapchain) :=
  {| capabilities_ := capabilities_ s; surface_format_ := surface_format_ s;
     swapchain_ := swapchain_ s; backbuffers_ := v;
     images_ := images_ s; surfaces_ := surfaces_ s;
     current_pipeline_stage_ := current_pipeline_stage_ s;
     current_backbuffer_index_ := current_backbuffer_index_ s;
     current_image_index_ := current_image_index_ s; valid_ := valid_ s |}.

Definition set_images_ v (s : VulkanSwapchain) :=
  {| capabilities_ := capabilities_ s; surface_format_ := surface_format_ s;
     swapchain_ := swapchain_ s; backbuffers_ := backbuffers_ s;
     images_ := v; surfaces_ := surfaces_ s;
     current_pipeline_stage_ := current_pipeline_stage_ s;
     current_backbuffer_index_ := current_backbuffer_index_ s;
     current_image_index_ := current_image_index_ s; valid_ := valid_ s |}.

Definition set_surfaces_ v (s : VulkanSwapchain) :=
  {| capabilities_ := capabilities_ s; surface_format_ := surface_format_ s;
     swapchain_ := swapchain_ s; backbuffers_ := backbuffers_ s;
     images_ := images_ s; surfaces_ := v;
     current_pipeline_stage_ := current_pipeline_stage_ s;
     current_backbuffer_index_ := current_backbuffer_index_ s;
     current_image_index_ := current_image_index_ s; valid_ := valid_ s |}.

Definition set_current_pipeline_stage_ v (s : VulkanSwapchain) :=
  {| capabilities_ := capabilities_ s; surface_format_ := surface_format_ s;
     swapchain_ := swapchain_ s; backbuffers_ := backbuffers_ s;
     images_ := images_ s; surfaces_ := surfaces_ s;
     current_pipeline_stage_ := v;
     current_backbuffer_index_ := current_backbuffer_index_ s;
     current_image_index_ := current_image_index_ s; valid_ := valid_ s |}.

Definition set_current_backbuffer_index_ v (s : VulkanSwapchain) :=
  {| capabilities_ := capabilities_ s; surface_format_ := surface_format_ s;
     swapchain_ := swapchain_ s; backbuffers_ := backbuffers_ s;
     images_ := images_ s; surfaces_ := surfaces_ s;
     current_pipeline_stage_ := current_pipeline_stage_ s;
     current_backbuffer_index_ := v;
     current_image_index_ := current_image_index_ s; valid_ := valid_ s |}.

Definition set_current_image_index_ v (s : VulkanSwapchain) :=
  {| capabilities_ := capabilities_ s; surface_format_ := surface_format_ s;
     swapchain_ := swapchain_ s; backbuffers_ := backbuffers_ s;
     images_ := images_ s; surfaces_ := surfaces_ s;
     current_pipeline_stage_ := current_pipeline_stage_ s;
     current_backbuffer_index_ := current_backbuffer_index_ s;
     current_image_index_ := v; valid_ := valid_ s |}.

Definition set_valid_ v (s : VulkanSwapchain) :=
  {| capabilities_ := capabilities_ s; surface_format_ := surface_format_ s;
     swapchain_ := swapchain_ s; backbuffers_ := backbuffers_ s;
     images_ := images_ s; surfaces_ := surfaces_ s;
     current_pipeline_stage_ := current_pipeline_stage_ s;
     current_backbuffer_index_ := current_backbuffer_index_ s;
     current_image_index_ := current_image_index_ s; valid_ := v |}.

(** ** The collaborators

    An out-parameter of a C call is an [option]: [None] when the callee
    left the caller's variable as it was. *)
Definition out_param {A} (initial : A) (written : option A) : A :=
  match written with Some v => v | None => initial end.

Definition is_nullptr {A} (p : option A) : bool :=
  match p with Some _ => false | None => true end.

Record Platform (W : Type) := {
  (* VulkanDevice *)
  Device_IsValid : W -> bool * W;
  Device_GetSurfaceCapabilities :
    W -> (bool * option VkSurfaceCapabilitiesKHR) * W;
  Device_ChooseSurfaceFormat : W -> (bool * option VkSurfaceFormatKHR) * W;
  Device_ChoosePresentMode : W -> (bool * option VkPresentModeKHR) * W;
  Device_QueueSubmit :
    list VkPipelineStageFlagBits -> list VkSemaphore -> list VkSemaphore ->
    list VkCommandBuffer -> VkFence -> W -> bool * W;
  (* VulkanSurface *)
  Surface_IsValid : W -> bool * W;
  Surface_Handle : W -> VkSurfaceKHR * W;
  (* VulkanProcTable *)
  GetPhysicalDeviceSurfaceSupportKHR :
    N -> VkSurfaceKHR -> W -> (VkResult * option VkBool32) * W;
  CreateSwapchainKHR :
    VkSwapchainCreateInfoKHR -> W -> (VkResult * option VkSwapchainKHR) * W;
  (* pSwapchainImages == nullptr: only the count is asked for *)
  GetSwapchainImagesKHR_count :
    VkSwapchainKHR -> W -> (VkResult * option N) * W;
  (* pSwapchainImages has room for the given count; the answer carries the
     images the driver wrote, in order *)
  GetSwapchainImagesKHR :
    VkSwapchainKHR -> N -> W -> (VkResult * option N * list VkImage) * W;
  AcquireNextImageKHR :
    VkSwapchainKHR -> N -> VkSemaphore -> VkFence ->
    W -> (VkResult * option N) * W;
  QueuePresentKHR : VkPresentInfoKHR -> W -> VkResult * W;
  (* VulkanBackbuffer and its VulkanCommandBuffers *)
  Backbuffer_new : W -> VulkanBackbuffer * W;
  Backbuffer_WaitFences : VulkanBackbuffer -> W -> bool * W;
  Backbuffer_ResetFences : VulkanBackbuffer -> W -> bool * W;
  CommandBuffer_Begin : VkCommandBuffer -> W -> bool * W;
  CommandBuffer_End : VkCommandBuffer -> W -> bool * W;
  (* VulkanImage *)
  Image_new : VkImage -> W -> VulkanImage * W;
  Image_InsertImageMemoryBarrier :
    VulkanImage -> VkCommandBuffer ->
    VkPipelineStageFlagBits -> VkPipelineStageFlagBits ->
    VkAccessFlagBits -> VkImageLayout -> W -> bool * W;
  (* Skia *)
  GrVkFormatIsSRGB : VkFormat -> bool;
  GrVkFormatToPixelConfig : VkFormat -> GrPixelConfig;
  SkSurface_MakeFromBackendRenderTarget :
    GrContext -> GrBackendRenderTarget -> option SkColorSpace ->
    W -> option SkSurface * W;
  SkSurface_getRenderTargetHandle : SkSurface -> W -> bool * W;
  GrVkImageInfo_updateImageLayout : SkSurface -> VkImageLayout -> W -> unit * W
}.

Arguments Device_IsValid {W}.
Arguments Device_GetSurfaceCapabilities {W}.
Arguments Device_ChooseSurfaceFormat {W}.
Arguments Device_ChoosePresentMode {W}.
Arguments Device_QueueSubmit {W}.
Arguments Surface_IsValid {W}.
Arguments Surface_Handle {W}.
Arguments GetPhysicalDeviceSurfaceSupportKHR {W}.
Arguments CreateSwapchainKHR {W}.
Arguments GetSwapchainImagesKHR_count {W}.
Arguments GetSwapchainImagesKHR {W}.
Arguments AcquireNextImageKHR {W}.
Arguments QueuePresentKHR {W}.
Arguments Backbuffer_new {W}.
Arguments Backbuffer_WaitFences {W}.
Arguments Backbuffer_ResetFences {W}.
Arguments CommandBuffer_Begin {W}.
Arguments CommandBuffer_End {W}.
Arguments Image_new {W}.
Arguments Image_InsertImageMemoryBarrier {W}.
Arguments GrVkFormatIsSRGB {W}.
Arguments GrVkFormatToPixelConfig {W}.
Arguments SkSurface_MakeFromBackendRenderTarget {W}.
Arguments SkSurface_getRenderTargetHandle {W}.
Arguments GrVkImageInfo_updateImageLayout {W}.

(** What the trace records: the call, its arguments, its answer. *)
Inductive Event :=
| EvDeviceIsValid (ok : bool)
| EvSurfaceIsValid (ok : bool)
| EvGetSurfaceCapabilities (ok : bool) (out : option VkSurfaceCapabilitiesKHR)
| EvChooseSurfaceFormat (ok : bool) (out : option VkSurfaceFormatKHR)
| EvChoosePresentMode (ok : bool) (out : option VkPresentModeKHR)
| EvSurfaceHandle (h : VkSurfaceKHR)
| EvGetPhysicalDeviceSurfaceSupportKHR
    (queue_family : N) (surface : VkSurfaceKHR)
    (res : VkResult) (out : option VkBool32)
| EvCreateSwapchainKHR
    (info : VkSwapchainCreateInfoKHR)
    (res : VkResult) (out : option VkSwapchainKHR)
| EvGetSwapchainImagesKHR_count
    (swapchain : VkSwapchainKHR) (res : VkResult) (out : option N)
| EvGetSwapchainImagesKHR
    (swapchain : VkSwapchainKHR) (count : N)
    (res : VkResult) (out : option N) (written : list VkImage)
| EvBackbufferNew (b : VulkanBackbuffer)
| EvImageNew (image : VkImage) (wrapper : VulkanImage)
| EvMakeFromBackendRenderTarget
    (ctx : GrContext) (target : GrBackendRenderTarget)
    (cs : option SkColorSpace) (out : option SkSurface)
| EvWaitFences (b : VulkanBackbuffer) (ok : bool)
| EvResetFences (b : VulkanBackbuffer) (ok : bool)
| EvAcquireNextImageKHR
    (swapchain : VkSwapchainKHR) (timeout : N)
    (semaphore : VkSemaphore) (fence : VkFence)
    (res : VkResult) (out : option N)
| EvBegin (cb : VkCommandBuffer) (ok : bool)
| EvEnd (cb : VkCommandBuffer) (ok : bool)
| EvInsertImageMemoryBarrier
    (image : VulkanImage) (cb : VkCommandBuffer)
    (src_pipeline_bits dest_pipeline_bits : VkPipelineStageFlagBits)
    (dest_access_flags : VkAccessFlagBits) (dest_layout : VkImageLayout)
    (ok : bool)
| EvQueueSubmit
    (wait_dest_pipeline_stages : list VkPipelineStageFlagBits)
    (wait_semaphores signal_semaphores : list VkSemaphore)
    (command_buffers : list VkCommandBuffer) (fence : VkFence) (ok : bool)
| EvGetRenderTargetHandle (surface : SkSurface) (ok : bool)
| EvUpdateImageLayout (surface : SkSurface) (layout : VkImageLayout)
| EvQueuePresentKHR (info : VkPresentInfoKHR) (res : VkResult).

(** ** A scripted driver

    A small family of fake drivers for concrete runs: the script fixes what
    the driver answers, the world counts the images handed out and the
    backbuffers made, so that handles are distinct and image indices go
    round. *)
Module Fake.

Record World := { acquired : N; made : N }.

Record Script := {
  image_count : N;                               (* GetSwapchainImagesKHR *)
  present_mode : bool * option VkPresentModeKHR; (* ChoosePresentMode *)
  fences_signal : bool;                          (* WaitFences *)
  acquire_status : VkResult;                     (* AcquireNextImageKHR *)
  index_offset : N;              (* added to the image index handed out *)
  present_status : VkResult                      (* QueuePresentKHR *)
}.

Definition capabilities : VkSurfaceCapabilitiesKHR :=
  {| minImageCount := 3;
     currentExtent := {| width := 800; height := 600 |};
     minImageExtent := {| width := 1; height := 1 |};
     maxImageExtent := {| width := 4096; height := 4096 |} |}.

Definition backbuffer (k : N) : VulkanBackbuffer :=
  {| bb_valid := true;
     usage_semaphore := 10 * k + 1; render_semaphore := 10 * k + 2;
     usage_fence := 10 * k + 3; render_fence := 10 * k + 4;
     usage_command_buffer := 10 * k + 5;
     render_command_buffer := 10 * k + 6 |}.

Definition platform (sc : Script) : Platform World :=
  {| Device_IsValid := fun w => (true, w);
     Device_GetSurfaceCapabilities := fun w => ((true, Some capabilities), w);
     Device_ChooseSurfaceFormat :=
       fun w => ((true, Some {| format := 44; colorSpace := 0 |}), w);
     Device_ChoosePresentMode := fun w => (present_mode sc, w);
     Device_QueueSubmit := fun _ _ _ _ _ w => (true, w);
     Surface_IsValid := fun w => (true, w);
     Surface_Handle := fun w => (7, w);
     GetPhysicalDeviceSurfaceSupportKHR :=
       fun _ _ w => ((VK_SUCCESS, Some VK_TRUE), w);
     CreateSwapchainKHR := fun _ w => ((VK_SUCCESS, Some 9), w);
     GetSwapchainImagesKHR_count :=
       fun _ w => ((VK_SUCCESS, Some (image_count sc)), w);
     GetSwapchainImagesKHR :=
       fun _ count w =>
         ((VK_SUCCESS, Some count,
           (fun i => N.of_nat i) <$> seq 101 (N.to_nat count)), w);
     AcquireNextImageKHR :=
       fun _ _ _ _ w =>
         ((acquire_status sc,
           Some (acquired w mod image_count sc + index_offset sc)),
          {| acquired := acquired w + 1; made := made w |});
     QueuePresentKHR := fun _ w => (present_status sc, w);
     Backbuffer_new :=
       fun w => (backbuffer (made w),
                 {| acquired := acquired w; made := made w + 1 |});
     Backbuffer_WaitFences := fun _ w => (fences_signal sc, w);
     Backbuffer_ResetFences := fun _ w => (true, w);
     CommandBuffer_Begin := fun _ w => (true, w);
     CommandBuffer_End := fun _ w => (true, w);
     Image_new :=
       fun h w => ({| img_handle := h; img_valid := negb (h =? 0) |}, w);
     Image_InsertImageMemoryBarrier := fun _ _ _ _ _ _ w => (true, w);
     GrVkFormatIsSRGB := fun fmt => fmt =? 43;
     GrVkFormatToPixelConfig := fun fmt => if fmt =? 44 then 8 else 0;
     SkSurface_MakeFromBackendRenderTarget :=
       fun _ target _ w => (Some (1000 + fImage (rt_info target)), w);
     SkSurface_getRenderTargetHandle := fun _ w => (true, w);
     GrVkImageInfo_updateImageLayout := fun _ _ w => (tt, w) |}.

(** Three images, FIFO left as it is, every call succeeds. *)
Definition healthy : Script :=
  {| image_count := 3; present_mode := (true, None); fences_signal := true;
     acquire_status := VK_SUCCESS; index_offset := 0;
     present_status := VK_SUCCESS |}.

(** The device cannot choose a present mode and names none. *)
Definition no_present_mode : Script :=
  {| image_count := 3; present_mode := (false, None); fences_signal := true;
     acquire_status := VK_SUCCESS; index_offset := 0;
     present_status := VK_SUCCESS |}.

(** The fences of a slot never signal: [WaitFences] answers [false]. *)
Definition stalled : Script :=
  {| image_count := 3; present_mode := (true, None); fences_signal := false;
     acquire_status := VK_SUCCESS; index_offset := 0;
     present_status := VK_SUCCESS |}.

(** The surface changed under the chain. *)
Definition out_of_date : Script :=
  {| image_count := 3; present_mode := (true, None); fences_signal := true;
     acquire_status := VK_ERROR_OUT_OF_DATE_KHR; index_offset := 0;
     present_status := VK_SUCCESS |}.

(** The driver answers with a status [AcquireSurface] does not name. *)
Definition suboptimal : Script :=
  {| image_count := 3; present_mode := (true, None); fences_signal := true;
     acquire_status := VK_SUBOPTIMAL_KHR; index_offset := 0;
     present_status := VK_SUCCESS |}.

(** The driver hands out image indices beyond the chain. *)
Definition wild_index : Script :=
  {| image_count := 3; present_mode := (true, None); fences_signal := true;
     acquire_status := VK_SUCCESS; index_offset := 3;
     present_status := VK_SUCCESS |}.

(** Presentation fails. *)
Definition present_fails : Script :=
  {| image_count := 3; present_mode := (true, None); fences_signal := true;
     acquire_status := VK_SUCCESS; index_offset := 0;
     present_status := VK_ERROR_DEVICE_LOST |}.

(** The swapchain has no images. *)
Definition no_images : Script :=
  {| image_count := 0; present_mode := (true, None); fences_signal := true;
     acquire_status := VK_SUCCESS; index_offset := 0;
     present_status := VK_SUCCESS |}.

(** The device prefers the mailbox mode and says so. *)
Definition mailbox : Script :=
  {| image_count := 3;
     present_mode := (true, Some VK_PRESENT_MODE_MAILBOX_KHR);
     fences_signal := true;
     acquire_status := VK_SUCCESS; index_offset := 0;
     present_status := VK_SUCCESS |}.

(** The device writes the mailbox mode and then reports failure. *)
Definition failed_mailbox : Script :=
  {| image_count := 3;
     present_mode := (false, Some VK_PRESENT_MODE_MAILBOX_KHR);
     fences_signal := true;
     acquire_status := VK_SUCCESS; index_offset := 0;
     present_status := VK_SUCCESS |}.

Definition power_on : World := {| acquired := 0; made := 0 |}.

End Fake.

(** ** The monad of member functions

    A statement either falls through with a value, leaves the function
    with [return r], or has no defined behaviour (an [operator[]] out of
    range, a null [sk_sp] dereferenced). *)
Inductive Step (R A : Type) : Type :=
| Next (a : A)
| Returned (r : R)
| Undefined.

Arguments Next {R A}.
Arguments Returned {R A}.
Arguments Undefined {R A}.

Section Swapchain.

Context {W : Type}.
Variable vk : Platform W.

Record Machine := {
  self : VulkanSwapchain;   (* *this *)
  world : W;                (* the driver and the objects it owns *)
  trace : list Event        (* calls made so far, oldest first *)
}.

Definition Op (R A : Type) : Type := Machine -> Step R A * Machine.

Definition op_ret {R A} (a : A) : Op R A := fun m => (Next a, m).

Definition op_bind {R A B} (k : A -> Op R B) (c : Op R A) : Op R B :=
  fun m =>
    match c m with
    | (Next a, m') => k a m'
    | (Returned r, m') => (Returned r, m')
    | (Undefined, m') => (Undefined, m')
    end.

#[local] Instance Op_ret {R} : MRet (Op R) := @op_ret R.
#[local] Instance Op_bind {R} : MBind (Op R) := @op_bind R.

(** [return r;] *)
Definition return_ {R A} (r : R) : Op R A := fun m => (Returned r, m).

Definition undefined {R A} : Op R A := fun m => (Undefined, m).

(** Reading and writing a member of [*this]. *)
Definition get {R A} (field : VulkanSwapchain -> A) : Op R A :=
  fun m => (Next (field (self m)), m).

Definition put {R} (update : VulkanSwapchain -> VulkanSwapchain) : Op R unit :=
  fun m => (Next tt, {| self := update (self m); world := world m;
                        trace := trace m |}).

(** [v[i]] on a [std::vector]. *)
Definition at_ {R A} (v : list A) (i : N) : Op R A :=
  match v !! N.to_nat i with
  | Some x => mret x
  | None => undefined
  end.

(** [p->...] on an [sk_sp]. *)
Definition deref {R A} (p : option A) : Op R A :=
  match p with
  | Some x => mret x
  | None => undefined
  end.

(** A call that reaches a collaborator: the world moves and the trace
    grows by one event. *)
Definition call {R A} (f : W -> A * W) (ev : A -> Event) : Op R A :=
  fun m =>
    let '(a, w') := f (world m) in
    (Next a, {| self := self m; world := w'; trace := trace m ++ [ev a] |}).

(** Calling a member function from another one: its [return] becomes the
    value of the call expression. *)
Definition invoke {R R'} (body : Op R R) : Op R' R :=
  fun m =>
    match body m with
    | (Next r, m') => (Next r, m')
    | (Returned r, m') => (Next r, m')
    | (Undefined, m') => (Undefined, m')
    end.

(** What a finished body hands to its caller. *)
Definition outcome {R} (st : Step R R) : option R :=
  match st with Next r | Returned r => Some r | Undefined => None end.

(** A whole call from outside: the result, if defined, and the machine
    afterwards. *)
Definition run {R} (body : Op R R) (m : Machine) : option R * Machine :=
  match body m with
  | (Next r, m') => (Some r, m')
  | (Returned r, m') => (Some r, m')
  | (Undefined, m') => (None, m')
  end.

Definition boot (s : VulkanSwapchain) (w : W) : Machine :=
  {| self := s; world := w; trace := [] |}.

(** ** Member functions of [VulkanSwapchain] *)

Definition IsValid (s : VulkanSwapchain) : bool := valid_ s.

Definition GetImages : Op (list VkImage) (list VkImage) :=
  swapchain ← get swapchain_;
  '(res, out) ← call (GetSwapchainImagesKHR_count vk swapchain)
                     (fun a => EvGetSwapchainImagesKHR_count swapchain a.1 a.2);
  let count := out_param 0 (u32 <$> out) in
  if negb (res =? VK_SUCCESS)%Z then return_ [] else
  if count =? 0 then return_ [] else
  (* images.resize(count): count null handles, then the driver writes *)
  let images := repeat VK_NULL_HANDLE (N.to_nat count) in
  '(res, out, written) ←
     call (GetSwapchainImagesKHR vk swapchain count)
          (fun a => EvGetSwapchainImagesKHR swapchain count a.1.1 a.1.2 a.2);
  if negb (res =? VK_SUCCESS)%Z then return_ [] else
  return_ (take (N.to_nat count) (written ++ images)).

(** The extents are [uint32_t]; [SkISize::Make] takes two [int32_t], so
    the clamped extents are narrowed on the way out. *)
Definition GetSize (s : VulkanSwapchain) : SkISize :=
  let caps := capabilities_ s in
  let extents := currentExtent caps in
  let w :=
    if width extents <? width (minImageExtent caps)
    then width (minImageExtent caps)
    else if width (maxImageExtent caps) <? width extents
    then width (maxImageExtent caps)
    else width extents in
  let h :=
    if height extents <? height (minImageExtent caps)
    then height (minImageExtent caps)
    else if height (maxImageExtent caps) <? height extents
    then height (maxImageExtent caps)
    else height extents in
  {| fWidth := int32_t w; fHeight := int32_t h |}.

Definition SkColorSpaceFromVkFormat (fmt : VkFormat) : option SkColorSpace :=
  if GrVkFormatIsSRGB vk fmt then Some MakeSRGB
  else if fmt =? VK_FORMAT_R16G16B16A16_SFLOAT then Some MakeSRGBLinear
  else None.

Definition CreateSkiaSurface (gr_context : option GrContext) (image : VkImage)
    (size : SkISize) : Op (option SkSurface) (option SkSurface) :=
  match gr_context with
  | None => return_ None
  | Some ctx =>
    fmt ← get (fun s => format (surface_format_ s));
    let pixel_config := GrVkFormatToPixelConfig vk fmt in
    if pixel_config =? kUnknown_GrPixelConfig then return_ None else
    let image_info :=
      {| fImage := image; fImageTiling := VK_IMAGE_TILING_OPTIMAL;
         fImageLayout := VK_IMAGE_LAYOUT_UNDEFINED; fFormat := fmt;
         fLevelCount := 1 |} in
    let backend_render_target :=
      {| rt_width := fWidth size; rt_height := fHeight size;
         rt_sampleCnt := 0; rt_stencilBits := 0; rt_info := image_info |} in
    let cs := SkColorSpaceFromVkFormat fmt in
    surface ← call (SkSurface_MakeFromBackendRenderTarget
                      vk ctx backend_render_target cs)
                   (EvMakeFromBackendRenderTarget ctx backend_render_target cs);
    return_ surface
  end.

(** The body of [for (const VkImage& image : images)]. *)
Fixpoint CreateSwapchainImages_loop (skia_context : option GrContext)
    (surface_size : SkISize) (images : list VkImage) : Op bool unit :=
  match images with
  | [] => mret tt
  | image :: rest =>
    (* Populate the backbuffer. *)
    backbuffer ← call (Backbuffer_new vk) EvBackbufferNew;
    if negb (bb_valid backbuffer) then return_ false else
    _ ← put (fun s => set_backbuffers_ (backbuffers_ s ++ [backbuffer]) s);
    (* Populate the image. *)
    vulkan_image ← call (Image_new vk image) (EvImageNew image);
    if negb (img_valid vulkan_image) then return_ false else
    _ ← put (fun s => set_images_ (images_ s ++ [vulkan_image]) s);
    (* Populate the surface. *)
    surface ← invoke (CreateSkiaSurface skia_context image surface_size);
    match surface with
    | None => return_ false
    | Some _ =>
      _ ← put (fun s => set_surfaces_ (surfaces_ s ++ [surface]) s);
      CreateSwapchainImages_loop skia_context surface_size rest
    end
  end.

(** The two [FXL_DCHECK]s after the loop are debug assertions and compile
    to nothing in a release build; the negotiation theorems below show
    that the equalities they assert hold of every valid chain. *)
Definition CreateSwapchainImages (skia_context : option GrContext)
  : Op bool bool :=
  images ← invoke GetImages;
  if N.of_nat (length images) =? 0 then return_ false else
  surface_size ← get GetSize;
  _ ← CreateSwapchainImages_loop skia_context surface_size images;
  return_ true.

(** The member initialisers of the constructor.  The vectors and the
    swapchain handle are default-constructed. *)
Definition zero_extent : VkExtent2D := {| width := 0; height := 0 |}.

Definition initial : VulkanSwapchain :=
  {| capabilities_ :=
       {| minImageCount := 0; currentExtent := zero_extent;
          minImageExtent := zero_extent; maxImageExtent := zero_extent |};
     surface_format_ := {| format := 0; colorSpace := 0 |};
     swapchain_ := VK_NULL_HANDLE;
     backbuffers_ := []; images_ := []; surfaces_ := [];
     current_pipeline_stage_ := VK_PIPELINE_STAGE_TOP_OF_PIPE_BIT;
     current_backbuffer_index_ := 0;
     current_image_index_ := 0;
     valid_ := false |}.

(** The constructor body.  [old_swapchain] is the predecessor the caller
    hands over, or [None] for a null pointer; only its validity and its
    native handle are read here.  The predecessor is destroyed when the
    parameter goes out of scope; what its handle wrapper does then (wait
    for the device, destroy the native swapchain) is code of the wrapper
    and is not part of this trace.  The device's own handles
    ([GetHandle], [GetPhysicalDeviceHandle], [GetQueueHandle]) are fixed
    for the life of the object and are left out of the call arguments. *)
Definition VulkanSwapchain_ctor (skia_context : option GrContext)
    (old_swapchain : option VulkanSwapchain) (queue_family_index : N)
  : Op unit unit :=
  device_ok ← call (Device_IsValid vk) EvDeviceIsValid;
  if negb device_ok then return_ tt else
  surface_ok ← call (Surface_IsValid vk) EvSurfaceIsValid;
  if negb surface_ok then return_ tt else
  if is_nullptr skia_context then return_ tt else
  '(ok, out) ← call (Device_GetSurfaceCapabilities vk)
                    (fun a => EvGetSurfaceCapabilities a.1 a.2);
  _ ← put (fun s => set_capabilities_ (out_param (capabilities_ s) out) s);
  if negb ok then return_ tt else
  '(ok, out) ← call (Device_ChooseSurfaceFormat vk)
                    (fun a => EvChooseSurfaceFormat a.1 a.2);
  _ ← put (fun s => set_surface_format_ (out_param (surface_format_ s) out) s);
  if negb ok then return_ tt else
  '(ok, out) ← call (Device_ChoosePresentMode vk)
                    (fun a => EvChoosePresentMode a.1 a.2);
  let present_mode := out_param VK_PRESENT_MODE_FIFO_KHR out in
  if negb ok then return_ tt else
  (* Check if the surface can present. *)
  handle ← call (Surface_Handle vk) EvSurfaceHandle;
  '(res, out) ←
     call (GetPhysicalDeviceSurfaceSupportKHR vk queue_family_index handle)
          (fun a => EvGetPhysicalDeviceSurfaceSupportKHR
                      queue_family_index handle a.1 a.2);
  let supported := out_param VK_FALSE out in
  if negb (res =? VK_SUCCESS)%Z then return_ tt else
  if negb (supported =? VK_TRUE) then return_ tt else
  (* Construct the Swapchain *)
  let old_swapchain_handle :=
    match old_swapchain with
    | Some old => if IsValid old then swapchain_ old else VK_NULL_HANDLE
    | None => VK_NULL_HANDLE
    end in
  surface_handle ← call (Surface_Handle vk) EvSurfaceHandle;
  caps ← get capabilities_;
  fmt ← get surface_format_;
  let create_info :=
    {| ci_surface := surface_handle;
       ci_minImageCount := minImageCount caps;
       ci_imageFormat := format fmt;
       ci_imageColorSpace := colorSpace fmt;
       ci_imageExtent := currentExtent caps;
       ci_imageArrayLayers := 1;
       ci_imageUsage := VK_IMAGE_USAGE_COLOR_ATTACHMENT_BIT;
       ci_imageSharingMode := VK_SHARING_MODE_EXCLUSIVE;
       ci_queueFamilyIndexCount := 0;
       ci_preTransform := VK_SURFACE_TRANSFORM_IDENTITY_BIT_KHR;
       ci_compositeAlpha := VK_COMPOSITE_ALPHA_INHERIT_BIT_KHR;
       ci_presentMode := present_mode;
       ci_clipped := VK_FALSE;
       ci_oldSwapchain := old_swapchain_handle |} in
  '(res, out) ← call (CreateSwapchainKHR vk create_info)
                     (fun a => EvCreateSwapchainKHR create_info a.1 a.2);
  let swapchain := out_param VK_NULL_HANDLE out in
  if negb (res =? VK_SUCCESS)%Z then return_ tt else
  _ ← put (set_swapchain_ swapchain);
  images_ok ← invoke (CreateSwapchainImages skia_context);
  if negb images_ok then return_ tt else
  put (set_valid_ true).

Definition construct (skia_context : option GrContext)
    (old_swapchain : option VulkanSwapchain) (queue_family_index : N)
    (w : W) : Machine :=
  (run (VulkanSwapchain_ctor skia_context old_swapchain queue_family_index)
       (boot initial w)).2.

Definition GetNextBackbuffer
  : Op (option VulkanBackbuffer) (option VulkanBackbuffer) :=
  backbuffers ← get backbuffers_;
  let available_backbuffers := N.of_nat (length backbuffers) in
  if available_backbuffers =? 0 then return_ None else
  current ← get current_backbuffer_index_;
  let next_backbuffer_index :=
    size_t (current + 1) mod N.of_nat (length backbuffers) in
  backbuffer ← at_ backbuffers next_backbuffer_index;
  if negb (bb_valid backbuffer) then return_ None else
  _ ← put (set_current_backbuffer_index_ next_backbuffer_index);
  return_ (Some backbuffer).

Definition AcquireSurface : Op AcquireResult AcquireResult :=
  let error : AcquireResult := (ErrorSurfaceLost, None) in
  valid ← get IsValid;
  if negb valid then return_ error else
  (* Step 0: Acquire the next available backbuffer. *)
  next ← invoke GetNextBackbuffer;
  match next with
  | None => return_ error
  | Some backbuffer =>
    (* Step 1: Wait for use readiness. *)
    waited ← call (Backbuffer_WaitFences vk backbuffer)
                  (EvWaitFences backbuffer);
    if negb waited then return_ error else
    (* Step 2: Put semaphores in unsignaled state. *)
    reset ← call (Backbuffer_ResetFences vk backbuffer)
                 (EvResetFences backbuffer);
    if negb reset then return_ error else
    (* Step 3: Acquire the next image index. *)
    swapchain ← get swapchain_;
    '(acquire_result, out) ←
       call (AcquireNextImageKHR vk swapchain UINT64_MAX
               (usage_semaphore backbuffer) VK_NULL_HANDLE)
            (fun a => EvAcquireNextImageKHR swapchain UINT64_MAX
                        (usage_semaphore backbuffer) VK_NULL_HANDLE a.1 a.2);
    let next_image_index := out_param 0 (u32 <$> out) in
    _ ← (if (acquire_result =? VK_SUCCESS)%Z then mret tt
         else if (acquire_result =? VK_ERROR_OUT_OF_DATE_KHR)%Z
         then return_ (ErrorSurfaceOutOfDate, None)
         else if (acquire_result =? VK_ERROR_SURFACE_LOST_KHR)%Z
         then return_ (ErrorSurfaceLost, None)
         else return_ (ErrorSurfaceLost, None));
    (* Simple sanity checking of image index. *)
    images ← get images_;
    if N.of_nat (length images) <=? next_image_index
    then return_ error else
    image ← at_ images next_image_index;
    if negb (img_valid image) then return_ error else
    (* Step 4: Start recording to the command buffer. *)
    began ← call (CommandBuffer_Begin vk (usage_command_buffer backbuffer))
                 (EvBegin (usage_command_buffer backbuffer));
    if negb began then return_ error else
    (* Step 5: Set image layout to color attachment mode. *)
    let destination_pipeline_stage :=
      VK_PIPELINE_STAGE_COLOR_ATTACHMENT_OUTPUT_BIT in
    let destination_image_layout :=
      VK_IMAGE_LAYOUT_COLOR_ATTACHMENT_OPTIMAL in
    stage ← get current_pipeline_stage_;
    inserted ←
      call (Image_InsertImageMemoryBarrier vk image
              (usage_command_buffer backbuffer) stage
              destination_pipeline_stage
              VK_ACCESS_COLOR_ATTACHMENT_WRITE_BIT destination_image_layout)
           (EvInsertImageMemoryBarrier image
              (usage_command_buffer backbuffer) stage
              destination_pipeline_stage
              VK_ACCESS_COLOR_ATTACHMENT_WRITE_BIT destination_image_layout);
    if negb inserted then return_ error else
    _ ← put (set_current_pipeline_stage_ destination_pipeline_stage);
    (* Step 6: End recording to the command buffer. *)
    ended ← call (CommandBuffer_End vk (usage_command_buffer backbuffer))
                 (EvEnd (usage_command_buffer backbuffer));
    if negb ended then return_ error else
    (* Step 7: Submit the command buffer to the device queue. *)
    let wait_semaphores := [usage_semaphore backbuffer] in
    let signal_semaphores : list VkSemaphore := [] in
    let command_buffers := [usage_command_buffer backbuffer] in
    submitted ←
      call (Device_QueueSubmit vk [destination_pipeline_stage]
              wait_semaphores signal_semaphores command_buffers
              (usage_fence backbuffer))
           (EvQueueSubmit [destination_pipeline_stage]
              wait_semaphores signal_semaphores command_buffers
              (usage_fence backbuffer));
    if negb submitted then return_ error else
    (* Step 8: Tell Skia about the updated image layout. *)
    surfaces ← get surfaces_;
    surface ← at_ surfaces next_image_index;
    match surface with
    | None => return_ error
    | Some sk_surface =>
      handle_ok ← call (SkSurface_getRenderTargetHandle vk sk_surface)
                       (EvGetRenderTargetHandle sk_surface);
      if negb handle_ok then return_ error else
      _ ← call (GrVkImageInfo_updateImageLayout vk sk_surface
                  destination_image_layout)
               (fun _ => EvUpdateImageLayout sk_surface
                           destination_image_layout);
      _ ← put (set_current_image_index_ next_image_index);
      return_ (Success, surface)
    end
  end.

Definition Submit : Op bool bool :=
  valid ← get IsValid;
  if negb valid then return_ false else
  surfaces ← get surfaces_;
  images ← get images_;
  backbuffers ← get backbuffers_;
  image_index ← get current_image_index_;
  backbuffer_index ← get current_backbuffer_index_;
  surface ← at_ surfaces image_index;
  image ← at_ images image_index;
  backbuffer ← at_ backbuffers backbuffer_index;
  (* Step 0: Notify to Skia that we will read from its backend object. *)
  sk_surface ← deref surface;
  handle_ok ← call (SkSurface_getRenderTargetHandle vk sk_surface)
                   (EvGetRenderTargetHandle sk_surface);
  if negb handle_ok then return_ false else
  (* Step 1: Start recording to the command buffer. *)
  began ← call (CommandBuffer_Begin vk (render_command_buffer backbuffer))
               (EvBegin (render_command_buffer backbuffer));
  if negb began then return_ false else
  (* Step 2: Set image layout to present mode. *)
  let destination_pipeline_stage := VK_PIPELINE_STAGE_BOTTOM_OF_PIPE_BIT in
  let destination_image_layout := VK_IMAGE_LAYOUT_PRESENT_SRC_KHR in
  stage ← get current_pipeline_stage_;
  inserted ←
    call (Image_InsertImageMemoryBarrier vk image
            (render_command_buffer backbuffer) stage
            destination_pipeline_stage
            VK_ACCESS_MEMORY_READ_BIT destination_image_layout)
         (EvInsertImageMemoryBarrier image
            (render_command_buffer backbuffer) stage
            destination_pipeline_stage
            VK_ACCESS_MEMORY_READ_BIT destination_image_layout);
  if negb inserted then return_ false else
  _ ← put (set_current_pipeline_stage_ destination_pipeline_stage);
  (* Step 3: End recording to the command buffer. *)
  ended ← call (CommandBuffer_End vk (render_command_buffer backbuffer))
               (EvEnd (render_command_buffer backbuffer));
  if negb ended then return_ false else
  (* Step 4: Submit the command buffer to the device queue. Tell it to
     signal the render semaphore. *)
  let wait_semaphores : list VkSemaphore := [] in
  let queue_signal_semaphores := [render_semaphore backbuffer] in
  let command_buffers := [render_command_buffer backbuffer] in
  submitted ←
    call (Device_QueueSubmit vk [] wait_semaphores queue_signal_semaphores
            command_buffers (render_fence backbuffer))
         (EvQueueSubmit [] wait_semaphores queue_signal_semaphores
            command_buffers (render_fence backbuffer));
  if negb submitted then return_ false else
  (* Step 5: Submit the present operation and wait on the render
     semaphore. *)
  swapchain ← get swapchain_;
  let present_image_index := u32 image_index in
  let present_info :=
    {| pi_waitSemaphores := queue_signal_semaphores;
       pi_swapchains := [swapchain];
       pi_imageIndices := [present_image_index] |} in
  presented ← call (QueuePresentKHR vk present_info)
                   (EvQueuePresentKHR present_info);
  if negb (presented =? VK_SUCCESS)%Z then return_ false else
  return_ true.

(** ** Vocabulary of the properties *)

Definition ring_size (s : VulkanSwapchain) : N :=
  N.of_nat (length (backbuffers_ s)).

(** The backbuffer slot [current_backbuffer_index_] points at. *)
Definition selected_slot (s : VulkanSwapchain) : option VulkanBackbuffer :=
  backbuffers_ s !! N.to_nat (current_backbuffer_index_ s).

(** What holds of a chain the constructor has marked valid, and keeps
    holding between calls. *)
Record chain_ok (s : VulkanSwapchain) : Prop := {
  ok_valid : valid_ s = true;
  ok_backbuffers_images : length (backbuffers_ s) = length (images_ s);
  ok_images_surfaces : length (images_ s) = length (surfaces_ s);
  ok_nonempty : (1 <= length (images_ s))%nat;
  ok_count_u32 : N.of_nat (length (images_ s)) < 2 ^ 32;
  ok_slots_valid : Forall (fun b => bb_valid b = true) (backbuffers_ s);
  ok_images_valid : Forall (fun i => img_valid i = true) (images_ s);
  ok_surfaces_nonnull : Forall is_Some (surfaces_ s);
  ok_image_index : current_image_index_ s < N.of_nat (length (images_ s));
  ok_backbuffer_index : current_backbuffer_index_ s < ring_size s
}.

(** Every [ResetFences] in the trace comes after a [WaitFences] on the
    same backbuffer that answered [true]. *)
Definition reset_follows_wait (tr : list Event) : Prop :=
  forall pre b ok post,
    tr = pre ++ EvResetFences b ok :: post -> In (EvWaitFences b true) pre.

Definition no_reset (tr : list Event) : Prop :=
  forall b ok, ~ In (EvResetFences b ok) tr.

(** The image count the driver reported to the count query. *)
Definition reported_count (out : option N) : N := out_param 0 (u32 <$> out).

(** The image index [AcquireNextImageKHR] left in [next_image_index]. *)
Definition returned_index (out : option N) : N := out_param 0 (u32 <$> out).

(** Does the event report a failure of the call it records? *)
Definition failed (e : Event) : bool :=
  match e with
  | EvWaitFences _ ok | EvResetFences _ ok | EvBegin _ ok | EvEnd _ ok
  | EvInsertImageMemoryBarrier _ _ _ _ _ _ ok
  | EvQueueSubmit _ _ _ _ _ ok | EvGetRenderTargetHandle _ ok
  | EvDeviceIsValid ok | EvSurfaceIsValid ok
  | EvGetSurfaceCapabilities ok _ | EvChooseSurfaceFormat ok _
  | EvChoosePresentMode ok _ => negb ok
  | EvAcquireNextImageKHR _ _ _ _ res _ | EvQueuePresentKHR _ res
  | EvGetPhysicalDeviceSurfaceSupportKHR _ _ res _
  | EvCreateSwapchainKHR _ res _ | EvGetSwapchainImagesKHR_count _ res _
  | EvGetSwapchainImagesKHR _ _ res _ _ => negb (res =? VK_SUCCESS)%Z
  | EvMakeFromBackendRenderTarget _ _ _ out => is_nullptr out
  | EvBackbufferNew b => negb (bb_valid b)
  | EvImageNew _ i => negb (img_valid i)
  | EvSurfaceHandle _ | EvUpdateImageLayout _ _ => false
  end.

(** One frame as the caller drives it: [AcquireSurface], then [Submit].
    The frame's slot is the backbuffer index in force between the two. *)
Definition cycle (m : Machine) : N * Machine :=
  let m1 := (run AcquireSurface m).2 in
  let m2 := (run Submit m1).2 in
  (current_backbuffer_index_ (self m1), m2).

(** The slots of [n] consecutive frames. *)
Fixpoint cycles (n : nat) (m : Machine) : list N :=
  match n with
  | O => []
  | S k => let '(slot, m') := cycle m in slot :: cycles k m'
  end.

(** The machines a caller can be holding: fresh from the constructor, or
    after any number of [AcquireSurface] and [Submit] calls, with the
    driver's world moving on its own in between. *)
Inductive Reachable : Machine -> Prop :=
| reach_construct skia_context old_swapchain queue_family_index w :
    Reachable (construct skia_context old_swapchain queue_family_index w)
| reach_acquire m :
    Reachable m -> Reachable (run AcquireSurface m).2
| reach_submit m :
    Reachable m -> Reachable (run Submit m).2
| reach_world m w :
    Reachable m ->
    Reachable {| self := self m; world := w; trace := trace m |}.

(** The counts the driver reported to the count queries of a trace. *)
Definition reported_counts (tr : list Event) : list N :=
  omap (fun e =>
          match e with
          | EvGetSwapchainImagesKHR_count _ _ out => Some (reported_count out)
          | _ => None
          end) tr.

(** The members the image loop of the constructor does not write. *)
Definition same_scalars (s s' : VulkanSwapchain) : Prop :=
  valid_ s' = valid_ s
  /\ current_image_index_ s' = current_image_index_ s
  /\ current_backbuffer_index_ s' = current_backbuffer_index_ s
  /\ current_pipeline_stage_ s' = current_pipeline_stage_ s
  /\ swapchain_ s' = swapchain_ s
  /\ capabilities_ s' = capabilities_ s
  /\ surface_format_ s' = surface_format_ s.

(** The members [AcquireSurface] and [Submit] do not write. *)
Definition same_chain (s s' : VulkanSwapchain) : Prop :=
  valid_ s' = valid_ s
  /\ backbuffers_ s' = backbuffers_ s
  /\ images_ s' = images_ s
  /\ surfaces_ s' = surfaces_ s
  /\ swapchain_ s' = swapchain_ s.

Definition loop_post (n : nat) (m : Machine) (st : Step bool unit)
    (m' : Machine) : Prop :=
  reported_counts (trace m') = reported_counts (trace m)
  /\ same_scalars (self m) (self m')
  /\ match st with
     | Next _ =>
         exists bs ims ss,
           backbuffers_ (self m') = backbuffers_ (self m) ++ bs
           /\ images_ (self m') = images_ (self m) ++ ims
           /\ surfaces_ (self m') = surfaces_ (self m) ++ ss
           /\ length bs = n /\ length ims = n /\ length ss = n
           /\ Forall (fun b => bb_valid b = true) bs
           /\ Forall (fun i => img_valid i = true) ims
           /\ Forall is_Some ss
     | Returned r => r = false
     | Undefined => False
     end.

Definition images_post (m : Machine) (st : Step bool bool) (m' : Machine)
  : Prop :=
  same_scalars (self m) (self m')
  /\ exists n,
      reported_counts (trace m') = reported_counts (trace m) ++ [n]
      /\ n < 2 ^ 32
      /\ match outcome st with
         | Some true =>
             exists bs ims ss,
               backbuffers_ (self m') = backbuffers_ (self m) ++ bs
               /\ images_ (self m') = images_ (self m) ++ ims
               /\ surfaces_ (self m') = surfaces_ (self m) ++ ss
               /\ N.of_nat (length bs) = n
               /\ N.of_nat (length ims) = n
               /\ N.of_nat (length ss) = n
               /\ 1 <= n
               /\ Forall (fun b => bb_valid b = true) bs
               /\ Forall (fun i => img_valid i = true) ims
               /\ Forall is_Some ss
         | Some false => True
         | None => False
         end.

(** The calls [Submit] makes on a chain [s], with the arguments it gives
    them. *)
Definition submit_event (s : VulkanSwapchain) (e : Event) : Prop :=
  match e with
  | EvGetRenderTargetHandle sk _ =>
      surfaces_ s !! N.to_nat (current_image_index_ s) = Some (Some sk)
  | EvBegin cb _ | EvEnd cb _ =>
      exists b, selected_slot s = Some b /\ cb = render_command_buffer b
  | EvInsertImageMemoryBarrier image cb src dst access layout _ =>
      images_ s !! N.to_nat (current_image_index_ s) = Some image
      /\ (exists b, selected_slot s = Some b /\ cb = render_command_buffer b)
      /\ dst = VK_PIPELINE_STAGE_BOTTOM_OF_PIPE_BIT
      /\ access = VK_ACCESS_MEMORY_READ_BIT
      /\ layout = VK_IMAGE_LAYOUT_PRESENT_SRC_KHR
  | EvQueueSubmit stages waits signals cmds fence _ =>
      exists b,
        selected_slot s = Some b
        /\ stages = [] /\ waits = []
        /\ signals = [render_semaphore b]
        /\ cmds = [render_command_buffer b]
        /\ fence = render_fence b
  | EvQueuePresentKHR info _ =>
      exists b,
        selected_slot s = Some b
        /\ info = {| pi_waitSemaphores := [render_semaphore b];
                     pi_swapchains := [swapchain_ s];
                     pi_imageIndices := [u32 (current_image_index_ s)] |}
  | _ => False
  end.

(** The calls [AcquireSurface] can make. *)
Definition acquire_event (e : Event) : Prop :=
  match e with
  | EvWaitFences _ _ | EvResetFences _ _
  | EvAcquireNextImageKHR _ _ _ _ _ _
  | EvBegin _ _ | EvEnd _ _ | EvQueueSubmit _ _ _ _ _ _
  | EvGetRenderTargetHandle _ _ | EvUpdateImageLayout _ _ => True
  | EvInsertImageMemoryBarrier _ _ _ _ _ layout _ =>
      layout = VK_IMAGE_LAYOUT_COLOR_ATTACHMENT_OPTIMAL
  | _ => False
  end.

(** The calls [CreateSwapchainImages] can make. *)
Definition images_event (e : Event) : Prop :=
  match e with
  | EvGetSwapchainImagesKHR_count _ _ _ | EvGetSwapchainImagesKHR _ _ _ _ _
  | EvBackbufferNew _ | EvImageNew _ _
  | EvMakeFromBackendRenderTarget _ _ _ _ => True
  | _ => False
  end.

(** Negotiation went no further than the present-mode step: choosing the
    present mode is the last thing the constructor did. *)
Definition stops_at_present_mode (tr : list Event) : Prop :=
  exists ok out, last tr = Some (EvChoosePresentMode ok out).

(** The eighth claim as the specification words it: whenever the device
    names no present mode of its own, negotiation goes on past the
    present-mode step and the swapchain is created with FIFO. *)
Definition fifo_default_claim (skia_context : option GrContext)
    (old_swapchain : option VulkanSwapchain) (queue_family_index : N)
    (w : W) : Prop :=
  let m := construct skia_context old_swapchain queue_family_index w in
  forall ok,
    In (EvChoosePresentMode ok None) (trace m) ->
    ~ stops_at_present_mode (trace m)
    /\ forall info res out,
         In (EvCreateSwapchainKHR info res out) (trace m) ->
         ci_presentMode info = VK_PRESENT_MODE_FIFO_KHR.

(** What the constructor leaves behind: both indices at 0, and either an
    invalid chain or a chain in order whose sizes are the one count the
    driver reported. *)
Definition negotiated (m : Machine) : Prop :=
  (current_image_index_ (self m) = 0
   /\ current_backbuffer_index_ (self m) = 0)
  /\ ((valid_ (self m) = false
       /\ (reported_counts (trace m) = []
           \/ exists n, reported_counts (trace m) = [n]))
      \/ (chain_ok (self m)
          /\ reported_counts (trace m)
              = [N.of_nat (length (images_ (self m)))])).

(** ** Vocabulary of the further properties *)

(** Which collaborator call an event records; the calls of negotiation
    are lumped together. *)
Inductive CallName :=
| CallWaitFences | CallResetFences | CallAcquireNextImageKHR
| CallBegin | CallInsertImageMemoryBarrier | CallEnd | CallQueueSubmit
| CallGetRenderTargetHandle | CallUpdateImageLayout | CallQueuePresentKHR
| CallNegotiation.

Definition call_of (e : Event) : CallName :=
  match e with
  | EvWaitFences _ _ => CallWaitFences
  | EvResetFences _ _ => CallResetFences
  | EvAcquireNextImageKHR _ _ _ _ _ _ => CallAcquireNextImageKHR
  | EvBegin _ _ => CallBegin
  | EvInsertImageMemoryBarrier _ _ _ _ _ _ _ => CallInsertImageMemoryBarrier
  | EvEnd _ _ => CallEnd
  | EvQueueSubmit _ _ _ _ _ _ => CallQueueSubmit
  | EvGetRenderTargetHandle _ _ => CallGetRenderTargetHandle
  | EvUpdateImageLayout _ _ => CallUpdateImageLayout
  | EvQueuePresentKHR _ _ => CallQueuePresentKHR
  | _ => CallNegotiation
  end.

(** The calls of a complete [AcquireSurface], in the order of its steps
    1 to 8, and those of a complete [Submit], steps 0 to 5. *)
Definition acquire_protocol : list CallName :=
  [CallWaitFences; CallResetFences; CallAcquireNextImageKHR; CallBegin;
   CallInsertImageMemoryBarrier; CallEnd; CallQueueSubmit;
   CallGetRenderTargetHandle; CallUpdateImageLayout].

Definition submit_protocol : list CallName :=
  [CallGetRenderTargetHandle; CallBegin; CallInsertImageMemoryBarrier;
   CallEnd; CallQueueSubmit; CallQueuePresentKHR].

Definition all_ok (tr : list Event) : Prop :=
  Forall (fun e => failed e = false) tr.

(** A failed call, if there is one, is the last call of the trace. *)
Definition stops_at_failure (tr : list Event) : Prop :=
  forall pre e post, tr = pre ++ e :: post -> failed e = true -> post = [].

(** What the vector [GetImages] returns holds after the driver was given
    room for [count] handles and wrote [written]. *)
Definition filled (count : N) (written : list VkImage) : list VkImage :=
  take (N.to_nat count) (written ++ repeat VK_NULL_HANDLE (N.to_nat count)).

(** The render target the constructor asks Skia to wrap for [image] on a
    chain [s]. *)
Definition render_target_of (s : VulkanSwapchain) (image : VkImage)
  : GrBackendRenderTarget :=
  {| rt_width := fWidth (GetSize s); rt_height := fHeight (GetSize s);
     rt_sampleCnt := 0; rt_stencilBits := 0;
     rt_info :=
       {| fImage := image; fImageTiling := VK_IMAGE_TILING_OPTIMAL;
          fImageLayout := VK_IMAGE_LAYOUT_UNDEFINED;
          fFormat := format (surface_format_ s); fLevelCount := 1 |} |}.

(** What the constructor asks of Skia on a chain [s] with the context
    [ctx]: every surface request goes to that context, is for
    [render_target_of] some image, carries the colour space of the chosen
    format, and is made only for a pixel format Skia knows. *)
Definition surface_request (ctx : option GrContext) (s : VulkanSwapchain)
    (e : Event) : Prop :=
  match e with
  | EvMakeFromBackendRenderTarget c target cs _ =>
      ctx = Some c
      /\ (exists image, target = render_target_of s image)
      /\ cs = SkColorSpaceFromVkFormat (format (surface_format_ s))
      /\ GrVkFormatToPixelConfig vk (format (surface_format_ s))
         <> kUnknown_GrPixelConfig
  | _ => True
  end.

(** The members of a chain a frame does not write. *)
Definition same_negotiation (s s' : VulkanSwapchain) : Prop :=
  IsValid s' = IsValid s
  /\ GetSize s' = GetSize s
  /\ capabilities_ s' = capabilities_ s
  /\ surface_format_ s' = surface_format_ s
  /\ swapchain_ s' = swapchain_ s
  /\ backbuffers_ s' = backbuffers_ s
  /\ images_ s' = images_ s
  /\ surfaces_ s' = surfaces_ s.

(** A trace of calls that all succeeded, then at most one more call. *)
Definition ok_then_one (tr : list Event) : Prop :=
  exists pre last_call,
    tr = pre ++ last_call /\ all_ok pre /\ (length last_call <= 1)%nat.

(** How the trace grows over [CreateSwapchainImages] and its loop: by
    calls that all succeeded when the images were all populated, and by
    successful calls and at most one more otherwise. *)
Definition grows_ok (populated : bool) (m m' : Machine) : Prop :=
  exists extra,
    trace m' = trace m ++ extra
    /\ if populated then all_ok extra else ok_then_one extra.

(** Every image index an [AcquireNextImageKHR] of the trace returned is
    below [n]. *)
Definition indices_below (n : N) (tr : list Event) : bool :=
  forallb (fun e =>
             match e with
             | EvAcquireNextImageKHR _ _ _ _ _ out => returned_index out <? n
             | _ => true
             end) tr.

(** ** A weakest-precondition reading of the monad

    [wp c m Q]: running [c] from [m] ends in a step and a machine that
    satisfy [Q].  One rule per primitive lets a proof walk a member
    function statement by statement, forking at every test and taking
    each collaborator's answer as an unknown. *)

Definition wp {R A} (c : Op R A) (m : Machine)
    (Q : Step R A -> Machine -> Prop) : Prop :=
  Q (c m).1 (c m).2.

Lemma wp_bind {R A B} (c : Op R A) (k : A -> Op R B) m Q :
  wp c m (fun st m' =>
            match st with
            | Next a => wp (k a) m' Q
            | Returned r => Q (Returned r) m'
            | Undefined => Q Undefined m'
            end) ->
  wp (c ≫= k) m Q.
Proof.
  unfold wp, mbind, Op_bind, op_bind.
  destruct (c m) as [[a|r|] m']; simpl; auto.
Qed.

Lemma wp_ret {R A} (a : A) m (Q : Step R A -> Machine -> Prop) :
  Q (Next a) m -> wp (mret a) m Q.
Proof. auto. Qed.

Lemma wp_return {R A} (r : R) m (Q : Step R A -> Machine -> Prop) :
  Q (Returned r) m -> wp (return_ r) m Q.
Proof. auto. Qed.

Lemma wp_undefined {R A} m (Q : Step R A -> Machine -> Prop) :
  Q Undefined m -> wp undefined m Q.
Proof. auto. Qed.

Lemma wp_get {R A} (f : VulkanSwapchain -> A) m
    (Q : Step R A -> Machine -> Prop) :
  Q (Next (f (self m))) m -> wp (get f) m Q.
Proof. auto. Qed.

Lemma wp_put {R} f m (Q : Step R unit -> Machine -> Prop) :
  Q (Next tt) {| self := f (self m); world := world m; trace := trace m |} ->
  wp (put f) m Q.
Proof. auto. Qed.

Lemma wp_call {R A} (f : W -> A * W) ev m (Q : Step R A -> Machine -> Prop) :
  (forall a w', f (world m) = (a, w') ->
     Q (Next a)
       {| self := self m; world := w'; trace := trace m ++ [ev a] |}) ->
  wp (call f ev) m Q.
Proof.
  unfold wp, call. intros H. destruct (f (world m)) as [a w'] eqn:E.
  simpl. auto.
Qed.

Lemma wp_invoke {R R'} (body : Op R R) m (Q : Step R' R -> Machine -> Prop) :
  wp body m (fun st m' =>
               match st with
               | Next r | Returned r => Q (Next r) m'
               | Undefined => Q Undefined m'
               end) ->
  wp (invoke body) m Q.
Proof.
  unfold wp, invoke. destruct (body m) as [[a|r|] m']; simpl; auto.
Qed.

Lemma wp_at {R A} (v : list A) i m (Q : Step R A -> Machine -> Prop) :
  (forall x, v !! N.to_nat i = Some x -> Q (Next x) m) ->
  (v !! N.to_nat i = None -> Q Undefined m) ->
  wp (at_ v i) m Q.
Proof.
  unfold wp, at_. intros H1 H2. destruct (v !! N.to_nat i); simpl; auto.
Qed.

Lemma wp_deref {R A} (p : option A) m (Q : Step R A -> Machine -> Prop) :
  (forall x, p = Some x -> Q (Next x) m) ->
  (p = None -> Q Undefined m) ->
  wp (deref p) m Q.
Proof.
  unfold wp, deref. intros H1 H2. destruct p; simpl; auto.
Qed.

Lemma wp_run {R} (body : Op R R) m (P : option R -> Machine -> Prop) :
  wp body m (fun st m' => P (outcome st) m') ->
  P (run body m).1 (run body m).2.
Proof.
  unfold wp, run. destruct (body m) as [[a|r|] m']; simpl; auto.
Qed.

Lemma wp_mono {R A} (c : Op R A) m (Q Q' : Step R A -> Machine -> Prop) :
  wp c m Q -> (forall st m', Q st m' -> Q' st m') -> wp c m Q'.
Proof. unfold wp. auto. Qed.

Lemma wp_conj {R A} (c : Op R A) m (Q1 Q2 : Step R A -> Machine -> Prop) :
  wp c m Q1 -> wp c m Q2 -> wp c m (fun st m' => Q1 st m' /\ Q2 st m').
Proof. unfold wp. auto. Qed.

Ltac machine_simpl :=
  cbn [self world trace boot fst snd app outcome
       capabilities_ surface_format_ swapchain_ backbuffers_ images_
       surfaces_ current_pipeline_stage_ current_backbuffer_index_
       current_image_index_ valid_ IsValid
       set_capabilities_ set_surface_format_ set_swapchain_
       set_backbuffers_ set_images_ set_surfaces_
       set_current_pipeline_stage_ set_current_backbuffer_index_
       set_current_image_index_ set_valid_] in *.

Ltac wp_step :=
  lazymatch goal with
  | |- wp (mbind _ _) _ _ => apply wp_bind
  | |- wp (mret _) _ _ => apply wp_ret
  | |- wp (return_ _) _ _ => apply wp_return
  | |- wp undefined _ _ => apply wp_undefined
  | |- wp (get _) _ _ => apply wp_get
  | |- wp (put _) _ _ => apply wp_put
  | |- wp (call _ _) _ _ => apply wp_call; intros ? ? ?
  | |- wp (invoke _) _ _ => apply wp_invoke
  | |- wp (at_ _ _) _ _ => apply wp_at; [intros ? ? | intros ?]
  | |- wp (deref _) _ _ => apply wp_deref; [intros ? ? | intros ?]
  | |- wp (if negb ?b then _ else _) _ _ => destruct b eqn:?; cbn [negb]
  | |- wp (if ?b then _ else _) _ _ => destruct b eqn:?
  | |- wp (match ?x with _ => _ end) _ _ => destruct x eqn:?
  end; cbv beta iota zeta; machine_simpl.

Ltac wp_walk := repeat wp_step.

(** ** The image loop of the constructor *)

Lemma reported_counts_app tr tr' :
  reported_counts (tr ++ tr') = reported_counts tr ++ reported_counts tr'.
Proof. apply omap_app. Qed.

Lemma same_scalars_refl s : same_scalars s s.
Proof. repeat split. Qed.

Lemma same_scalars_trans s1 s2 s3 :
  same_scalars s1 s2 -> same_scalars s2 s3 -> same_scalars s1 s3.
Proof. unfold same_scalars. intuition congruence. Qed.

Lemma CreateSwapchainImages_loop_spec skia_context surface_size images :
  forall m,
    wp (CreateSwapchainImages_loop skia_context surface_size images) m
       (loop_post (length images) m).
Proof.
  induction images as [|image rest IH]; intros m.
  - apply wp_ret. split; [reflexivity|]. split; [apply same_scalars_refl|].
    exists [], [], []. rewrite !app_nil_r. repeat split; constructor.
  - cbn [CreateSwapchainImages_loop]. unfold CreateSkiaSurface.
    wp_walk.
    all: try (eapply wp_mono; [apply IH|]; intros st m' (Hc & Hs & Hv)).
    all: unfold loop_post, same_scalars in *; machine_simpl.
    all: rewrite ?reported_counts_app in *; cbn [reported_counts omap] in *.
    all: rewrite ?app_nil_r in *.
    all: try (repeat split; (reflexivity || congruence)).
    split; [assumption|]. split; [intuition congruence|].
    destruct st as [[]|r|]; try assumption.
    destruct Hv as (bs & ims & ss & Hb & Hi & Hsf & Lb & Li & Ls & Fb & Fi & Fs).
    exists (a :: bs), (a0 :: ims), (Some s :: ss).
    rewrite Hb, Hi, Hsf, <- !app_assoc. cbn [app length].
    repeat split; auto.
Qed.

Lemma u32_lt x : u32 x < 2 ^ 32.
Proof. unfold u32. apply N.mod_lt. discriminate. Qed.

Lemma reported_count_lt out : reported_count out < 2 ^ 32.
Proof.
  unfold reported_count. destruct out as [c|]; cbn; [apply u32_lt | reflexivity].
Qed.

Lemma GetImages_spec m :
  wp GetImages m
     (fun st m' =>
        self m' = self m
        /\ exists out imgs,
            outcome st = Some imgs
            /\ reported_counts (trace m') =
                 reported_counts (trace m) ++ [reported_count out]
            /\ (imgs = [] \/ length imgs = N.to_nat (reported_count out))).
Proof.
  unfold GetImages. wp_walk.
  all: split; [reflexivity|].
  all: exists o; eexists; split; [reflexivity|].
  all: rewrite ?reported_counts_app; cbn [reported_counts omap app].
  all: rewrite ?app_nil_r; split; [reflexivity|]; auto.
  right. rewrite length_take, length_app, repeat_length.
  unfold reported_count. lia.
Qed.

Lemma CreateSwapchainImages_tail skia_context m m1 out imgs :
  self m1 = self m ->
  reported_counts (trace m1) =
    reported_counts (trace m) ++ [reported_count out] ->
  imgs = [] \/ length imgs = N.to_nat (reported_count out) ->
  wp (if N.of_nat (length imgs) =? 0
      then return_ false
      else surface_size ← get GetSize;
           _ ← CreateSwapchainImages_loop skia_context surface_size imgs;
           return_ true) m1 (images_post m).
Proof.
  intros Hself Hc Hlen. unfold images_post. wp_step.
  - wp_step. rewrite Hself. split; [apply same_scalars_refl|].
    exists (reported_count out). split; [assumption|].
    split; [apply reported_count_lt|]. exact I.
  - wp_step. wp_step. wp_step.
    eapply wp_mono; [apply CreateSwapchainImages_loop_spec|].
    intros st' m2 (Hc2 & Hs2 & Hv). rewrite Hself in Hs2.
    destruct st' as [[]|r|]; [|subst r|contradiction].
    + wp_step. split; [assumption|].
      exists (reported_count out). rewrite Hc2, Hc.
      split; [reflexivity|]. split; [apply reported_count_lt|].
      destruct Hv as (bs & ims & ss & Hb & Hi & Hsf & Lb & Li & Ls & Fb & Fi & Fs).
      assert (length imgs = N.to_nat (reported_count out)) as Hn.
      { destruct Hlen as [->|]; [|assumption]. discriminate. }
      exists bs, ims, ss. rewrite <- Hself. rewrite Lb, Li, Ls, Hn.
      rewrite N2Nat.id. repeat split; auto.
      apply N.eqb_neq in Heqb. lia.
    + split; [assumption|].
      exists (reported_count out). rewrite Hc2, Hc.
      split; [reflexivity|]. split; [apply reported_count_lt|]. exact I.
Qed.

Lemma CreateSwapchainImages_spec skia_context m :
  wp (CreateSwapchainImages skia_context) m (images_post m).
Proof.
  unfold CreateSwapchainImages.
  apply wp_bind, wp_invoke.
  eapply wp_mono; [apply GetImages_spec|].
  intros st m1 (Hself & out & imgs & Hst & Hc & Hlen).
  destruct st; simplify_eq/=; eapply CreateSwapchainImages_tail; eauto.
Qed.

(** ** The constructor *)

Lemma construct_spec skia_context old_swapchain queue_family_index w :
  negotiated (construct skia_context old_swapchain queue_family_index w).
Proof.
  unfold construct.
  apply (wp_run (VulkanSwapchain_ctor _ _ _) (boot initial w)
           (fun _ m => negotiated m)).
  unfold VulkanSwapchain_ctor. wp_walk.
  all: unfold negotiated.
  all: try (split; [split; reflexivity|];
            left; split; [reflexivity | left; reflexivity]).
  eapply wp_mono; [apply CreateSwapchainImages_spec|].
  intros st m' (Hs & n & Hc & Hn & Hv). machine_simpl.
  simpl in Hc.
  destruct Hs as (Hvalid & Hii & Hbi & _).
  destruct st as [[]|[]|]; cbn [outcome negb] in *; try contradiction;
    wp_walk.
  all: unfold negotiated; machine_simpl.
  all: (split; [split; [rewrite Hii|rewrite Hbi]; reflexivity|]).
  2,4: left; split; [rewrite Hvalid; reflexivity | right; eauto].
  all: right; destruct Hv as
      (bs & ims & ss & Hb & Hi & Hsf & Lb & Li & Ls & Hone & Fb & Fi & Fs).
  all: cbn [app images_ backbuffers_ surfaces_ initial] in Hb, Hi, Hsf.
  all: split; [|machine_simpl; rewrite Hc, Hi, Li; reflexivity].
  all: constructor; machine_simpl; rewrite ?Hb, ?Hi, ?Hsf, ?Hii, ?Hbi;
    unfold ring_size; machine_simpl; rewrite ?Hb; try assumption;
    try reflexivity; cbn [current_image_index_ current_backbuffer_index_ initial]; lia.
Qed.

(** ** What [AcquireSurface] and [Submit] leave alone *)

Lemma same_chain_refl s : same_chain s s.
Proof. repeat split. Qed.

Lemma AcquireSurface_same_chain m :
  same_chain (self m) (self (run AcquireSurface m).2).
Proof.
  apply (wp_run AcquireSurface m (fun _ m' => same_chain (self m) (self m'))).
  unfold AcquireSurface, GetNextBackbuffer. wp_walk.
  all: repeat split.
Qed.

Lemma Submit_same_chain m :
  same_chain (self m) (self (run Submit m).2)
  /\ current_image_index_ (self (run Submit m).2)
      = current_image_index_ (self m)
  /\ current_backbuffer_index_ (self (run Submit m).2)
      = current_backbuffer_index_ (self m).
Proof.
  apply (wp_run Submit m
           (fun _ m' =>
              same_chain (self m) (self m')
              /\ current_image_index_ (self m') = current_image_index_ (self m)
              /\ current_backbuffer_index_ (self m')
                  = current_backbuffer_index_ (self m))).
  unfold Submit. wp_walk.
  all: repeat split.
Qed.

Lemma size_t_small x : x < 2 ^ 64 -> size_t x = x.
Proof. intros H. unfold size_t. apply N.mod_small. exact H. Qed.

Lemma u32_small x : x < 2 ^ 32 -> u32 x = x.
Proof. intros H. unfold u32. apply N.mod_small. exact H. Qed.

(** On a chain that is in order, [GetNextBackbuffer] moves the index to
    the next slot of the ring, whatever happens afterwards. *)
Lemma AcquireSurface_advances m :
  chain_ok (self m) ->
  current_backbuffer_index_ (self (run AcquireSurface m).2)
  = (current_backbuffer_index_ (self m) + 1) mod ring_size (self m).
Proof.
  intros Hok.
  assert (size_t (current_backbuffer_index_ (self m) + 1)
          = current_backbuffer_index_ (self m) + 1) as Hwrap.
  { apply size_t_small.
    pose proof (ok_backbuffer_index _ Hok) as Hlt.
    pose proof (ok_count_u32 _ Hok) as Hc.
    pose proof (ok_backbuffers_images _ Hok) as He.
    unfold ring_size in Hlt. rewrite He in Hlt.
    assert (2 ^ 32 + 1 < 2 ^ 64) by reflexivity. lia. }
  pose proof (ok_valid _ Hok) as Hv.
  pose proof (ok_slots_valid _ Hok) as Hs.
  pose proof (ok_nonempty _ Hok) as Hne.
  pose proof (ok_backbuffers_images _ Hok) as He.
  apply (wp_run AcquireSurface m
           (fun _ m' =>
              current_backbuffer_index_ (self m')
              = (current_backbuffer_index_ (self m) + 1)
                  mod ring_size (self m))).
  unfold AcquireSurface, GetNextBackbuffer. wp_walk.
  all: try (rewrite Hwrap; reflexivity).
  all: try (unfold IsValid in *; congruence).
  all: try match goal with
           | E : (N.of_nat _ =? 0) = true |- _ => apply N.eqb_eq in E; lia
           end.
  all: try match goal with
           | E : _ !! _ = Some ?x, E' : bb_valid ?x = false |- _ =>
               pose proof (Forall_lookup_1 _ _ _ _ Hs E); congruence
           end.
  all: match goal with
       | E : _ !! _ = None |- _ => apply lookup_ge_None in E; rename E into Hge
       end.
  all: assert (ring_size (self m) <> 0) as Hnz by (unfold ring_size; lia).
  all: pose proof (N.mod_upper_bound
                     (size_t (current_backbuffer_index_ (self m) + 1))
                     (ring_size (self m)) Hnz) as Hub.
  all: unfold ring_size in Hub; lia.
Qed.

Lemma AcquireSurface_preserves_chain_ok m :
  chain_ok (self m) -> chain_ok (self (run AcquireSurface m).2).
Proof.
  intros Hok.
  pose proof (AcquireSurface_advances m Hok) as Hadv.
  pose proof (AcquireSurface_same_chain m) as (Hv & Hb & Hi & Hs & _).
  assert (ring_size (self m) <> 0) as Hnz.
  { pose proof (ok_backbuffer_index _ Hok). lia. }
  assert (current_image_index_ (self (run AcquireSurface m).2)
          < N.of_nat (length (images_ (self m)))) as Hidx.
  { pose proof (ok_image_index _ Hok) as Hlt.
    apply (wp_run AcquireSurface m
             (fun _ m' => current_image_index_ (self m')
                          < N.of_nat (length (images_ (self m))))).
    unfold AcquireSurface, GetNextBackbuffer. wp_walk.
    all: try assumption.
    apply N.leb_gt. assumption. }
  destruct Hok. constructor; rewrite ?Hv, ?Hb, ?Hi, ?Hs; try assumption.
  unfold ring_size. rewrite Hb, Hadv. apply N.mod_upper_bound. exact Hnz.
Qed.

Lemma Submit_preserves_chain_ok m :
  chain_ok (self m) -> chain_ok (self (run Submit m).2).
Proof.
  intros Hok.
  pose proof (Submit_same_chain m) as ((Hv & Hb & Hi & Hs & _) & Hii & Hbi).
  destruct Hok. constructor; unfold ring_size in *;
    rewrite ?Hv, ?Hb, ?Hi, ?Hs, ?Hii, ?Hbi; assumption.
Qed.

(** ** Acquisition *)

(** C7: [AcquireSurface] on an invalid chain returns [ErrorSurfaceLost]
    with no render target and changes nothing: the members of the chain
    (both indices included), the driver's world (every slot's fences and
    command buffers live there) and the trace are as they were, so no
    collaborator was called at all. *)
Theorem acquire_on_invalid_chain_is_inert (m : Machine) :
  valid_ (self m) = false ->
  run AcquireSurface m = (Some (ErrorSurfaceLost, None), m).
Proof.
  intros Hinvalid.
  unfold run, AcquireSurface, mbind, Op_bind, op_bind, get, IsValid.
  rewrite Hinvalid. reflexivity.
Qed.

Ltac split_trace pre :=
  repeat (destruct pre as [|? pre]; simplify_eq/=; auto).

(** C1: in every [AcquireSurface] call, a [ResetFences] is only ever
    issued after a [WaitFences] on the same backbuffer has answered
    [true]; both calls are on the slot the call selected; and when
    [WaitFences] answers [false] the call returns [ErrorSurfaceLost]
    without any [ResetFences]. *)
Theorem reset_fences_only_after_wait_fences (s : VulkanSwapchain) (w : W) :
  let r := run AcquireSurface (boot s w) in
  reset_follows_wait (trace r.2)
  /\ (forall b ok,
        In (EvWaitFences b ok) (trace r.2)
        \/ In (EvResetFences b ok) (trace r.2) ->
        selected_slot (self r.2) = Some b)
  /\ (forall b,
        In (EvWaitFences b false) (trace r.2) ->
        r.1 = Some (ErrorSurfaceLost, None) /\ no_reset (trace r.2)).
Proof.
  cbv zeta.
  apply (wp_run AcquireSurface (boot s w)
           (fun res m' =>
              reset_follows_wait (trace m')
              /\ (forall b ok,
                    In (EvWaitFences b ok) (trace m')
                    \/ In (EvResetFences b ok) (trace m') ->
                    selected_slot (self m') = Some b)
              /\ (forall b,
                    In (EvWaitFences b false) (trace m') ->
                    res = Some (ErrorSurfaceLost, None)
                    /\ no_reset (trace m')))).
  unfold AcquireSurface, GetNextBackbuffer. wp_walk.
  all: unfold selected_slot, no_reset; machine_simpl.
  all: split; [intros pre b' ok' post E; split_trace pre|].
  all: split; [intros b' ok' HIn; cbn [In] in HIn; intuition congruence|].
  all: intros b' HIn; cbn [In] in HIn.
  all: split; [|intros b'' ok'' HIn'; cbn [In] in HIn'];
    intuition congruence.
Qed.

(** C4: every queue submission [AcquireSurface] makes waits on exactly
    the selected slot's usage semaphore, signals no semaphore, carries the
    slot's usage command buffer and signals the slot's usage fence; and a
    call that returns [Success] has made that submission. *)
Theorem acquire_submission_uses_usage_pair (s : VulkanSwapchain) (w : W) :
  let r := run AcquireSurface (boot s w) in
  (forall stages waits signals cmds fence ok,
     In (EvQueueSubmit stages waits signals cmds fence ok) (trace r.2) ->
     exists b,
       selected_slot (self r.2) = Some b
       /\ waits = [usage_semaphore b]
       /\ signals = []
       /\ cmds = [usage_command_buffer b]
       /\ fence = usage_fence b)
  /\ (forall surface,
        r.1 = Some (Success, surface) ->
        exists b,
          selected_slot (self r.2) = Some b
          /\ In (EvQueueSubmit
                   [VK_PIPELINE_STAGE_COLOR_ATTACHMENT_OUTPUT_BIT]
                   [usage_semaphore b] [] [usage_command_buffer b]
                   (usage_fence b) true) (trace r.2)).
Proof.
  cbv zeta.
  apply (wp_run AcquireSurface (boot s w)
           (fun res m' =>
              (forall stages waits signals cmds fence ok,
                 In (EvQueueSubmit stages waits signals cmds fence ok)
                    (trace m') ->
                 exists b,
                   selected_slot (self m') = Some b
                   /\ waits = [usage_semaphore b]
                   /\ signals = []
                   /\ cmds = [usage_command_buffer b]
                   /\ fence = usage_fence b)
              /\ (forall surface,
                    res = Some (Success, surface) ->
                    exists b,
                      selected_slot (self m') = Some b
                      /\ In (EvQueueSubmit
                               [VK_PIPELINE_STAGE_COLOR_ATTACHMENT_OUTPUT_BIT]
                               [usage_semaphore b] [] [usage_command_buffer b]
                               (usage_fence b) true) (trace m')))).
  unfold AcquireSurface, GetNextBackbuffer. wp_walk.
  all: unfold selected_slot; machine_simpl.
  all: split; [intros stages waits signals cmds fence ok HIn
              |intros surface Hres; try discriminate Hres].
  all: cbn [In] in *.
  all: try (eexists; split; [eassumption|]).
  all: intuition (simplify_eq; auto 20).
Qed.

(** C6: how [AcquireSurface] maps the answer of [AcquireNextImageKHR]:
    out-of-date gives [ErrorSurfaceOutOfDate]; surface-lost gives
    [ErrorSurfaceLost]; every other code that is not [VK_SUCCESS] gives
    [ErrorSurfaceLost]; and [VK_SUCCESS] with an image index that is not
    below [images_.size()] gives [ErrorSurfaceLost] too. *)
Theorem acquire_status_mapping (s : VulkanSwapchain) (w : W)
    swapchain timeout semaphore fence res out :
  let r := run AcquireSurface (boot s w) in
  In (EvAcquireNextImageKHR swapchain timeout semaphore fence res out)
     (trace r.2) ->
  (res = VK_ERROR_OUT_OF_DATE_KHR ->
   r.1 = Some (ErrorSurfaceOutOfDate, None))
  /\ (res = VK_ERROR_SURFACE_LOST_KHR ->
      r.1 = Some (ErrorSurfaceLost, None))
  /\ (res <> VK_SUCCESS -> res <> VK_ERROR_OUT_OF_DATE_KHR ->
      r.1 = Some (ErrorSurfaceLost, None))
  /\ (res = VK_SUCCESS ->
      N.of_nat (length (images_ s)) <= returned_index out ->
      r.1 = Some (ErrorSurfaceLost, None)).
Proof.
  cbv zeta.
  apply (wp_run AcquireSurface (boot s w)
           (fun r m' =>
              In (EvAcquireNextImageKHR swapchain timeout semaphore fence
                    res out) (trace m') ->
              (res = VK_ERROR_OUT_OF_DATE_KHR ->
               r = Some (ErrorSurfaceOutOfDate, None))
              /\ (res = VK_ERROR_SURFACE_LOST_KHR ->
                  r = Some (ErrorSurfaceLost, None))
              /\ (res <> VK_SUCCESS -> res <> VK_ERROR_OUT_OF_DATE_KHR ->
                  r = Some (ErrorSurfaceLost, None))
              /\ (res = VK_SUCCESS ->
                  N.of_nat (length (images_ s)) <= returned_index out ->
                  r = Some (ErrorSurfaceLost, None)))).
  unfold AcquireSurface, GetNextBackbuffer. wp_walk.
  all: intros HIn; cbn [In] in HIn.
  all: repeat match goal with
         | E : (_ =? _)%Z = true |- _ => apply Z.eqb_eq in E
         | E : (_ =? _)%Z = false |- _ => apply Z.eqb_neq in E
         | E : (_ <=? _) = true |- _ => apply N.leb_le in E
         | E : (_ <=? _) = false |- _ => apply N.leb_gt in E
         end.
  all: unfold returned_index.
  all: repeat split; intros; try reflexivity.
  all: try (intuition (simplify_eq/=; first [congruence | lia | done])).
Qed.

Ltac in_trace H :=
  rewrite ?in_app_iff in H; cbn [In] in H.

Lemma AcquireSurface_events m e :
  In e (trace (run AcquireSurface m).2) -> In e (trace m) \/ acquire_event e.
Proof.
  apply (wp_run AcquireSurface m
           (fun _ m' => In e (trace m') -> In e (trace m) \/ acquire_event e)).
  unfold AcquireSurface, GetNextBackbuffer. wp_walk.
  all: intros HIn; in_trace HIn.
  all: intuition (subst; cbn [acquire_event]; auto).
Qed.

Lemma Submit_events m e :
  In e (trace (run Submit m).2) -> In e (trace m) \/ submit_event (self m) e.
Proof.
  apply (wp_run Submit m
           (fun _ m' =>
              In e (trace m') -> In e (trace m) \/ submit_event (self m) e)).
  unfold Submit. wp_walk.
  all: intros HIn; in_trace HIn.
  all: unfold selected_slot in *.
  all: intuition (subst; cbn [submit_event]; unfold selected_slot;
                  eauto 10).
Qed.

(** C10: an [AcquireSurface] call that does not return [Success] leaves
    [current_image_index_] as it was, so the [Submit] that follows still
    presents, and still puts its barrier on, the image of the last
    successful acquisition.  The index is written only after everything
    else has been done: a call that returns [Success] has a trace without
    any failed call, ending in the layout update, and has stored an index
    that was checked against [images_.size()]. *)
Theorem failed_acquire_keeps_current_image (s : VulkanSwapchain) (w : W) :
  let r := run AcquireSurface (boot s w) in
  ((forall surface, r.1 <> Some (Success, surface)) ->
   current_image_index_ (self r.2) = current_image_index_ s
   /\ (forall info res,
         In (EvQueuePresentKHR info res) (trace (run Submit r.2).2) ->
         pi_imageIndices info = [u32 (current_image_index_ s)])
   /\ (forall image cb src dst access ok,
         In (EvInsertImageMemoryBarrier image cb src dst access
               VK_IMAGE_LAYOUT_PRESENT_SRC_KHR ok)
            (trace (run Submit r.2).2) ->
         images_ s !! N.to_nat (current_image_index_ s) = Some image))
  /\ (forall surface,
        r.1 = Some (Success, surface) ->
        Forall (fun e => failed e = false) (trace r.2)
        /\ current_image_index_ (self r.2) < N.of_nat (length (images_ s))
        /\ surfaces_ s !! N.to_nat (current_image_index_ (self r.2))
            = Some surface
        /\ exists pre sk,
            surface = Some sk
            /\ trace r.2 =
                 pre ++ [EvUpdateImageLayout sk
                           VK_IMAGE_LAYOUT_COLOR_ATTACHMENT_OPTIMAL]).
Proof.
  cbv zeta. split.
  - intros Hfail.
    assert (current_image_index_ (self (run AcquireSurface (boot s w)).2)
            = current_image_index_ s) as Hidx.
    { revert Hfail.
      apply (wp_run AcquireSurface (boot s w)
               (fun r m' =>
                  (forall surface, r <> Some (Success, surface)) ->
                  current_image_index_ (self m') = current_image_index_ s)).
      unfold AcquireSurface, GetNextBackbuffer. wp_walk.
      all: intros Hfail; try reflexivity.
      exfalso. eapply Hfail. reflexivity. }
    pose proof (AcquireSurface_same_chain (boot s w)) as (_ & _ & Hi & _).
    cbn [self boot] in Hi.
    split; [exact Hidx|]. split.
    + intros info res HIn.
      apply Submit_events in HIn. destruct HIn as [HIn|Hev].
      * apply AcquireSurface_events in HIn. destruct HIn as [[]|[]].
      * destruct Hev as (b & _ & ->). cbn. rewrite Hidx. reflexivity.
    + intros image cb src dst access ok HIn.
      apply Submit_events in HIn. destruct HIn as [HIn|Hev].
      * apply AcquireSurface_events in HIn. destruct HIn as [[]|Hev].
        cbn in Hev. discriminate Hev.
      * destruct Hev as (Himg & _). rewrite Hi, Hidx in Himg. exact Himg.
  - apply (wp_run AcquireSurface (boot s w)
             (fun r m' =>
                forall surface,
                  r = Some (Success, surface) ->
                  Forall (fun e => failed e = false) (trace m')
                  /\ current_image_index_ (self m')
                      < N.of_nat (length (images_ s))
                  /\ surfaces_ s !! N.to_nat (current_image_index_ (self m'))
                      = Some surface
                  /\ exists pre sk,
                      surface = Some sk
                      /\ trace m' =
                           pre ++ [EvUpdateImageLayout sk
                                     VK_IMAGE_LAYOUT_COLOR_ATTACHMENT_OPTIMAL])).
    unfold AcquireSurface, GetNextBackbuffer. wp_walk.
    all: intros surface Hres; try discriminate Hres.
    simplify_eq/=. split.
    { repeat constructor. cbn.
      match goal with E : (_ =? _)%Z = true |- _ => rewrite E end.
      reflexivity. }
    split; [apply N.leb_gt; assumption|].
    split; [assumption|].
    eexists [_; _; _; _; _; _; _; _], _. split; reflexivity.
Qed.

(** ** Submission *)

(** The trace on the left of the goal ends in a call that failed. *)
Ltac last_call_failed :=
  eexists; split; [reflexivity|];
  first [ reflexivity
        | cbn [failed]; apply negb_true_iff; assumption ].

(** C5: the queue submission of [Submit] waits on no semaphore and
    signals exactly the selected slot's render semaphore and render fence;
    the present request comes after that submission has succeeded, is the
    last call [Submit] makes and the only present request, waits on that
    render semaphore, names this swapchain and exactly the current image
    index; and any status other than [VK_SUCCESS] from it makes [Submit]
    return [false].  [Submit] does make these calls: it returns [true]
    only with that submission and that present request as its last two
    calls, it returns [false] only on an invalid chain, before any call,
    or right after a call that failed, and a submission that succeeded is
    always followed by the present request and by nothing else. *)
Theorem submit_signals_render_pair_then_presents
    (s : VulkanSwapchain) (w : W) :
  current_image_index_ s < 2 ^ 32 ->
  let r := run Submit (boot s w) in
  (forall stages waits signals cmds fence ok,
     In (EvQueueSubmit stages waits signals cmds fence ok) (trace r.2) ->
     exists b,
       selected_slot s = Some b
       /\ stages = [] /\ waits = []
       /\ signals = [render_semaphore b]
       /\ cmds = [render_command_buffer b]
       /\ fence = render_fence b)
  /\ (forall info res,
        In (EvQueuePresentKHR info res) (trace r.2) ->
        exists b pre,
          selected_slot s = Some b
          /\ trace r.2 = pre ++ [EvQueuePresentKHR info res]
          /\ In (EvQueueSubmit [] [] [render_semaphore b]
                   [render_command_buffer b] (render_fence b) true) pre
          /\ (forall info' res', ~ In (EvQueuePresentKHR info' res') pre)
          /\ pi_waitSemaphores info = [render_semaphore b]
          /\ pi_swapchains info = [swapchain_ s]
          /\ pi_imageIndices info = [current_image_index_ s]
          /\ (res <> VK_SUCCESS -> r.1 = Some false)
          /\ (res = VK_SUCCESS -> r.1 = Some true))
  /\ (r.1 = Some true ->
      exists b pre,
        selected_slot s = Some b
        /\ trace r.2 =
             pre ++ [EvQueueSubmit [] [] [render_semaphore b]
                       [render_command_buffer b] (render_fence b) true;
                     EvQueuePresentKHR
                       {| pi_waitSemaphores := [render_semaphore b];
                          pi_swapchains := [swapchain_ s];
                          pi_imageIndices := [current_image_index_ s] |}
                       VK_SUCCESS])
  /\ (r.1 = Some false ->
      (valid_ s = false /\ trace r.2 = [])
      \/ exists pre e, trace r.2 = pre ++ [e] /\ failed e = true)
  /\ (forall pre stages waits signals cmds fence post,
        trace r.2
        = pre ++ EvQueueSubmit stages waits signals cmds fence true :: post ->
        exists info res, post = [EvQueuePresentKHR info res]).
Proof.
  intros Hu32. cbv zeta. apply and_assoc. split.
  - apply (wp_run Submit (boot s w)
             (fun r m' =>
                (forall stages waits signals cmds fence ok,
                   In (EvQueueSubmit stages waits signals cmds fence ok)
                      (trace m') ->
                   exists b,
                     selected_slot s = Some b
                     /\ stages = [] /\ waits = []
                     /\ signals = [render_semaphore b]
                     /\ cmds = [render_command_buffer b]
                     /\ fence = render_fence b)
                /\ (forall info res,
                      In (EvQueuePresentKHR info res) (trace m') ->
                      exists b pre,
                        selected_slot s = Some b
                        /\ trace m' = pre ++ [EvQueuePresentKHR info res]
                        /\ In (EvQueueSubmit [] [] [render_semaphore b]
                                 [render_command_buffer b] (render_fence b)
                                 true) pre
                        /\ (forall info' res',
                              ~ In (EvQueuePresentKHR info' res') pre)
                        /\ pi_waitSemaphores info = [render_semaphore b]
                        /\ pi_swapchains info = [swapchain_ s]
                        /\ pi_imageIndices info = [current_image_index_ s]
                        /\ (res <> VK_SUCCESS -> r = Some false)
                        /\ (res = VK_SUCCESS -> r = Some true)))).
    unfold Submit. wp_walk.
    all: unfold selected_slot; machine_simpl.
    all: repeat match goal with
           | E : (_ =? _)%Z = true |- _ => apply Z.eqb_eq in E
           | E : (_ =? _)%Z = false |- _ => apply Z.eqb_neq in E
           end.
    all: split; [intros stages waits signals cmds fence ok HIn
                |intros info res HIn].
    all: cbn [In] in HIn.
    all: try (intuition discriminate).
    all: try (eexists; split; [eassumption|];
              intuition (simplify_eq; auto; fail)).
    all: eexists; eexists [_; _; _; _; _].
    all: (split; [eassumption|]).
    all: intuition (simplify_eq/=; rewrite ?u32_small by assumption;
                    (reflexivity || congruence || intuition discriminate
                     || auto 10)).
  - apply (wp_run Submit (boot s w)
             (fun r m' =>
                (r = Some true ->
                 exists b pre,
                   selected_slot s = Some b
                   /\ trace m' =
                        pre ++ [EvQueueSubmit [] [] [render_semaphore b]
                                  [render_command_buffer b] (render_fence b)
                                  true;
                                EvQueuePresentKHR
                                  {| pi_waitSemaphores := [render_semaphore b];
                                     pi_swapchains := [swapchain_ s];
                                     pi_imageIndices :=
                                       [current_image_index_ s] |}
                                  VK_SUCCESS])
                /\ (r = Some false ->
                    (valid_ s = false /\ trace m' = [])
                    \/ exists pre e,
                         trace m' = pre ++ [e] /\ failed e = true)
                /\ (forall pre stages waits signals cmds fence post,
                      trace m'
                      = pre ++ EvQueueSubmit stages waits signals cmds fence
                                 true :: post ->
                      exists info res, post = [EvQueuePresentKHR info res]))).
    unfold Submit. wp_walk.
    all: unfold selected_slot; machine_simpl.
    all: repeat match goal with
           | E : (_ =? _)%Z = true |- _ => apply Z.eqb_eq in E; subst
           end.
    all: split; [intros Hr; try discriminate Hr
                |split; [intros Hr; try discriminate Hr
                        |intros pre stages waits signals cmds fence post E;
                         split_trace pre; eauto]].
    all: unfold IsValid in *.
    all: first
      [ eexists _, [_; _; _; _]; split; [eassumption|];
        rewrite u32_small by assumption; reflexivity
      | left; split; [assumption | reflexivity]
      | right;
        first [ exists []; last_call_failed
              | eexists [_]; last_call_failed
              | eexists [_; _]; last_call_failed
              | eexists [_; _; _]; last_call_failed
              | eexists [_; _; _; _]; last_call_failed
              | eexists [_; _; _; _; _]; last_call_failed ] ].
Qed.

(** ** Invariants of a chain in use *)

Lemma Submit_defined m :
  chain_ok (self m) ->
  (run Submit m).1 <> None
  /\ (exists sk, surfaces_ (self m) !! N.to_nat (current_image_index_ (self m))
                 = Some (Some sk))
  /\ is_Some (images_ (self m) !! N.to_nat (current_image_index_ (self m)))
  /\ is_Some (selected_slot (self m)).
Proof.
  intros Hok.
  pose proof (ok_image_index _ Hok) as Hii.
  pose proof (ok_backbuffer_index _ Hok) as Hbi.
  pose proof (ok_images_surfaces _ Hok) as His.
  pose proof (ok_surfaces_nonnull _ Hok) as Hnn.
  assert (is_Some (images_ (self m)
                   !! N.to_nat (current_image_index_ (self m)))) as [i Hi].
  { apply lookup_lt_is_Some. lia. }
  assert (is_Some (surfaces_ (self m)
                   !! N.to_nat (current_image_index_ (self m)))) as [p Hp].
  { apply lookup_lt_is_Some. lia. }
  assert (is_Some (selected_slot (self m))) as [b Hb].
  { apply lookup_lt_is_Some. unfold ring_size in Hbi. lia. }
  destruct (Forall_lookup_1 _ _ _ _ Hnn Hp) as [sk ->].
  split; [|split; [eauto|split; [eauto|rewrite Hb; eauto]]].
  unfold selected_slot in Hb.
  apply (wp_run Submit m (fun r _ => r <> None)).
  unfold Submit. wp_walk.
  all: try discriminate.
  all: congruence.
Qed.

Lemma Reachable_chain_ok m :
  Reachable m -> valid_ (self m) = true -> chain_ok (self m).
Proof.
  induction 1 as [skia_context old_swapchain queue_family_index w
                 | m Hm IH | m Hm IH | m w Hm IH]; intros Hvalid.
  - destruct (construct_spec skia_context old_swapchain queue_family_index w)
      as [_ [[Hinvalid _] | [Hok _]]]; [congruence | exact Hok].
  - apply AcquireSurface_preserves_chain_ok, IH.
    destruct (AcquireSurface_same_chain m) as (Hv & _). congruence.
  - apply Submit_preserves_chain_ok, IH.
    destruct (Submit_same_chain m) as ((Hv & _) & _). congruence.
  - apply IH. exact Hvalid.
Qed.

(** C9: [current_image_index_] is 0 after construction, and on every
    valid chain a caller can be holding (fresh from the constructor, or
    after any sequence of [AcquireSurface] and [Submit] calls)
    [current_image_index_ < images_.size()], so the accesses
    [surfaces_[current_image_index_]] and [images_[current_image_index_]]
    of [Submit] are in bounds, the surface found there is not null, and
    [Submit] has a defined result. *)
Theorem current_image_index_in_bounds (m : Machine) :
  Reachable m ->
  valid_ (self m) = true ->
  (forall skia_context old_swapchain queue_family_index w,
     m = construct skia_context old_swapchain queue_family_index w ->
     current_image_index_ (self m) = 0)
  /\ current_image_index_ (self m) < N.of_nat (length (images_ (self m)))
  /\ length (surfaces_ (self m)) = length (images_ (self m))
  /\ is_Some (images_ (self m) !! N.to_nat (current_image_index_ (self m)))
  /\ (exists sk, surfaces_ (self m) !! N.to_nat (current_image_index_ (self m))
                 = Some (Some sk))
  /\ (run Submit m).1 <> None.
Proof.
  intros Hreach Hvalid.
  pose proof (Reachable_chain_ok m Hreach Hvalid) as Hok.
  destruct (Submit_defined m Hok) as (Hdef & Hsurf & Himg & _).
  split.
  { intros skia_context old_swapchain queue_family_index w ->.
    apply construct_spec. }
  split; [apply (ok_image_index _ Hok)|].
  split; [symmetry; apply (ok_images_surfaces _ Hok)|].
  auto.
Qed.

(** ** The ring of slots *)

Lemma cycle_spec m :
  chain_ok (self m) ->
  (cycle m).1 = (current_backbuffer_index_ (self m) + 1) mod ring_size (self m)
  /\ current_backbuffer_index_ (self (cycle m).2) = (cycle m).1
  /\ ring_size (self (cycle m).2) = ring_size (self m)
  /\ chain_ok (self (cycle m).2).
Proof.
  intros Hok. unfold cycle. cbn [fst snd].
  set (m1 := (run AcquireSurface m).2).
  pose proof (AcquireSurface_advances m Hok) as Hadv. fold m1 in Hadv.
  pose proof (AcquireSurface_preserves_chain_ok m Hok) as Hok1. fold m1 in Hok1.
  pose proof (AcquireSurface_same_chain m) as (_ & Hb & _). fold m1 in Hb.
  pose proof (Submit_same_chain m1) as ((_ & Hb2 & _) & _ & Hbi).
  split; [exact Hadv|]. split; [exact Hbi|].
  split; [unfold ring_size; rewrite Hb2, Hb; reflexivity|].
  apply Submit_preserves_chain_ok. exact Hok1.
Qed.

Lemma cycles_lookup n : forall m i,
  chain_ok (self m) ->
  (i < n)%nat ->
  cycles n m !! i
  = Some ((current_backbuffer_index_ (self m) + 1 + N.of_nat i)
            mod ring_size (self m)).
Proof.
  induction n as [|n IH]; intros m i Hok Hlt; [lia|].
  cbn [cycles].
  destruct (cycle_spec m Hok) as (Hslot & Hidx & Hring & Hok').
  destruct (cycle m) as [slot m'] eqn:Hcycle. cbn [fst snd] in *.
  assert (ring_size (self m) <> 0) as Hnz.
  { pose proof (ok_backbuffer_index _ Hok). lia. }
  destruct i as [|i].
  - cbn. rewrite N.add_0_r. congruence.
  - change ((slot :: cycles n m') !! S i) with (cycles n m' !! i).
    rewrite (IH m' i Hok') by lia.
    rewrite Hring, Hidx, Hslot. f_equal.
    rewrite <- N.add_assoc, N.Div0.add_mod_idemp_l. f_equal. lia.
Qed.

(** C2: on every valid chain a caller can be holding, each
    [AcquireSurface] call (a successful one in particular) moves
    [current_backbuffer_index_] to the next slot modulo the ring size and
    leaves the ring as it is; [Submit] does not write the index and takes
    its backbuffer at that index, so it works on the slot the preceding
    [AcquireSurface] selected; and over any number of consecutive
    Acquire/Submit frames each frame uses the slot after the previous
    one's, and frame [i + ring_size] uses the slot of frame [i]. *)
Theorem slot_index_goes_round_the_ring (m : Machine) :
  Reachable m ->
  valid_ (self m) = true ->
  (current_backbuffer_index_ (self (run AcquireSurface m).2)
   = (current_backbuffer_index_ (self m) + 1) mod ring_size (self m)
   /\ ring_size (self (run AcquireSurface m).2) = ring_size (self m))
  /\ (forall m1,
        current_backbuffer_index_ (self (run Submit m1).2)
        = current_backbuffer_index_ (self m1)
        /\ forall e, In e (trace (run Submit m1).2) ->
                     In e (trace m1) \/ submit_event (self m1) e)
  /\ (forall n i slot,
        (i + N.to_nat (ring_size (self m)) < n)%nat ->
        cycles n m !! i = Some slot ->
        cycles n m !! (i + N.to_nat (ring_size (self m)))%nat = Some slot)
  /\ (forall n i slot,
        (S i < n)%nat ->
        cycles n m !! i = Some slot ->
        cycles n m !! S i = Some ((slot + 1) mod ring_size (self m))).
Proof.
  intros Hreach Hvalid.
  pose proof (Reachable_chain_ok m Hreach Hvalid) as Hok.
  assert (ring_size (self m) <> 0) as Hnz.
  { pose proof (ok_backbuffer_index _ Hok). lia. }
  split; [split; [apply AcquireSurface_advances; exact Hok|]|].
  { destruct (AcquireSurface_same_chain m) as (_ & Hb & _).
    unfold ring_size. rewrite Hb. reflexivity. }
  split.
  { intros m1. split; [apply Submit_same_chain|].
    intros e. apply Submit_events. }
  split.
  - intros n i slot Hlt Hslot.
    rewrite (cycles_lookup n m i Hok) in Hslot by lia.
    rewrite (cycles_lookup n m _ Hok) by lia.
    rewrite <- Hslot. f_equal.
    rewrite Nat2N.inj_add, N2Nat.id.
    rewrite N.add_assoc.
    rewrite <- (N.Div0.mod_add
                  (current_backbuffer_index_ (self m) + 1 + N.of_nat i) 1
                  (ring_size (self m))).
    f_equal. lia.
  - intros n i slot Hlt Hslot.
    rewrite (cycles_lookup n m i Hok) in Hslot by lia.
    rewrite (cycles_lookup n m _ Hok) by lia.
    injection Hslot as <-. f_equal.
    rewrite N.Div0.add_mod_idemp_l. f_equal. lia.
Qed.

(** ** Negotiation *)

(** C3: a chain the constructor marks valid has as many backbuffers as
    images as surfaces, and that number is the image count the driver
    reported to the one count query, which is at least 1; a driver that
    reports zero images gets an invalid chain. *)
Theorem negotiated_sizes (skia_context : option GrContext)
    (old_swapchain : option VulkanSwapchain) (queue_family_index : N)
    (w : W) :
  let m := construct skia_context old_swapchain queue_family_index w in
  (valid_ (self m) = true ->
   exists n,
     reported_counts (trace m) = [n]
     /\ 1 <= n
     /\ N.of_nat (length (backbuffers_ (self m))) = n
     /\ N.of_nat (length (images_ (self m))) = n
     /\ N.of_nat (length (surfaces_ (self m))) = n)
  /\ (In 0 (reported_counts (trace m)) -> valid_ (self m) = false).
Proof.
  cbv zeta.
  destruct (construct_spec skia_context old_swapchain queue_family_index w)
    as [_ [[Hinvalid _] | (Hok & Hcounts)]].
  - split; [congruence | intros _; exact Hinvalid].
  - pose proof (ok_nonempty _ Hok) as Hne.
    split.
    + intros _. eexists. split; [exact Hcounts|].
      rewrite (ok_backbuffers_images _ Hok), <- (ok_images_surfaces _ Hok).
      repeat split; lia.
    + rewrite Hcounts. cbn [In]. intros [Hzero | []]. lia.
Qed.

Lemma CreateSwapchainImages_loop_trace skia_context surface_size images :
  forall m,
    wp (CreateSwapchainImages_loop skia_context surface_size images) m
       (fun _ m' =>
          exists extra, trace m' = trace m ++ extra
                        /\ Forall images_event extra).
Proof.
  induction images as [|image rest IH]; intros m.
  - apply wp_ret. exists []. rewrite app_nil_r. split; [reflexivity|constructor].
  - cbn [CreateSwapchainImages_loop]. unfold CreateSkiaSurface.
    wp_walk.
    all: try (eapply wp_mono; [apply IH|];
              intros st m' (extra & Ht & Hextra); machine_simpl;
              rewrite Ht).
    all: rewrite <- ?app_assoc; cbn [app].
    all: eexists; split; [reflexivity|].
    all: repeat (constructor; [exact I|]); first [assumption | constructor].
Qed.

Lemma CreateSwapchainImages_trace skia_context m :
  wp (CreateSwapchainImages skia_context) m
     (fun _ m' =>
        exists extra, trace m' = trace m ++ extra
                      /\ Forall images_event extra).
Proof.
  unfold CreateSwapchainImages, GetImages. wp_walk.
  all: try (eapply wp_mono; [apply CreateSwapchainImages_loop_trace|];
            intros st m' (extra & Ht & Hextra); machine_simpl;
            destruct st as [[]| |]; wp_walk; rewrite Ht).
  all: rewrite <- ?app_assoc; cbn [app].
  all: eexists; split; [reflexivity|].
  all: repeat (constructor; [exact I|]); first [assumption | constructor].
Qed.

Lemma last_images_event l extra e :
  Forall images_event extra ->
  last (l ++ extra) = Some e ->
  images_event e \/ last l = Some e.
Proof.
  intros Hextra. destruct extra as [|x extra _] using rev_ind.
  - rewrite app_nil_r. auto.
  - rewrite app_assoc, last_snoc. intros [= <-]. left.
    apply Forall_app in Hextra as [_ Hx]. inversion Hx; assumption.
Qed.

Ltac not_images_event :=
  match goal with
  | E : In _ ?l, F : Forall images_event ?l |- _ =>
      rewrite Forall_forall in F; apply list_elem_of_In, F in E; destruct E
  end.

(** C8, as the code has it: the present mode starts as FIFO and
    [ChoosePresentMode] may overwrite it.  When [ChoosePresentMode]
    succeeds, negotiation goes on and every swapchain it creates is
    created with the mode the device wrote, FIFO when it wrote none.  When
    [ChoosePresentMode] fails, whether or not it wrote a mode, negotiation
    stops at that step: no swapchain is created and the chain is invalid.
    A valid chain has been through both: its trace holds a successful
    [ChoosePresentMode] and a successful [CreateSwapchainKHR] with the
    mode that choice left. *)
Theorem fifo_default_when_present_mode_chosen
    (skia_context : option GrContext)
    (old_swapchain : option VulkanSwapchain) (queue_family_index : N)
    (w : W) :
  let m := construct skia_context old_swapchain queue_family_index w in
  (forall ok out,
     In (EvChoosePresentMode ok out) (trace m) ->
     (ok = true ->
      ~ stops_at_present_mode (trace m)
      /\ forall info res handle,
           In (EvCreateSwapchainKHR info res handle) (trace m) ->
           ci_presentMode info = out_param VK_PRESENT_MODE_FIFO_KHR out)
     /\ (ok = false ->
         stops_at_present_mode (trace m)
         /\ valid_ (self m) = false
         /\ forall info res handle,
              ~ In (EvCreateSwapchainKHR info res handle) (trace m)))
  /\ (valid_ (self m) = true ->
      exists out info handle,
        In (EvChoosePresentMode true out) (trace m)
        /\ In (EvCreateSwapchainKHR info VK_SUCCESS handle) (trace m)
        /\ ci_presentMode info = out_param VK_PRESENT_MODE_FIFO_KHR out).
Proof.
  cbv zeta. unfold construct. split.
  - apply (wp_run (VulkanSwapchain_ctor _ _ _) (boot initial w)
             (fun _ m =>
                forall ok out,
                  In (EvChoosePresentMode ok out) (trace m) ->
                  (ok = true ->
                   ~ stops_at_present_mode (trace m)
                   /\ forall info res handle,
                        In (EvCreateSwapchainKHR info res handle) (trace m) ->
                        ci_presentMode info
                        = out_param VK_PRESENT_MODE_FIFO_KHR out)
                  /\ (ok = false ->
                      stops_at_present_mode (trace m)
                      /\ valid_ (self m) = false
                      /\ forall info res handle,
                           ~ In (EvCreateSwapchainKHR info res handle)
                                (trace m)))).
    unfold VulkanSwapchain_ctor. wp_walk.
    all: try (eapply wp_mono; [apply CreateSwapchainImages_trace|];
              intros st m' (extra & Ht & Hextra); machine_simpl;
              destruct st as [[]|[]|]; cbn [negb]; wp_walk; rewrite Ht).
    all: unfold stops_at_present_mode.
    all: intros ok out HIn; in_trace HIn.
    all: (split; [intros ->|intros ->]).
    all: try (exfalso; intuition (try discriminate; simplify_eq/=);
              not_images_event).
    all: try (split; [eexists _, _; reflexivity|]; split; [reflexivity|];
              intros info res handle HIn'; cbn [In] in HIn';
              intuition discriminate).
    all: split;
      [ intros (ok' & out' & Hlast); rewrite ?last_cons_cons in Hlast;
        first [ discriminate Hlast
              | apply (last_images_event [_] _ _ Hextra) in Hlast;
                destruct Hlast as [[] | Hlast]; discriminate Hlast ]
      | intros info res handle HIn'; in_trace HIn' ].
    all: intuition (simplify_eq/=; try reflexivity).
    all: not_images_event.
  - apply (wp_run (VulkanSwapchain_ctor _ _ _) (boot initial w)
             (fun _ m =>
                valid_ (self m) = true ->
                exists out info handle,
                  In (EvChoosePresentMode true out) (trace m)
                  /\ In (EvCreateSwapchainKHR info VK_SUCCESS handle)
                        (trace m)
                  /\ ci_presentMode info
                     = out_param VK_PRESENT_MODE_FIFO_KHR out)).
    unfold VulkanSwapchain_ctor. wp_walk.
    all: try (intros Hvalid; discriminate Hvalid).
    eapply wp_mono;
      [apply wp_conj;
         [apply CreateSwapchainImages_spec
         |apply CreateSwapchainImages_trace]|].
    intros st m' [((Hvalid & _) & _) (extra & Ht & _)].
    machine_simpl. cbn [app trace] in Ht.
    destruct st as [[]|[]|]; cbn [outcome negb] in *; wp_walk; rewrite Ht.
    all: intros Hnow; try (rewrite Hvalid in Hnow; discriminate Hnow).
    all: repeat match goal with
           | E : (_ =? _)%Z = true |- _ => apply Z.eqb_eq in E; subst
           end.
    all: eexists _, _, _; cbn [In].
    all: split; [do 4 right; left; reflexivity|].
    all: split; [do 8 right; left; reflexivity | reflexivity].
Qed.

(** ** Further properties: the size of the chain *)

Lemma int32_t_mod x : x < 2 ^ 32 -> (int32_t x mod 2 ^ 32)%Z = Z.of_N x.
Proof.
  intros Hx. unfold int32_t. rewrite (u32_small x Hx). cbv zeta.
  destruct (Z.ltb_spec (Z.of_N x) (2 ^ 31)) as [Hlt|Hge].
  - apply Z.mod_small. lia.
  - replace (Z.of_N x - 2 ^ 32)%Z with (Z.of_N x + -1 * 2 ^ 32)%Z by lia.
    rewrite Z.mod_add by lia. apply Z.mod_small. lia.
Qed.

Lemma int32_t_small x : x < 2 ^ 31 -> int32_t x = Z.of_N x.
Proof.
  intros Hx. unfold int32_t. rewrite u32_small by lia. cbv zeta.
  destruct (Z.ltb_spec (Z.of_N x) (2 ^ 31)); lia.
Qed.

Lemma int32_t_negative x : 2 ^ 31 <= x < 2 ^ 32 -> (int32_t x < 0)%Z.
Proof.
  intros Hx. unfold int32_t. rewrite u32_small by lia. cbv zeta.
  destruct (Z.ltb_spec (Z.of_N x) (2 ^ 31)); lia.
Qed.

(** X1: [GetSize] clamps the current extent into the range of image
    extents and hands the result to [SkISize::Make] as [int32_t].  When
    the minimum is not above the maximum (both [uint32_t]), each side of
    the result, read back modulo 2^32, lies between them, and is the
    current extent when that is already in range.  When the maximum is
    below 2^31 nothing is lost: the side itself lies in the range and an
    extent in range is returned as it is.  When the minimum is 2^31 or
    more the side comes out negative. *)
Theorem GetSize_clamps (s : VulkanSwapchain) :
  let caps := capabilities_ s in
  let lo := minImageExtent caps in
  let hi := maxImageExtent caps in
  let cur := currentExtent caps in
  width lo <= width hi < 2 ^ 32 ->
  height lo <= height hi < 2 ^ 32 ->
  ((Z.of_N (width lo) <= fWidth (GetSize s) mod 2 ^ 32 <= Z.of_N (width hi))%Z
   /\ (width lo <= width cur <= width hi ->
       (fWidth (GetSize s) mod 2 ^ 32)%Z = Z.of_N (width cur))
   /\ (width hi < 2 ^ 31 ->
       (Z.of_N (width lo) <= fWidth (GetSize s) <= Z.of_N (width hi))%Z
       /\ (width lo <= width cur <= width hi ->
           fWidth (GetSize s) = Z.of_N (width cur)))
   /\ (2 ^ 31 <= width lo -> (fWidth (GetSize s) < 0)%Z))
  /\ ((Z.of_N (height lo) <= fHeight (GetSize s) mod 2 ^ 32
                          <= Z.of_N (height hi))%Z
      /\ (height lo <= height cur <= height hi ->
          (fHeight (GetSize s) mod 2 ^ 32)%Z = Z.of_N (height cur))
      /\ (height hi < 2 ^ 31 ->
          (Z.of_N (height lo) <= fHeight (GetSize s) <= Z.of_N (height hi))%Z
          /\ (height lo <= height cur <= height hi ->
              fHeight (GetSize s) = Z.of_N (height cur)))
      /\ (2 ^ 31 <= height lo -> (fHeight (GetSize s) < 0)%Z)).
Proof.
  cbv zeta. intros Hw Hh. unfold GetSize. cbn [fWidth fHeight].
  split.
  - destruct (N.ltb_spec (width (currentExtent (capabilities_ s)))
                         (width (minImageExtent (capabilities_ s))));
      [|destruct (N.ltb_spec (width (maxImageExtent (capabilities_ s)))
                             (width (currentExtent (capabilities_ s))))].
    all: rewrite int32_t_mod by lia.
    all: repeat split; intros; rewrite ?int32_t_small by lia; try lia.
    all: apply int32_t_negative; lia.
  - destruct (N.ltb_spec (height (currentExtent (capabilities_ s)))
                         (height (minImageExtent (capabilities_ s))));
      [|destruct (N.ltb_spec (height (maxImageExtent (capabilities_ s)))
                             (height (currentExtent (capabilities_ s))))].
    all: rewrite int32_t_mod by lia.
    all: repeat split; intros; rewrite ?int32_t_small by lia; try lia.
    all: apply int32_t_negative; lia.
Qed.

Lemma filled_length count written :
  length (filled count written) = N.to_nat count.
Proof.
  unfold filled. rewrite length_take, length_app, repeat_length. lia.
Qed.

Lemma lookup_repeat {A} (x : A) (n i : nat) :
  (i < n)%nat -> repeat x n !! i = Some x.
Proof.
  revert i. induction n as [|n IH]; intros i Hi; [lia|].
  destruct i as [|i]; [reflexivity|].
  cbn [repeat]. change ((x :: repeat x n) !! S i) with (repeat x n !! i).
  apply IH. lia.
Qed.

Lemma filled_lookup count written (i : nat) :
  (i < N.to_nat count)%nat ->
  filled count written !! i
  = Some (match written !! i with Some h => h | None => VK_NULL_HANDLE end).
Proof.
  intros Hi. unfold filled. rewrite lookup_take_lt by exact Hi.
  destruct (written !! i) as [h|] eqn:Hw.
  - rewrite lookup_app_l by (eapply lookup_lt_Some; exact Hw). exact Hw.
  - apply lookup_ge_None in Hw. rewrite lookup_app_r by exact Hw.
    apply lookup_repeat. lia.
Qed.

(** X2: [GetImages] never changes the object and returns either nothing
    or exactly as many handles as the driver counted.  It asks for the
    count first; if that fails or the count is 0 it makes no second call
    and returns the empty vector; otherwise it asks once for that many
    handles and returns the empty vector if that fails, else a vector of
    exactly the counted length holding the handles the driver wrote,
    followed by null handles where it wrote none. *)
Theorem GetImages_all_or_nothing (s : VulkanSwapchain) (w : W) :
  let r := run GetImages (boot s w) in
  self r.2 = s
  /\ exists imgs res out rest,
       r.1 = Some imgs
       /\ trace r.2
          = EvGetSwapchainImagesKHR_count (swapchain_ s) res out :: rest
       /\ (imgs = [] \/ length imgs = N.to_nat (reported_count out))
       /\ (res <> VK_SUCCESS \/ reported_count out = 0 ->
           rest = [] /\ imgs = [])
       /\ (res = VK_SUCCESS -> reported_count out <> 0 ->
           exists res' out' written,
             rest = [EvGetSwapchainImagesKHR (swapchain_ s)
                       (reported_count out) res' out' written]
             /\ (res' <> VK_SUCCESS -> imgs = [])
             /\ (res' = VK_SUCCESS ->
                 imgs = filled (reported_count out) written
                 /\ forall i : nat,
                      (i < N.to_nat (reported_count out))%nat ->
                      imgs !! i
                      = Some (match written !! i with
                              | Some h => h
                              | None => VK_NULL_HANDLE
                              end))).
Proof.
  cbv zeta.
  apply (wp_run GetImages (boot s w)
           (fun r m' =>
              self m' = s
              /\ exists imgs res out rest,
                   r = Some imgs
                   /\ trace m'
                      = EvGetSwapchainImagesKHR_count (swapchain_ s) res out
                          :: rest
                   /\ (imgs = [] \/ length imgs = N.to_nat (reported_count out))
                   /\ (res <> VK_SUCCESS \/ reported_count out = 0 ->
                       rest = [] /\ imgs = [])
                   /\ (res = VK_SUCCESS -> reported_count out <> 0 ->
                       exists res' out' written,
                         rest = [EvGetSwapchainImagesKHR (swapchain_ s)
                                   (reported_count out) res' out' written]
                         /\ (res' <> VK_SUCCESS -> imgs = [])
                         /\ (res' = VK_SUCCESS ->
                             imgs = filled (reported_count out) written
                             /\ forall i : nat,
                                  (i < N.to_nat (reported_count out))%nat ->
                                  imgs !! i
                                  = Some (match written !! i with
                                          | Some h => h
                                          | None => VK_NULL_HANDLE
                                          end))))).
  unfold GetImages. wp_walk.
  all: repeat match goal with
         | E : (_ =? _)%Z = true |- _ => apply Z.eqb_eq in E
         | E : (_ =? _)%Z = false |- _ => apply Z.eqb_neq in E
         | E : (_ =? _) = true |- _ => apply N.eqb_eq in E
         | E : (_ =? _) = false |- _ => apply N.eqb_neq in E
         end.
  all: split; [reflexivity|].
  all: eexists _, _, _, _; split; [reflexivity|]; split; [reflexivity|].
  all: fold (reported_count o) in *.
  all: try fold (filled (reported_count o) l).
  all: split; [first [left; reflexivity | right; apply filled_length]|].
  all: split; [intros [Hbad | Hbad]; first [congruence | split; reflexivity]
              |intros Hgood Hcount; try congruence].
  all: eexists _, _, _; split; [reflexivity|].
  all: split; [intros Hbad; first [reflexivity | congruence]|].
  all: intros Hgood'; try congruence.
  split; [reflexivity|]. intros i Hi. apply filled_lookup. exact Hi.
Qed.

(** ** Further properties: the order of the calls *)

Ltac bool_facts :=
  repeat match goal with
         | E : (_ =? _)%Z = true |- _ => apply Z.eqb_eq in E
         | E : (_ =? _)%Z = false |- _ => apply Z.eqb_neq in E
         | E : (_ <=? _) = true |- _ => apply N.leb_le in E
         | E : (_ <=? _) = false |- _ => apply N.leb_gt in E
         end.

Ltac success_facts :=
  bool_facts;
  repeat match goal with
         | E : ?z = VK_SUCCESS |- _ => subst z
         end.

Ltac refute_failed H := cbn in H; congruence.

(** X3: the calls [AcquireSurface] makes are always an initial part of
    one fixed sequence (wait for the fences, reset them, acquire the next
    image, begin, barrier, end, queue submit, render-target handle, layout
    update), and the call returns [Success] exactly when it has made the
    whole sequence. *)
Theorem acquire_follows_protocol (s : VulkanSwapchain) (w : W) :
  let r := run AcquireSurface (boot s w) in
  prefix (call_of <$> trace r.2) acquire_protocol
  /\ ((exists surface, r.1 = Some (Success, surface))
      <-> call_of <$> trace r.2 = acquire_protocol).
Proof.
  cbv zeta.
  apply (wp_run AcquireSurface (boot s w)
           (fun r m' =>
              prefix (call_of <$> trace m') acquire_protocol
              /\ ((exists surface, r = Some (Success, surface))
                  <-> call_of <$> trace m' = acquire_protocol))).
  unfold AcquireSurface, GetNextBackbuffer. wp_walk.
  all: split; [eexists; cbn; reflexivity|].
  all: split; [intros [surface Hres]; try discriminate Hres; reflexivity
              |intros Hall; try discriminate Hall; eauto].
Qed.

(** X4: the calls [Submit] makes are always an initial part of one fixed
    sequence (render-target handle, begin, barrier, end, queue submit,
    present), and [Submit] returns [true] exactly when it has made the
    whole sequence and the present call answered [VK_SUCCESS]. *)
Theorem submit_follows_protocol (s : VulkanSwapchain) (w : W) :
  let r := run Submit (boot s w) in
  prefix (call_of <$> trace r.2) submit_protocol
  /\ (r.1 = Some true
      <-> exists pre info,
            trace r.2 = pre ++ [EvQueuePresentKHR info VK_SUCCESS]
            /\ call_of <$> trace r.2 = submit_protocol).
Proof.
  cbv zeta.
  apply (wp_run Submit (boot s w)
           (fun r m' =>
              prefix (call_of <$> trace m') submit_protocol
              /\ (r = Some true
                  <-> exists pre info,
                        trace m' = pre ++ [EvQueuePresentKHR info VK_SUCCESS]
                        /\ call_of <$> trace m' = submit_protocol))).
  unfold Submit. wp_walk.
  all: bool_facts.
  all: split; [eexists; cbn; reflexivity|].
  all: split; [intros Hres; try discriminate Hres
              |intros (pre & info & Htr & Hall); try discriminate Hall].
  all: try reflexivity.
  - subst. eexists [_; _; _; _; _], _. split; reflexivity.
  - exfalso.
    repeat (destruct pre as [|? pre]; simplify_eq/=; try congruence).
Qed.

(** X5: [AcquireSurface] makes no call after one that failed: a failed
    call is the last of the trace, and the result is then an error
    without a render target. *)
Theorem acquire_stops_at_first_failure (s : VulkanSwapchain) (w : W) :
  let r := run AcquireSurface (boot s w) in
  stops_at_failure (trace r.2)
  /\ (forall e, In e (trace r.2) -> failed e = true ->
      r.1 = Some (ErrorSurfaceLost, None)
      \/ r.1 = Some (ErrorSurfaceOutOfDate, None)).
Proof.
  cbv zeta.
  apply (wp_run AcquireSurface (boot s w)
           (fun r m' =>
              stops_at_failure (trace m')
              /\ (forall e, In e (trace m') -> failed e = true ->
                  r = Some (ErrorSurfaceLost, None)
                  \/ r = Some (ErrorSurfaceOutOfDate, None)))).
  unfold AcquireSurface, GetNextBackbuffer. wp_walk.
  all: success_facts.
  all: split;
    [ intros pre e post E Hfailed;
      repeat (destruct pre as [|? pre]; simplify_eq/=; auto);
      refute_failed Hfailed
    | intros e HIn Hfailed; cbn [In] in HIn;
      first [ left; reflexivity | right; reflexivity
            | exfalso; intuition (subst; refute_failed Hfailed) ] ].
Qed.

(** X6: [Submit] makes no call after one that failed: a failed call is
    the last of the trace, and [Submit] then returns [false]. *)
Theorem submit_stops_at_first_failure (s : VulkanSwapchain) (w : W) :
  let r := run Submit (boot s w) in
  stops_at_failure (trace r.2)
  /\ (forall e, In e (trace r.2) -> failed e = true -> r.1 = Some false).
Proof.
  cbv zeta.
  apply (wp_run Submit (boot s w)
           (fun r m' =>
              stops_at_failure (trace m')
              /\ (forall e, In e (trace m') -> failed e = true ->
                  r = Some false))).
  unfold Submit. wp_walk.
  all: success_facts.
  all: split;
    [ intros pre e post E Hfailed;
      repeat (destruct pre as [|? pre]; simplify_eq/=; auto);
      refute_failed Hfailed
    | intros e HIn Hfailed; cbn [In] in HIn;
      first [ reflexivity
            | exfalso; intuition (subst; refute_failed Hfailed) ] ].
Qed.

(** ** Further properties: what the calls are given *)

(** X7: the image acquisition of [AcquireSurface] is its third call,
    made right after the selected slot's fences were waited for and reset
    with success; it names this chain's swapchain, waits without timeout
    ([UINT64_MAX]), signals the selected slot's usage semaphore and passes
    no fence. *)
Theorem acquire_signals_usage_semaphore (s : VulkanSwapchain) (w : W)
    swapchain timeout semaphore fence res out :
  let r := run AcquireSurface (boot s w) in
  In (EvAcquireNextImageKHR swapchain timeout semaphore fence res out)
     (trace r.2) ->
  swapchain = swapchain_ s
  /\ timeout = UINT64_MAX
  /\ fence = VK_NULL_HANDLE
  /\ exists b post,
       selected_slot (self r.2) = Some b
       /\ semaphore = usage_semaphore b
       /\ trace r.2
          = [EvWaitFences b true; EvResetFences b true;
             EvAcquireNextImageKHR swapchain timeout semaphore fence res out]
            ++ post.
Proof.
  cbv zeta.
  apply (wp_run AcquireSurface (boot s w)
           (fun r m' =>
              In (EvAcquireNextImageKHR swapchain timeout semaphore fence
                    res out) (trace m') ->
              swapchain = swapchain_ s
              /\ timeout = UINT64_MAX
              /\ fence = VK_NULL_HANDLE
              /\ exists b post,
                   selected_slot (self m') = Some b
                   /\ semaphore = usage_semaphore b
                   /\ trace m'
                      = [EvWaitFences b true; EvResetFences b true;
                         EvAcquireNextImageKHR swapchain timeout semaphore
                           fence res out] ++ post)).
  unfold AcquireSurface, GetNextBackbuffer. wp_walk.
  all: unfold selected_slot; machine_simpl.
  all: intros HIn; cbn [In] in HIn.
  all: repeat match goal with
         | D : _ \/ _ |- _ => destruct D as [D|D]; try discriminate D
         | D : False |- _ => destruct D
         end.
  all: simplify_eq/=.
  all: repeat split.
  all: eexists _, _; split; [eassumption|]; split; reflexivity.
Qed.

(** X8: the barrier [AcquireSurface] records goes into the selected
    slot's usage command buffer, on the image at the index the driver
    just returned, from the pipeline stage the chain had on entry to
    colour-attachment output, with colour-attachment write access and
    the colour-attachment layout.  The chain's stage becomes
    colour-attachment output if the barrier was recorded, and stays as it
    was if recording failed or no barrier was recorded. *)
Theorem acquire_barrier (s : VulkanSwapchain) (w : W) :
  let r := run AcquireSurface (boot s w) in
  (forall image cb src dst access layout ok,
     In (EvInsertImageMemoryBarrier image cb src dst access layout ok)
        (trace r.2) ->
     src = current_pipeline_stage_ s
     /\ dst = VK_PIPELINE_STAGE_COLOR_ATTACHMENT_OUTPUT_BIT
     /\ access = VK_ACCESS_COLOR_ATTACHMENT_WRITE_BIT
     /\ layout = VK_IMAGE_LAYOUT_COLOR_ATTACHMENT_OPTIMAL
     /\ (exists b, selected_slot (self r.2) = Some b
                   /\ cb = usage_command_buffer b)
     /\ (exists swapchain timeout semaphore fence out,
           In (EvAcquireNextImageKHR swapchain timeout semaphore fence
                 VK_SUCCESS out) (trace r.2)
           /\ images_ s !! N.to_nat (returned_index out) = Some image)
     /\ current_pipeline_stage_ (self r.2)
        = if ok then VK_PIPELINE_STAGE_COLOR_ATTACHMENT_OUTPUT_BIT
          else current_pipeline_stage_ s)
  /\ ((forall image cb src dst access layout,
         ~ In (EvInsertImageMemoryBarrier image cb src dst access layout
                 true) (trace r.2)) ->
      current_pipeline_stage_ (self r.2) = current_pipeline_stage_ s).
Proof.
  cbv zeta.
  apply (wp_run AcquireSurface (boot s w)
           (fun r m' =>
              (forall image cb src dst access layout ok,
                 In (EvInsertImageMemoryBarrier image cb src dst access
                       layout ok) (trace m') ->
                 src = current_pipeline_stage_ s
                 /\ dst = VK_PIPELINE_STAGE_COLOR_ATTACHMENT_OUTPUT_BIT
                 /\ access = VK_ACCESS_COLOR_ATTACHMENT_WRITE_BIT
                 /\ layout = VK_IMAGE_LAYOUT_COLOR_ATTACHMENT_OPTIMAL
                 /\ (exists b, selected_slot (self m') = Some b
                               /\ cb = usage_command_buffer b)
                 /\ (exists swapchain timeout semaphore fence out,
                       In (EvAcquireNextImageKHR swapchain timeout semaphore
                             fence VK_SUCCESS out) (trace m')
                       /\ images_ s !! N.to_nat (returned_index out)
                          = Some image)
                 /\ current_pipeline_stage_ (self m')
                    = if ok then VK_PIPELINE_STAGE_COLOR_ATTACHMENT_OUTPUT_BIT
                      else current_pipeline_stage_ s)
              /\ ((forall image cb src dst access layout,
                     ~ In (EvInsertImageMemoryBarrier image cb src dst access
                             layout true) (trace m')) ->
                  current_pipeline_stage_ (self m')
                  = current_pipeline_stage_ s))).
  unfold AcquireSurface, GetNextBackbuffer. wp_walk.
  all: success_facts.
  all: unfold selected_slot, returned_index; machine_simpl.
  all: split;
    [ intros image cb src dst access layout ok HIn; cbn [In] in HIn
    | intros Hnone; try reflexivity ].
  all: try (exfalso; eapply Hnone; cbn [In]; do 4 right; left; reflexivity).
  all: repeat match goal with
         | D : _ \/ _ |- _ => destruct D as [D|D]; try discriminate D
         | D : False |- _ => destruct D
         end.
  all: match goal with
       | D : EvInsertImageMemoryBarrier _ _ _ _ _ _ _ = _ |- _ =>
           injection D as <- <- <- <- <- <- <-
       end.
  all: repeat split; eauto 15.
  all: eexists _, _, _, _, _; split; [|eassumption]; cbn [In]; eauto 10.
Qed.

(** X9: the barrier [Submit] records goes into the selected slot's
    render command buffer, on the current image, from the pipeline stage
    the chain had on entry to bottom-of-pipe, with memory-read access and
    the present layout.  The chain's stage becomes bottom-of-pipe as soon
    as the barrier is recorded, also when [Submit] fails afterwards, and
    stays as it was otherwise. *)
Theorem submit_barrier (s : VulkanSwapchain) (w : W) :
  let r := run Submit (boot s w) in
  (forall image cb src dst access layout ok,
     In (EvInsertImageMemoryBarrier image cb src dst access layout ok)
        (trace r.2) ->
     src = current_pipeline_stage_ s
     /\ dst = VK_PIPELINE_STAGE_BOTTOM_OF_PIPE_BIT
     /\ access = VK_ACCESS_MEMORY_READ_BIT
     /\ layout = VK_IMAGE_LAYOUT_PRESENT_SRC_KHR
     /\ images_ s !! N.to_nat (current_image_index_ s) = Some image
     /\ (exists b, selected_slot s = Some b /\ cb = render_command_buffer b)
     /\ current_pipeline_stage_ (self r.2)
        = if ok then VK_PIPELINE_STAGE_BOTTOM_OF_PIPE_BIT
          else current_pipeline_stage_ s)
  /\ ((forall image cb src dst access layout,
         ~ In (EvInsertImageMemoryBarrier image cb src dst access layout
                 true) (trace r.2)) ->
      current_pipeline_stage_ (self r.2) = current_pipeline_stage_ s)
  /\ (r.1 = Some true ->
      current_pipeline_stage_ (self r.2)
      = VK_PIPELINE_STAGE_BOTTOM_OF_PIPE_BIT).
Proof.
  cbv zeta.
  apply (wp_run Submit (boot s w)
           (fun r m' =>
              (forall image cb src dst access layout ok,
                 In (EvInsertImageMemoryBarrier image cb src dst access
                       layout ok) (trace m') ->
                 src = current_pipeline_stage_ s
                 /\ dst = VK_PIPELINE_STAGE_BOTTOM_OF_PIPE_BIT
                 /\ access = VK_ACCESS_MEMORY_READ_BIT
                 /\ layout = VK_IMAGE_LAYOUT_PRESENT_SRC_KHR
                 /\ images_ s !! N.to_nat (current_image_index_ s)
                    = Some image
                 /\ (exists b, selected_slot s = Some b
                               /\ cb = render_command_buffer b)
                 /\ current_pipeline_stage_ (self m')
                    = if ok then VK_PIPELINE_STAGE_BOTTOM_OF_PIPE_BIT
                      else current_pipeline_stage_ s)
              /\ ((forall image cb src dst access layout,
                     ~ In (EvInsertImageMemoryBarrier image cb src dst access
                             layout true) (trace m')) ->
                  current_pipeline_stage_ (self m')
                  = current_pipeline_stage_ s)
              /\ (r = Some true ->
                  current_pipeline_stage_ (self m')
                  = VK_PIPELINE_STAGE_BOTTOM_OF_PIPE_BIT))).
  unfold Submit. wp_walk.
  all: unfold selected_slot; machine_simpl.
  all: split;
    [ intros image cb src dst access layout ok HIn; cbn [In] in HIn
    | split; [intros Hnone; try reflexivity
             |intros Hres; try discriminate Hres; try reflexivity] ].
  all: try (exfalso; eapply Hnone; cbn [In]; do 2 right; left; reflexivity).
  all: repeat match goal with
         | D : _ \/ _ |- _ => destruct D as [D|D]; try discriminate D
         | D : False |- _ => destruct D
         end.
  all: match goal with
       | D : EvInsertImageMemoryBarrier _ _ _ _ _ _ _ = _ |- _ =>
           injection D as <- <- <- <- <- <- <-
       end.
  all: repeat split; eauto 15.
Qed.

Lemma construct_stage skia_context old_swapchain queue_family_index w :
  current_pipeline_stage_
    (self (construct skia_context old_swapchain queue_family_index w))
  = VK_PIPELINE_STAGE_TOP_OF_PIPE_BIT.
Proof.
  unfold construct.
  apply (wp_run (VulkanSwapchain_ctor _ _ _) (boot initial w)
           (fun _ m => current_pipeline_stage_ (self m)
                       = VK_PIPELINE_STAGE_TOP_OF_PIPE_BIT)).
  unfold VulkanSwapchain_ctor. wp_walk.
  all: try reflexivity.
  eapply wp_mono; [apply CreateSwapchainImages_spec|].
  intros st m' ((_ & _ & _ & Hstage & _) & _). machine_simpl.
  destruct st as [[]|[]|]; cbn [negb]; wp_walk; exact Hstage.
Qed.

Lemma AcquireSurface_barrier_source s w image cb src dst access layout ok :
  In (EvInsertImageMemoryBarrier image cb src dst access layout ok)
     (trace (run AcquireSurface (boot s w)).2) ->
  src = current_pipeline_stage_ s.
Proof.
  apply (wp_run AcquireSurface (boot s w)
           (fun _ m' =>
              In (EvInsertImageMemoryBarrier image cb src dst access layout
                    ok) (trace m') ->
              src = current_pipeline_stage_ s)).
  unfold AcquireSurface, GetNextBackbuffer. wp_walk.
  all: intros HIn; cbn [In] in HIn.
  all: repeat match goal with
         | D : _ \/ _ |- _ => destruct D as [D|D]; try discriminate D
         | D : False |- _ => destruct D
         end.
  all: match goal with
       | D : EvInsertImageMemoryBarrier _ _ _ _ _ _ _ = _ |- _ =>
           injection D as <- <- <- <- <- <- <-
       end.
  all: reflexivity.
Qed.

Lemma Submit_barrier_source s w image cb src dst access layout ok :
  In (EvInsertImageMemoryBarrier image cb src dst access layout ok)
     (trace (run Submit (boot s w)).2) ->
  src = current_pipeline_stage_ s.
Proof.
  apply (wp_run Submit (boot s w)
           (fun _ m' =>
              In (EvInsertImageMemoryBarrier image cb src dst access layout
                    ok) (trace m') ->
              src = current_pipeline_stage_ s)).
  unfold Submit. wp_walk.
  all: intros HIn; cbn [In] in HIn.
  all: repeat match goal with
         | D : _ \/ _ |- _ => destruct D as [D|D]; try discriminate D
         | D : False |- _ => destruct D
         end.
  all: match goal with
       | D : EvInsertImageMemoryBarrier _ _ _ _ _ _ _ = _ |- _ =>
           injection D as <- <- <- <- <- <- <-
       end.
  all: reflexivity.
Qed.

Lemma AcquireSurface_stage_on_success s w surface :
  (run AcquireSurface (boot s w)).1 = Some (Success, surface) ->
  current_pipeline_stage_ (self (run AcquireSurface (boot s w)).2)
  = VK_PIPELINE_STAGE_COLOR_ATTACHMENT_OUTPUT_BIT.
Proof.
  apply (wp_run AcquireSurface (boot s w)
           (fun r m' =>
              r = Some (Success, surface) ->
              current_pipeline_stage_ (self m')
              = VK_PIPELINE_STAGE_COLOR_ATTACHMENT_OUTPUT_BIT)).
  unfold AcquireSurface, GetNextBackbuffer. wp_walk.
  all: intros Hres; try discriminate Hres; reflexivity.
Qed.

Lemma Submit_stage_on_success s w :
  (run Submit (boot s w)).1 = Some true ->
  current_pipeline_stage_ (self (run Submit (boot s w)).2)
  = VK_PIPELINE_STAGE_BOTTOM_OF_PIPE_BIT.
Proof.
  apply (wp_run Submit (boot s w)
           (fun r m' =>
              r = Some true ->
              current_pipeline_stage_ (self m')
              = VK_PIPELINE_STAGE_BOTTOM_OF_PIPE_BIT)).
  unfold Submit. wp_walk.
  all: intros Hres; try discriminate Hres; reflexivity.
Qed.

(** X10: how the barriers chain from call to call.  The first
    [AcquireSurface] on a freshly constructed chain takes its barrier
    from top-of-pipe; the [Submit] after an [AcquireSurface] that
    returned [Success] takes its barrier from colour-attachment output;
    and the [AcquireSurface] after a [Submit] that returned [true] takes
    its barrier from bottom-of-pipe, whichever image the driver hands out
    (the stage is kept per chain, not per image). *)
Theorem barrier_sources_chain (s : VulkanSwapchain) (w w' : W) :
  (forall skia_context old_swapchain queue_family_index w0
          image cb src dst access layout ok,
     s = self (construct skia_context old_swapchain queue_family_index w0) ->
     In (EvInsertImageMemoryBarrier image cb src dst access layout ok)
        (trace (run AcquireSurface (boot s w)).2) ->
     src = VK_PIPELINE_STAGE_TOP_OF_PIPE_BIT)
  /\ (forall surface image cb src dst access layout ok,
        (run AcquireSurface (boot s w)).1 = Some (Success, surface) ->
        In (EvInsertImageMemoryBarrier image cb src dst access layout ok)
           (trace (run Submit
                     (boot (self (run AcquireSurface (boot s w)).2) w')).2) ->
        src = VK_PIPELINE_STAGE_COLOR_ATTACHMENT_OUTPUT_BIT)
  /\ (forall image cb src dst access layout ok,
        (run Submit (boot s w)).1 = Some true ->
        In (EvInsertImageMemoryBarrier image cb src dst access layout ok)
           (trace (run AcquireSurface
                     (boot (self (run Submit (boot s w)).2) w')).2) ->
        src = VK_PIPELINE_STAGE_BOTTOM_OF_PIPE_BIT).
Proof.
  split; [|split].
  - intros skia_context old_swapchain queue_family_index w0
           image cb src dst access layout ok -> HIn.
    rewrite (AcquireSurface_barrier_source _ _ _ _ _ _ _ _ _ HIn).
    apply construct_stage.
  - intros surface image cb src dst access layout ok Hres HIn.
    rewrite (Submit_barrier_source _ _ _ _ _ _ _ _ _ HIn).
    eapply AcquireSurface_stage_on_success. exact Hres.
  - intros image cb src dst access layout ok Hres HIn.
    rewrite (AcquireSurface_barrier_source _ _ _ _ _ _ _ _ _ HIn).
    apply Submit_stage_on_success. exact Hres.
Qed.

(** ** Further properties: when a frame succeeds, and what it keeps *)

Lemma indices_below_spec n tr :
  indices_below n tr = true ->
  forall swapchain timeout semaphore fence res out,
    In (EvAcquireNextImageKHR swapchain timeout semaphore fence res out) tr ->
    returned_index out < n.
Proof.
  unfold indices_below. rewrite forallb_forall.
  intros Hall swapchain timeout semaphore fence res out HIn.
  apply Hall in HIn. apply N.ltb_lt. exact HIn.
Qed.

Ltac all_ok_facts H :=
  unfold all_ok in H;
  repeat match type of H with
         | Forall _ (_ :: _) =>
             let Hhead := fresh "Hhead" in
             apply Forall_cons in H as [Hhead H];
             cbn [failed negb] in Hhead;
             rewrite ?negb_false_iff in Hhead
         end.

(** X11: on a valid chain a caller can be holding, [AcquireSurface]
    fails only for a reason the driver gave: if none of its calls failed
    and the image index the driver returned is below [images_.size()],
    the call returns [Success] with the non-null surface stored at the
    image index that is current afterwards, having made all nine calls of
    its sequence. *)
Theorem acquire_succeeds_when_the_driver_does (m : Machine) (w : W) :
  Reachable m ->
  valid_ (self m) = true ->
  let r := run AcquireSurface (boot (self m) w) in
  all_ok (trace r.2) ->
  (forall swapchain timeout semaphore fence res out,
     In (EvAcquireNextImageKHR swapchain timeout semaphore fence res out)
        (trace r.2) ->
     returned_index out < N.of_nat (length (images_ (self m)))) ->
  exists sk,
    r.1 = Some (Success, Some sk)
    /\ surfaces_ (self m) !! N.to_nat (current_image_index_ (self r.2))
       = Some (Some sk)
    /\ call_of <$> trace r.2 = acquire_protocol.
Proof.
  intros Hreach Hvalid. cbv zeta.
  pose proof (Reachable_chain_ok m Hreach Hvalid) as Hok.
  pose proof (ok_slots_valid _ Hok) as Hslots.
  pose proof (ok_images_valid _ Hok) as Himages.
  pose proof (ok_surfaces_nonnull _ Hok) as Hnonnull.
  pose proof (ok_images_surfaces _ Hok) as Hsizes.
  pose proof (ok_backbuffers_images _ Hok) as Hring.
  pose proof (ok_nonempty _ Hok) as Hnonempty.
  apply (wp_run AcquireSurface (boot (self m) w)
           (fun r m' =>
              all_ok (trace m') ->
              (forall swapchain timeout semaphore fence res out,
                 In (EvAcquireNextImageKHR swapchain timeout semaphore fence
                       res out) (trace m') ->
                 returned_index out < N.of_nat (length (images_ (self m)))) ->
              exists sk,
                r = Some (Success, Some sk)
                /\ surfaces_ (self m) !! N.to_nat (current_image_index_ (self m'))
                   = Some (Some sk)
                /\ call_of <$> trace m' = acquire_protocol)).
  unfold AcquireSurface, GetNextBackbuffer. wp_walk.
  all: intros Hall Hindex.
  all: try (unfold IsValid in *; congruence).
  all: try match goal with
           | E : (N.of_nat _ =? 0) = true |- _ => apply N.eqb_eq in E; lia
           end.
  all: try match goal with
           | E : _ !! _ = Some ?x, E' : bb_valid ?x = false |- _ =>
               pose proof (Forall_lookup_1 _ _ _ _ Hslots E); congruence
           | E : _ !! _ = Some ?x, E' : img_valid ?x = false |- _ =>
               pose proof (Forall_lookup_1 _ _ _ _ Himages E); congruence
           | E : surfaces_ _ !! _ = Some None |- _ =>
               destruct (Forall_lookup_1 _ _ _ _ Hnonnull E); congruence
           end.
  all: try (all_ok_facts Hall; congruence).
  all: try (exfalso;
            match goal with
            | E : (N.of_nat _ <=? _) = true |- _ =>
                apply N.leb_le in E;
                specialize (Hindex _ _ _ _ _ _
                              ltac:(cbn [In]; do 2 right; left; reflexivity));
                unfold returned_index in Hindex; lia
            end).
  all: try (exfalso;
            match goal with
            | E : _ !! _ = None |- _ => apply lookup_ge_None in E
            end;
            bool_facts;
            try (assert (N.of_nat (length (backbuffers_ (self m))) <> 0)
                   as Hnz by lia;
                 pose proof (N.mod_upper_bound
                               (size_t (current_backbuffer_index_ (self m) + 1))
                               _ Hnz));
            lia).
  eexists. split; [reflexivity|]. split; [assumption|reflexivity].
Qed.

(** X12: on a valid chain a caller can be holding, [Submit] fails only
    for a reason the driver gave: if none of its calls failed it returns
    [true], having made all six calls of its sequence. *)
Theorem submit_succeeds_when_the_driver_does (m : Machine) (w : W) :
  Reachable m ->
  valid_ (self m) = true ->
  let r := run Submit (boot (self m) w) in
  all_ok (trace r.2) ->
  r.1 = Some true /\ call_of <$> trace r.2 = submit_protocol.
Proof.
  intros Hreach Hvalid. cbv zeta.
  pose proof (Reachable_chain_ok m Hreach Hvalid) as Hok.
  destruct (Submit_defined m Hok) as (_ & (sk & Hsurface) & (i & Himage)
                                      & (b & Hslot)).
  unfold selected_slot in Hslot.
  apply (wp_run Submit (boot (self m) w)
           (fun r m' =>
              all_ok (trace m') ->
              r = Some true /\ call_of <$> trace m' = submit_protocol)).
  unfold Submit. wp_walk.
  all: intros Hall.
  all: try (unfold IsValid in *; congruence).
  all: try (all_ok_facts Hall; congruence).
  split; reflexivity.
Qed.

(** X13: on every machine a caller can be holding, valid or not,
    [AcquireSurface] has defined behaviour: its unchecked access
    [surfaces_[next_image_index]] is in bounds, because the index was
    checked against [images_.size()] and the two vectors are as long. *)
Theorem acquire_is_defined (m : Machine) :
  Reachable m -> (run AcquireSurface m).1 <> None.
Proof.
  intros Hreach.
  destruct (valid_ (self m)) eqn:Hvalid.
  - pose proof (Reachable_chain_ok m Hreach Hvalid) as Hok.
    pose proof (ok_images_surfaces _ Hok) as Hsizes.
    apply (wp_run AcquireSurface m (fun r _ => r <> None)).
    unfold AcquireSurface, GetNextBackbuffer. wp_walk.
    all: try discriminate.
    all: exfalso; bool_facts.
    all: match goal with
         | E : _ !! _ = None |- _ => apply lookup_ge_None in E
         end.
    all: try lia.
    match goal with
    | E : (N.of_nat _ =? 0) = false |- _ => apply N.eqb_neq in E
    end.
    pose proof (N.mod_upper_bound
                  (size_t (current_backbuffer_index_ (self m) + 1))
                  (N.of_nat (length (backbuffers_ (self m))))
                  ltac:(assumption)).
    lia.
  - unfold run, AcquireSurface, mbind, Op_bind, op_bind, get, IsValid.
    rewrite Hvalid. discriminate.
Qed.

(** X14: neither [AcquireSurface] nor [Submit] touches what negotiation
    fixed: validity, the size [GetSize] reports, the capabilities, the
    surface format, the swapchain handle and the three vectors are the
    same after the call, whatever its result. *)
Theorem frames_keep_the_negotiation (m : Machine) :
  same_negotiation (self m) (self (run AcquireSurface m).2)
  /\ same_negotiation (self m) (self (run Submit m).2).
Proof.
  split.
  - apply (wp_run AcquireSurface m
             (fun _ m' => same_negotiation (self m) (self m'))).
    unfold AcquireSurface, GetNextBackbuffer. wp_walk.
    all: repeat split.
  - apply (wp_run Submit m
             (fun _ m' => same_negotiation (self m) (self m'))).
    unfold Submit. wp_walk.
    all: repeat split.
Qed.

(** X15: when the ring is empty, or the backbuffer in the next slot is
    not valid, [AcquireSurface] on a valid chain returns
    [ErrorSurfaceLost] without calling the driver and without moving the
    slot index. *)
Theorem acquire_without_a_usable_slot (m : Machine) :
  valid_ (self m) = true ->
  (backbuffers_ (self m) = []
   \/ exists b,
        backbuffers_ (self m)
        !! N.to_nat (size_t (current_backbuffer_index_ (self m) + 1)
                     mod ring_size (self m)) = Some b
        /\ bb_valid b = false) ->
  run AcquireSurface m = (Some (ErrorSurfaceLost, None), m).
Proof.
  intros Hvalid Hslot.
  unfold run, AcquireSurface, GetNextBackbuffer, invoke, at_, ring_size in *.
  unfold mbind, Op_bind, op_bind, get, return_, IsValid.
  rewrite Hvalid. cbn [negb].
  destruct Hslot as [Hempty | (b & Hb & Hinvalid)].
  - rewrite Hempty. reflexivity.
  - destruct (N.of_nat (length (backbuffers_ (self m))) =? 0);
      [reflexivity|].
    rewrite Hb. unfold mret, Op_ret, op_ret. rewrite Hinvalid. reflexivity.
Qed.

(** X16: [Submit] on an invalid chain returns [false] and changes
    nothing: no vector is indexed, no call is made, no member is
    written. *)
Theorem submit_on_invalid_chain_is_inert (m : Machine) :
  valid_ (self m) = false ->
  run Submit m = (Some false, m).
Proof.
  intros Hinvalid.
  unfold run, Submit, mbind, Op_bind, op_bind, get, IsValid.
  rewrite Hinvalid. reflexivity.
Qed.

(** ** Further properties: negotiation *)

Lemma all_ok_ok_then_one tr : all_ok tr -> ok_then_one tr.
Proof.
  intros Hok. exists tr, []. rewrite app_nil_r. repeat split; [exact Hok|].
  cbn. lia.
Qed.

Lemma ok_then_one_app pre tr :
  all_ok pre -> ok_then_one tr -> ok_then_one (pre ++ tr).
Proof.
  intros Hpre (pre' & last_call & -> & Hpre' & Hlen).
  exists (pre ++ pre'), last_call. rewrite app_assoc.
  repeat split; [|exact Hlen]. apply Forall_app. split; assumption.
Qed.


Lemma grows_ok_weaken m m' : grows_ok true m m' -> grows_ok false m m'.
Proof.
  intros (extra & Ht & Hok). exists extra. split; [exact Ht|].
  apply all_ok_ok_then_one. exact Hok.
Qed.

Lemma grows_ok_step b m m1 m' pre :
  trace m1 = trace m ++ pre -> all_ok pre ->
  grows_ok b m1 m' -> grows_ok b m m'.
Proof.
  intros Hpre Hok (extra & Ht & Hextra).
  exists (pre ++ extra). rewrite Ht, Hpre, app_assoc. split; [reflexivity|].
  destruct b; [apply Forall_app; split; assumption|].
  apply ok_then_one_app; assumption.
Qed.

Ltac prove_all_ok :=
  unfold all_ok;
  repeat (apply Forall_cons; split); try apply Forall_nil;
  cbn [failed is_nullptr]; rewrite ?negb_false_iff;
  first [ reflexivity | assumption
        | apply Z.eqb_eq; assumption ].

Lemma CreateSwapchainImages_loop_grows skia_context surface_size images :
  forall m,
    wp (CreateSwapchainImages_loop skia_context surface_size images) m
       (fun st m' =>
          st <> Returned true
          /\ grows_ok (match st with Next _ => true | _ => false end) m m').
Proof.
  induction images as [|image rest IH]; intros m.
  - apply wp_ret. split; [discriminate|].
    exists []. rewrite app_nil_r. split; [reflexivity|constructor].
  - cbn [CreateSwapchainImages_loop]. unfold CreateSkiaSurface.
    wp_walk.
    all: try (match goal with
              | |- wp (CreateSwapchainImages_loop _ _ _) _ _ => idtac
              end;
              eapply wp_mono; [apply IH|];
              intros st m' [Hst Hgrows]; cbv beta; split; [exact Hst|];
              eapply (grows_ok_step _ _ _ _
                        [EvBackbufferNew _; EvImageNew _ _;
                         EvMakeFromBackendRenderTarget _ _ _ (Some _)]);
              [ | | exact Hgrows ];
              [ machine_simpl; rewrite <- !app_assoc; reflexivity
              | prove_all_ok ]).
    all: split; [discriminate|].
    all: eexists; split; [rewrite <- ?app_assoc; cbn [app]; reflexivity|].
    all: first
      [ apply all_ok_ok_then_one; prove_all_ok
      | eexists [_; _], [_]; split; [reflexivity|];
        split; [prove_all_ok | cbn; lia]
      | eexists [_], [_]; split; [reflexivity|];
        split; [prove_all_ok | cbn; lia]
      | eexists [], [_]; split; [reflexivity|];
        split; [prove_all_ok | cbn; lia] ].
Qed.




Lemma surface_request_same ctx s s' e :
  capabilities_ s' = capabilities_ s ->
  surface_format_ s' = surface_format_ s ->
  surface_request ctx s e -> surface_request ctx s' e.
Proof.
  intros Hcaps Hfmt. destruct e; cbn [surface_request]; auto.
  unfold render_target_of, GetSize. rewrite Hcaps, Hfmt. auto.
Qed.

Lemma CreateSwapchainImages_loop_requests skia_context surface_size images :
  forall m,
    surface_size = GetSize (self m) ->
    wp (CreateSwapchainImages_loop skia_context surface_size images) m
       (fun st m' =>
          (exists extra,
             trace m' = trace m ++ extra
             /\ Forall (surface_request skia_context (self m)) extra)
          /\ (st = Next tt ->
              images = []
              \/ GrVkFormatToPixelConfig vk (format (surface_format_ (self m)))
                 <> kUnknown_GrPixelConfig)).
Proof.
  induction images as [|image rest IH]; intros m Hsize.
  - apply wp_ret. split; [|auto].
    exists []. rewrite app_nil_r. split; [reflexivity|constructor].
  - cbn [CreateSwapchainImages_loop]. unfold CreateSkiaSurface.
    wp_walk.
    2: { eapply wp_mono; [apply IH; exact Hsize|].
         intros st m' [(extra & Ht & Hextra) _]. cbv beta.
         machine_simpl. rewrite Ht.
         split; [|intros _; right; apply N.eqb_neq; assumption].
         rewrite <- !app_assoc. cbn [app].
         eexists. split; [reflexivity|].
         repeat (apply Forall_cons; split); try exact I.
         - cbn [surface_request]. split; [reflexivity|].
           split; [eexists; rewrite Hsize; reflexivity|].
           split; [reflexivity|]. apply N.eqb_neq. assumption.
         - eapply Forall_impl; [exact Hextra|].
           intros e. apply surface_request_same; reflexivity. }
    all: (split; [|intros Hst; try discriminate Hst; right;
                   apply N.eqb_neq; assumption]).
    all: rewrite <- ?app_assoc; cbn [app].
    all: eexists; split; [reflexivity|].
    all: repeat (apply Forall_cons; split); try apply Forall_nil;
      try exact I.
    all: cbn [surface_request]; split; [reflexivity|];
      split; [eexists; rewrite Hsize; reflexivity|];
      split; [reflexivity|]; apply N.eqb_neq; assumption.
Qed.

Lemma CreateSwapchainImages_requests skia_context m :
  wp (CreateSwapchainImages skia_context) m
     (fun st m' =>
        (exists extra,
           trace m' = trace m ++ extra
           /\ Forall (surface_request skia_context (self m)) extra)
        /\ (outcome st = Some true ->
            GrVkFormatToPixelConfig vk (format (surface_format_ (self m)))
            <> kUnknown_GrPixelConfig)).
Proof.
  unfold CreateSwapchainImages, GetImages. wp_walk.
  all: try match goal with
           | E : (N.of_nat (length []) =? 0) = false |- _ => discriminate E
           end.
  all: lazymatch goal with
       | |- wp (CreateSwapchainImages_loop _ _ _) _ _ =>
           eapply wp_mono;
           [apply wp_conj;
              [apply CreateSwapchainImages_loop_requests; reflexivity
              |apply CreateSwapchainImages_loop_grows]|];
           intros st m' [[(extra & Ht & Hextra) Hconfig] [Hst _]];
           cbv beta; machine_simpl;
           destruct st as [[]|[]|]; try congruence; wp_walk; rewrite Ht
       | |- _ => idtac
       end.
  all: (split;
        [|intros Hres;
          first [ discriminate Hres
                | destruct (Hconfig eq_refl) as [Hnil|Hknown];
                  [rewrite Hnil in *; discriminate|exact Hknown] ]]).
  all: rewrite <- ?app_assoc; cbn [app].
  all: eexists; split; [reflexivity|].
  all: repeat (apply Forall_cons; split); try apply Forall_nil; try exact I.
  all: assumption.
Qed.

(** X18: the constructor asks Skia for a surface only with the context
    it was given, only for a render target of the size [GetSize] reports
    (the clamped extent as [int32_t]), in the negotiated format, with undefined layout and the
    colour space of that format, and only when Skia has a pixel
    configuration for the format.  A chain whose format has no pixel
    configuration in Skia is never valid. *)
Theorem surfaces_wrap_the_negotiated_format
    (skia_context : option GrContext)
    (old_swapchain : option VulkanSwapchain) (queue_family_index : N)
    (w : W) :
  let m := construct skia_context old_swapchain queue_family_index w in
  (forall ctx target cs out,
     In (EvMakeFromBackendRenderTarget ctx target cs out) (trace m) ->
     skia_context = Some ctx
     /\ (exists image, target = render_target_of (self m) image)
     /\ cs = SkColorSpaceFromVkFormat (format (surface_format_ (self m)))
     /\ GrVkFormatToPixelConfig vk (format (surface_format_ (self m)))
        <> kUnknown_GrPixelConfig)
  /\ (GrVkFormatToPixelConfig vk (format (surface_format_ (self m)))
      = kUnknown_GrPixelConfig ->
      valid_ (self m) = false).
Proof.
  cbv zeta.
  enough (forall m,
            m = construct skia_context old_swapchain queue_family_index w ->
            (forall ctx target cs out,
               In (EvMakeFromBackendRenderTarget ctx target cs out)
                  (trace m) ->
               surface_request skia_context (self m)
                 (EvMakeFromBackendRenderTarget ctx target cs out))
            /\ (GrVkFormatToPixelConfig vk
                  (format (surface_format_ (self m)))
                = kUnknown_GrPixelConfig ->
                valid_ (self m) = false)) as Hmain.
  { exact (Hmain _ eq_refl). }
  intros m ->. unfold construct.
  apply (wp_run (VulkanSwapchain_ctor _ _ _) (boot initial w)
           (fun _ m =>
              (forall ctx target cs out,
                 In (EvMakeFromBackendRenderTarget ctx target cs out)
                    (trace m) ->
                 surface_request skia_context (self m)
                   (EvMakeFromBackendRenderTarget ctx target cs out))
              /\ (GrVkFormatToPixelConfig vk
                    (format (surface_format_ (self m)))
                  = kUnknown_GrPixelConfig ->
                  valid_ (self m) = false))).
  unfold VulkanSwapchain_ctor. wp_walk.
  all: try (split; [|intros _; reflexivity];
            intros ctx target cs out HIn; cbn [In] in HIn;
            exfalso; intuition discriminate).
  eapply wp_mono;
    [apply wp_conj;
       [apply CreateSwapchainImages_spec
       |apply CreateSwapchainImages_requests]|].
  intros st m' [((Hvalid & _ & _ & _ & _ & Hcaps & Hfmt) & _)
                  [(extra & Ht & Hextra) Hconfig]].
  machine_simpl. cbn [app trace] in Ht.
  destruct st as [[]|[]|]; cbn [outcome negb] in *; wp_walk; rewrite Ht.
  all: (split;
        [|intros Hunknown;
          first [ exact Hvalid
                | exfalso; rewrite Hfmt in Hunknown;
                  exact (Hconfig eq_refl Hunknown) ]]).
  all: intros ctx target cs out HIn; cbn [In] in HIn.
  all: repeat match goal with
         | D : _ \/ _ |- _ => destruct D as [D|D]; try discriminate D
         end.
  all: rewrite Forall_forall in Hextra.
  all: apply list_elem_of_In, Hextra in HIn.
  all: eapply surface_request_same; [| |exact HIn]; machine_simpl;
    congruence.
Qed.

(** X19: every swapchain the constructor creates is created from what
    was negotiated just before: the minimum image count and the current
    extent (as reported, not clamped) of the capabilities and the format
    and colour space the device chose, all as the finished object holds
    them, the present mode the device chose (FIFO if it named none), one
    array layer, colour-attachment usage, exclusive sharing, identity
    transform, inherited alpha, no clipping, on a surface handle the
    surface gave; the predecessor's handle is passed on only when there
    is a predecessor and it is valid.  If creation fails the object keeps
    a null swapchain handle and stays invalid; otherwise it keeps the
    handle the driver returned. *)
Theorem swapchain_is_created_from_the_negotiation
    (skia_context : option GrContext)
    (old_swapchain : option VulkanSwapchain) (queue_family_index : N)
    (w : W) info res out :
  let m := construct skia_context old_swapchain queue_family_index w in
  In (EvCreateSwapchainKHR info res out) (trace m) ->
  (ci_minImageCount info = minImageCount (capabilities_ (self m))
   /\ ci_imageExtent info = currentExtent (capabilities_ (self m))
   /\ ci_imageFormat info = format (surface_format_ (self m))
   /\ ci_imageColorSpace info = colorSpace (surface_format_ (self m)))
  /\ (ci_imageArrayLayers info = 1
      /\ ci_imageUsage info = VK_IMAGE_USAGE_COLOR_ATTACHMENT_BIT
      /\ ci_imageSharingMode info = VK_SHARING_MODE_EXCLUSIVE
      /\ ci_queueFamilyIndexCount info = 0
      /\ ci_preTransform info = VK_SURFACE_TRANSFORM_IDENTITY_BIT_KHR
      /\ ci_compositeAlpha info = VK_COMPOSITE_ALPHA_INHERIT_BIT_KHR
      /\ ci_clipped info = VK_FALSE)
  /\ ci_oldSwapchain info
     = match old_swapchain with
       | Some old => if IsValid old then swapchain_ old else VK_NULL_HANDLE
       | None => VK_NULL_HANDLE
       end
  /\ (exists mode, In (EvChoosePresentMode true mode) (trace m)
                   /\ ci_presentMode info
                      = out_param VK_PRESENT_MODE_FIFO_KHR mode)
  /\ In (EvSurfaceHandle (ci_surface info)) (trace m)
  /\ (res = VK_SUCCESS ->
      swapchain_ (self m) = out_param VK_NULL_HANDLE out)
  /\ (res <> VK_SUCCESS ->
      swapchain_ (self m) = VK_NULL_HANDLE /\ valid_ (self m) = false).
Proof.
  cbv zeta. unfold construct.
  apply (wp_run (VulkanSwapchain_ctor _ _ _) (boot initial w)
           (fun _ m =>
              In (EvCreateSwapchainKHR info res out) (trace m) ->
              (ci_minImageCount info = minImageCount (capabilities_ (self m))
               /\ ci_imageExtent info = currentExtent (capabilities_ (self m))
               /\ ci_imageFormat info = format (surface_format_ (self m))
               /\ ci_imageColorSpace info
                  = colorSpace (surface_format_ (self m)))
              /\ (ci_imageArrayLayers info = 1
                  /\ ci_imageUsage info = VK_IMAGE_USAGE_COLOR_ATTACHMENT_BIT
                  /\ ci_imageSharingMode info = VK_SHARING_MODE_EXCLUSIVE
                  /\ ci_queueFamilyIndexCount info = 0
                  /\ ci_preTransform info
                     = VK_SURFACE_TRANSFORM_IDENTITY_BIT_KHR
                  /\ ci_compositeAlpha info
                     = VK_COMPOSITE_ALPHA_INHERIT_BIT_KHR
                  /\ ci_clipped info = VK_FALSE)
              /\ ci_oldSwapchain info
                 = match old_swapchain with
                   | Some old =>
                       if IsValid old then swapchain_ old else VK_NULL_HANDLE
                   | None => VK_NULL_HANDLE
                   end
              /\ (exists mode, In (EvChoosePresentMode true mode) (trace m)
                               /\ ci_presentMode info
                                  = out_param VK_PRESENT_MODE_FIFO_KHR mode)
              /\ In (EvSurfaceHandle (ci_surface info)) (trace m)
              /\ (res = VK_SUCCESS ->
                  swapchain_ (self m) = out_param VK_NULL_HANDLE out)
              /\ (res <> VK_SUCCESS ->
                  swapchain_ (self m) = VK_NULL_HANDLE
                  /\ valid_ (self m) = false))).
  unfold VulkanSwapchain_ctor. wp_walk.
  all: lazymatch goal with
       | |- wp (CreateSwapchainImages _) _ _ =>
           eapply wp_mono;
           [apply wp_conj;
              [apply CreateSwapchainImages_spec
              |apply CreateSwapchainImages_trace]|];
           intros st m' [((Hvalid & _ & _ & _ & Hsc & Hcaps & Hfmt) & _)
                           (extra & Ht & Hextra)];
           machine_simpl; cbn [app trace] in Ht;
           destruct st as [[]|[]|]; cbn [outcome negb] in *; wp_walk;
           rewrite Ht
       | |- _ => idtac
       end.
  all: bool_facts.
  all: intros HIn; cbn [In] in HIn.
  all: repeat match goal with
         | D : _ \/ _ |- _ => destruct D as [D|D]; try discriminate D
         | D : False |- _ => destruct D
         end.
  all: try (exfalso; not_images_event).
  all: injection HIn as <- <- <-; machine_simpl; cbn [out_param].
  all: rewrite ?Hcaps, ?Hfmt, ?Hsc.
  all: repeat split; try reflexivity; try congruence.
  all: try (eexists; split; [|reflexivity]; cbn [In]; auto 10).
  all: cbn [In]; auto 12.
Qed.

End Swapchain.

(** ** Concrete runs on the scripted driver *)

Local Abbreviation driver := (Fake.platform Fake.healthy).

(** The chain the healthy driver negotiates: three images, three slots. *)
Local Abbreviation fresh :=
  (construct (Fake.platform Fake.healthy) (Some 1) None 0 Fake.power_on).

Example fresh_chain :
  valid_ (self fresh) = true
  /\ length (images_ (self fresh)) = 3%nat
  /\ surfaces_ (self fresh) = [Some 1101; Some 1102; Some 1103]
  /\ reported_counts (trace fresh) = [3].
Proof. vm_compute. repeat split. Qed.

Example seven_frames : cycles driver 7 fresh = [1; 2; 0; 1; 2; 0; 1].
Proof. vm_compute. reflexivity. Qed.

Example acquire_then_submit :
  let m1 := (run (AcquireSurface driver) fresh).2 in
  (run (AcquireSurface driver) fresh).1 = Some (Success, Some 1101)
  /\ (run (Submit driver) m1).1 = Some true.
Proof. vm_compute. split; reflexivity. Qed.

Example suboptimal_is_surface_lost :
  (run (AcquireSurface (Fake.platform Fake.suboptimal))
       (boot (self fresh) (world fresh))).1
  = Some (ErrorSurfaceLost, None).
Proof. vm_compute. reflexivity. Qed.

Example wild_index_is_surface_lost :
  (run (AcquireSurface (Fake.platform Fake.wild_index))
       (boot (self fresh) (world fresh))).1
  = Some (ErrorSurfaceLost, None).
Proof. vm_compute. reflexivity. Qed.

Example failed_present_fails_submit :
  (run (Submit (Fake.platform Fake.present_fails))
       (boot (self fresh) (world fresh))).1
  = Some false.
Proof. vm_compute. reflexivity. Qed.

Example no_images_no_chain :
  let m := construct (Fake.platform Fake.no_images)
                     (Some 1) None 0 Fake.power_on in
  valid_ (self m) = false /\ reported_counts (trace m) = [0].
Proof. vm_compute. split; reflexivity. Qed.

Example mailbox_is_taken :
  let m := construct (Fake.platform Fake.mailbox)
                     (Some 1) None 0 Fake.power_on in
  valid_ (self m) = true
  /\ exists info,
       In (EvCreateSwapchainKHR info VK_SUCCESS (Some 9)) (trace m)
       /\ ci_presentMode info = VK_PRESENT_MODE_MAILBOX_KHR.
Proof.
  cbv zeta. split; [vm_compute; reflexivity|].
  eexists. split; [vm_compute; do 8 right; left; reflexivity|reflexivity].
Qed.

Lemma acquire_on_invalid_chain_is_inert_witness :
  valid_ initial = false
  /\ run (AcquireSurface driver) (boot initial Fake.power_on)
     = (Some (ErrorSurfaceLost, None), boot initial Fake.power_on).
Proof.
  split; [reflexivity|].
  apply (acquire_on_invalid_chain_is_inert driver
           (boot initial Fake.power_on)).
  reflexivity.
Defined.

Lemma reset_fences_only_after_wait_fences_witness :
  let r := run (AcquireSurface (Fake.platform Fake.stalled))
               (boot (self fresh) (world fresh)) in
  In (EvWaitFences (Fake.backbuffer 1) false) (trace r.2)
  /\ r.1 = Some (ErrorSurfaceLost, None)
  /\ no_reset (trace r.2).
Proof.
  cbv zeta.
  assert (In (EvWaitFences (Fake.backbuffer 1) false)
            (trace (run (AcquireSurface (Fake.platform Fake.stalled))
                        (boot (self fresh) (world fresh))).2)) as HIn.
  { vm_compute. left. reflexivity. }
  split; [exact HIn|].
  exact (proj2 (proj2 (reset_fences_only_after_wait_fences
                         (Fake.platform Fake.stalled)
                         (self fresh) (world fresh)))
               (Fake.backbuffer 1) HIn).
Defined.

Lemma acquire_submission_uses_usage_pair_witness :
  let r := run (AcquireSurface driver) (boot (self fresh) (world fresh)) in
  r.1 = Some (Success, Some 1101)
  /\ exists b,
       selected_slot (self r.2) = Some b
       /\ In (EvQueueSubmit [VK_PIPELINE_STAGE_COLOR_ATTACHMENT_OUTPUT_BIT]
                [usage_semaphore b] [] [usage_command_buffer b]
                (usage_fence b) true) (trace r.2).
Proof.
  cbv zeta.
  assert ((run (AcquireSurface driver) (boot (self fresh) (world fresh))).1
          = Some (Success, Some 1101)) as Hres.
  { vm_compute. reflexivity. }
  split; [exact Hres|].
  exact (proj2 (acquire_submission_uses_usage_pair driver
                  (self fresh) (world fresh)) (Some 1101) Hres).
Defined.

Lemma submit_signals_render_pair_then_presents_witness :
  let s := self (run (AcquireSurface driver) fresh).2 in
  let r := run (Submit driver) (boot s Fake.power_on) in
  current_image_index_ s < 2 ^ 32
  /\ r.1 = Some true
  /\ (forall stages waits signals cmds fence ok,
        In (EvQueueSubmit stages waits signals cmds fence ok) (trace r.2) ->
        exists b,
          selected_slot s = Some b
          /\ stages = [] /\ waits = []
          /\ signals = [render_semaphore b]
          /\ cmds = [render_command_buffer b]
          /\ fence = render_fence b)
  /\ exists b pre,
       selected_slot s = Some b
       /\ trace r.2 =
            pre ++ [EvQueueSubmit [] [] [render_semaphore b]
                      [render_command_buffer b] (render_fence b) true;
                    EvQueuePresentKHR
                      {| pi_waitSemaphores := [render_semaphore b];
                         pi_swapchains := [swapchain_ s];
                         pi_imageIndices := [current_image_index_ s] |}
                      VK_SUCCESS].
Proof.
  cbv zeta.
  assert (current_image_index_ (self (run (AcquireSurface driver) fresh).2)
          < 2 ^ 32) as Hlt.
  { vm_compute. reflexivity. }
  assert ((run (Submit driver)
               (boot (self (run (AcquireSurface driver) fresh).2)
                     Fake.power_on)).1 = Some true) as Hres.
  { vm_compute. reflexivity. }
  split; [exact Hlt|]. split; [exact Hres|].
  split.
  - exact (proj1 (submit_signals_render_pair_then_presents driver
                    (self (run (AcquireSurface driver) fresh).2)
                    Fake.power_on Hlt)).
  - exact (proj1 (proj2 (proj2
             (submit_signals_render_pair_then_presents driver
                (self (run (AcquireSurface driver) fresh).2)
                Fake.power_on Hlt))) Hres).
Defined.

Lemma acquire_status_mapping_witness :
  let r := run (AcquireSurface (Fake.platform Fake.out_of_date))
               (boot (self fresh) (world fresh)) in
  In (EvAcquireNextImageKHR 9 UINT64_MAX 11 VK_NULL_HANDLE
        VK_ERROR_OUT_OF_DATE_KHR (Some 0)) (trace r.2)
  /\ r.1 = Some (ErrorSurfaceOutOfDate, None).
Proof.
  cbv zeta.
  assert (In (EvAcquireNextImageKHR 9 UINT64_MAX 11 VK_NULL_HANDLE
                VK_ERROR_OUT_OF_DATE_KHR (Some 0))
            (trace (run (AcquireSurface (Fake.platform Fake.out_of_date))
                        (boot (self fresh) (world fresh))).2)) as HIn.
  { vm_compute. right. right. left. reflexivity. }
  split; [exact HIn|].
  exact (proj1 (acquire_status_mapping (Fake.platform Fake.out_of_date)
                  (self fresh) (world fresh) _ _ _ _ _ _ HIn) eq_refl).
Defined.

Lemma slot_index_goes_round_the_ring_witness :
  Reachable driver fresh
  /\ valid_ (self fresh) = true
  /\ cycles driver 7 fresh !! 1%nat = Some 2
  /\ cycles driver 7 fresh !! (1 + N.to_nat (ring_size (self fresh)))%nat
     = Some 2.
Proof.
  assert (valid_ (self fresh) = true) as Hvalid.
  { vm_compute. reflexivity. }
  assert (cycles driver 7 fresh !! 1%nat = Some 2) as Hslot.
  { vm_compute. reflexivity. }
  split; [apply reach_construct|].
  split; [exact Hvalid|].
  split; [exact Hslot|].
  refine (proj1 (proj2 (proj2 (slot_index_goes_round_the_ring driver fresh
                                 (reach_construct driver _ _ _ _) Hvalid)))
                7%nat 1%nat 2 _ Hslot).
  vm_compute. lia.
Defined.

Lemma negotiated_sizes_witness :
  valid_ (self fresh) = true
  /\ exists n,
       reported_counts (trace fresh) = [n]
       /\ 1 <= n
       /\ N.of_nat (length (backbuffers_ (self fresh))) = n
       /\ N.of_nat (length (images_ (self fresh))) = n
       /\ N.of_nat (length (surfaces_ (self fresh))) = n.
Proof.
  assert (valid_ (self fresh) = true) as Hvalid.
  { vm_compute. reflexivity. }
  split; [exact Hvalid|].
  exact (proj1 (negotiated_sizes driver (Some 1) None 0 Fake.power_on)
               Hvalid).
Defined.

Lemma fifo_default_when_present_mode_chosen_witness :
  let m := construct (Fake.platform Fake.failed_mailbox)
                     (Some 1) None 0 Fake.power_on in
  (In (EvChoosePresentMode true None) (trace fresh)
   /\ ~ stops_at_present_mode (trace fresh)
   /\ forall info res handle,
        In (EvCreateSwapchainKHR info res handle) (trace fresh) ->
        ci_presentMode info = VK_PRESENT_MODE_FIFO_KHR)
  /\ (In (EvChoosePresentMode false (Some VK_PRESENT_MODE_MAILBOX_KHR))
         (trace m)
      /\ stops_at_present_mode (trace m)
      /\ valid_ (self m) = false
      /\ forall info res handle,
           ~ In (EvCreateSwapchainKHR info res handle) (trace m)).
Proof.
  cbv zeta. split.
  - assert (In (EvChoosePresentMode true None) (trace fresh)) as HIn.
    { vm_compute. do 4 right. left. reflexivity. }
    split; [exact HIn|].
    exact (proj1 (proj1 (fifo_default_when_present_mode_chosen driver
                           (Some 1) None 0 Fake.power_on) true None HIn)
                 eq_refl).
  - assert (In (EvChoosePresentMode false (Some VK_PRESENT_MODE_MAILBOX_KHR))
              (trace (construct (Fake.platform Fake.failed_mailbox)
                                (Some 1) None 0 Fake.power_on))) as HIn.
    { vm_compute. do 4 right. left. reflexivity. }
    split; [exact HIn|].
    exact (proj2 (proj1 (fifo_default_when_present_mode_chosen
                           (Fake.platform Fake.failed_mailbox)
                           (Some 1) None 0 Fake.power_on) false _ HIn)
                 eq_refl).
Defined.

(** A device whose [ChoosePresentMode] fails and names no mode: the
    constructor returns at that step, creates no swapchain and leaves the
    chain invalid, against the eighth claim as worded. *)
Lemma fifo_default_claim_counterexample :
  let m := construct (Fake.platform Fake.no_present_mode)
                     (Some 1) None 0 Fake.power_on in
  valid_ (self m) = false
  /\ last (trace m) = Some (EvChoosePresentMode false None)
  /\ ~ fifo_default_claim (Fake.platform Fake.no_present_mode)
         (Some 1) None 0 Fake.power_on.
Proof.
  cbv zeta. split; [vm_compute; reflexivity|].
  split; [vm_compute; reflexivity|].
  intros Hclaim.
  destruct (Hclaim false) as [Hgoes_on _].
  - vm_compute. do 4 right. left. reflexivity.
  - apply Hgoes_on. exists false, None. vm_compute. reflexivity.
Qed.

Lemma current_image_index_in_bounds_witness :
  let m := (run (Submit driver) (run (AcquireSurface driver) fresh).2).2 in
  Reachable driver m
  /\ valid_ (self m) = true
  /\ current_image_index_ (self m) < N.of_nat (length (images_ (self m)))
  /\ (run (Submit driver) m).1 <> None.
Proof.
  cbv zeta.
  assert (Reachable driver
            (run (Submit driver) (run (AcquireSurface driver) fresh).2).2)
    as Hreach.
  { apply reach_submit, reach_acquire, reach_construct. }
  assert (valid_ (self (run (Submit driver)
                            (run (AcquireSurface driver) fresh).2).2) = true)
    as Hvalid.
  { vm_compute. reflexivity. }
  split; [exact Hreach|]. split; [exact Hvalid|].
  destruct (current_image_index_in_bounds driver _ Hreach Hvalid)
    as (_ & Hlt & _ & _ & _ & Hdefined).
  split; [exact Hlt | exact Hdefined].
Defined.

Lemma failed_acquire_keeps_current_image_witness :
  let s := self (run (AcquireSurface driver)
                     (run (AcquireSurface driver) fresh).2).2 in
  let r := run (AcquireSurface (Fake.platform Fake.out_of_date))
               (boot s Fake.power_on) in
  current_image_index_ s = 1
  /\ (forall surface, r.1 <> Some (Success, surface))
  /\ current_image_index_ (self r.2) = current_image_index_ s.
Proof.
  cbv zeta. split; [vm_compute; reflexivity|].
  assert (forall surface,
            (run (AcquireSurface (Fake.platform Fake.out_of_date))
                 (boot (self (run (AcquireSurface driver)
                     (run (AcquireSurface driver) fresh).2).2)
                       Fake.power_on)).1
            <> Some (Success, surface)) as Hfail.
  { intros surface. vm_compute. discriminate. }
  split; [exact Hfail|].
  exact (proj1 (proj1 (failed_acquire_keeps_current_image
                         (Fake.platform Fake.out_of_date)
                         (self (run (AcquireSurface driver)
                     (run (AcquireSurface driver) fresh).2).2)
                         Fake.power_on) Hfail)).
Defined.

(** ** Concrete runs for the further properties *)

Lemma GetSize_clamps_witness :
  fWidth (GetSize (self fresh)) = 800%Z
  /\ fHeight (GetSize (self fresh)) = 600%Z.
Proof.
  assert (width (minImageExtent (capabilities_ (self fresh)))
          <= width (maxImageExtent (capabilities_ (self fresh))) < 2 ^ 32)
    as Hw.
  { vm_compute. split; [discriminate | reflexivity]. }
  assert (height (minImageExtent (capabilities_ (self fresh)))
          <= height (maxImageExtent (capabilities_ (self fresh))) < 2 ^ 32)
    as Hh.
  { vm_compute. split; [discriminate | reflexivity]. }
  destruct (GetSize_clamps (self fresh) Hw Hh)
    as ((_ & _ & Hwidth & _) & (_ & _ & Hheight & _)).
  split.
  - rewrite (proj2 (Hwidth ltac:(vm_compute; reflexivity)));
      [reflexivity|]. vm_compute. split; discriminate.
  - rewrite (proj2 (Hheight ltac:(vm_compute; reflexivity)));
      [reflexivity|]. vm_compute. split; discriminate.
Defined.

(** A surface whose extent does not fit an [int32_t]: the sides come back
    negative. *)
Example GetSize_narrows :
  let huge := {| width := 4294967295; height := 2147483648 |} in
  GetSize (set_capabilities_
             {| minImageCount := 3; currentExtent := huge;
                minImageExtent := {| width := 1; height := 1 |};
                maxImageExtent := huge |} initial)
  = {| fWidth := -1; fHeight := -2147483648 |}.
Proof. vm_compute. reflexivity. Qed.

Lemma GetImages_all_or_nothing_witness :
  self (run (GetImages driver) (boot (self fresh) Fake.power_on)).2
  = self fresh.
Proof.
  exact (proj1 (GetImages_all_or_nothing driver (self fresh) Fake.power_on)).
Defined.

Lemma acquire_follows_protocol_witness :
  call_of <$> trace (run (AcquireSurface driver)
                         (boot (self fresh) (world fresh))).2
  = acquire_protocol.
Proof.
  apply (proj2 (acquire_follows_protocol driver (self fresh) (world fresh))).
  exists (Some 1101). vm_compute. reflexivity.
Defined.

Lemma submit_follows_protocol_witness :
  prefix (call_of <$> trace (run (Submit (Fake.platform Fake.present_fails))
                                 (boot (self fresh) (world fresh))).2)
         submit_protocol.
Proof.
  exact (proj1 (submit_follows_protocol (Fake.platform Fake.present_fails)
                  (self fresh) (world fresh))).
Defined.

Lemma acquire_stops_at_first_failure_witness :
  let r := run (AcquireSurface (Fake.platform Fake.stalled))
               (boot (self fresh) (world fresh)) in
  In (EvWaitFences (Fake.backbuffer 1) false) (trace r.2)
  /\ (r.1 = Some (ErrorSurfaceLost, None)
      \/ r.1 = Some (ErrorSurfaceOutOfDate, None)).
Proof.
  cbv zeta.
  assert (In (EvWaitFences (Fake.backbuffer 1) false)
            (trace (run (AcquireSurface (Fake.platform Fake.stalled))
                        (boot (self fresh) (world fresh))).2)) as HIn.
  { vm_compute. left. reflexivity. }
  split; [exact HIn|].
  exact (proj2 (acquire_stops_at_first_failure (Fake.platform Fake.stalled)
                  (self fresh) (world fresh)) _ HIn eq_refl).
Defined.

Lemma submit_stops_at_first_failure_witness :
  let r := run (Submit (Fake.platform Fake.present_fails))
               (boot (self fresh) (world fresh)) in
  (exists info, In (EvQueuePresentKHR info VK_ERROR_DEVICE_LOST) (trace r.2))
  /\ r.1 = Some false.
Proof.
  cbv zeta.
  assert (In (EvQueuePresentKHR
                {| pi_waitSemaphores := [2]; pi_swapchains := [9];
                   pi_imageIndices := [0] |} VK_ERROR_DEVICE_LOST)
            (trace (run (Submit (Fake.platform Fake.present_fails))
                        (boot (self fresh) (world fresh))).2)) as HIn.
  { vm_compute. do 5 right. left. reflexivity. }
  split; [eexists; exact HIn|].
  exact (proj2 (submit_stops_at_first_failure
                  (Fake.platform Fake.present_fails)
                  (self fresh) (world fresh)) _ HIn eq_refl).
Defined.

Lemma acquire_signals_usage_semaphore_witness :
  let r := run (AcquireSurface driver) (boot (self fresh) (world fresh)) in
  In (EvAcquireNextImageKHR 9 UINT64_MAX 11 VK_NULL_HANDLE VK_SUCCESS (Some 0))
     (trace r.2)
  /\ exists b post,
       selected_slot (self r.2) = Some b
       /\ 11 = usage_semaphore b
       /\ trace r.2
          = [EvWaitFences b true; EvResetFences b true;
             EvAcquireNextImageKHR 9 UINT64_MAX 11 VK_NULL_HANDLE
               VK_SUCCESS (Some 0)] ++ post.
Proof.
  cbv zeta.
  assert (In (EvAcquireNextImageKHR 9 UINT64_MAX 11 VK_NULL_HANDLE
                VK_SUCCESS (Some 0))
            (trace (run (AcquireSurface driver)
                        (boot (self fresh) (world fresh))).2)) as HIn.
  { vm_compute. do 2 right. left. reflexivity. }
  split; [exact HIn|].
  exact (proj2 (proj2 (proj2 (acquire_signals_usage_semaphore driver
                                (self fresh) (world fresh)
                                _ _ _ _ _ _ HIn)))).
Defined.

Lemma acquire_barrier_witness :
  let r := run (AcquireSurface driver) (boot (self fresh) (world fresh)) in
  In (EvInsertImageMemoryBarrier {| img_handle := 101; img_valid := true |}
        15 VK_PIPELINE_STAGE_TOP_OF_PIPE_BIT
        VK_PIPELINE_STAGE_COLOR_ATTACHMENT_OUTPUT_BIT
        VK_ACCESS_COLOR_ATTACHMENT_WRITE_BIT
        VK_IMAGE_LAYOUT_COLOR_ATTACHMENT_OPTIMAL true) (trace r.2)
  /\ current_pipeline_stage_ (self r.2)
     = VK_PIPELINE_STAGE_COLOR_ATTACHMENT_OUTPUT_BIT.
Proof.
  cbv zeta.
  assert (In (EvInsertImageMemoryBarrier
                {| img_handle := 101; img_valid := true |}
                15 VK_PIPELINE_STAGE_TOP_OF_PIPE_BIT
                VK_PIPELINE_STAGE_COLOR_ATTACHMENT_OUTPUT_BIT
                VK_ACCESS_COLOR_ATTACHMENT_WRITE_BIT
                VK_IMAGE_LAYOUT_COLOR_ATTACHMENT_OPTIMAL true)
            (trace (run (AcquireSurface driver)
                        (boot (self fresh) (world fresh))).2)) as HIn.
  { vm_compute. do 4 right. left. reflexivity. }
  split; [exact HIn|].
  exact (proj2 (proj2 (proj2 (proj2 (proj2 (proj2
           (proj1 (acquire_barrier driver (self fresh) (world fresh))
                  _ _ _ _ _ _ _ HIn))))))).
Defined.

Lemma submit_barrier_witness :
  let r := run (Submit (Fake.platform Fake.present_fails))
               (boot (self fresh) (world fresh)) in
  In (EvInsertImageMemoryBarrier {| img_handle := 101; img_valid := true |}
        6 VK_PIPELINE_STAGE_TOP_OF_PIPE_BIT
        VK_PIPELINE_STAGE_BOTTOM_OF_PIPE_BIT
        VK_ACCESS_MEMORY_READ_BIT VK_IMAGE_LAYOUT_PRESENT_SRC_KHR true)
     (trace r.2)
  /\ r.1 = Some false
  /\ current_pipeline_stage_ (self r.2) = VK_PIPELINE_STAGE_BOTTOM_OF_PIPE_BIT.
Proof.
  cbv zeta.
  assert (In (EvInsertImageMemoryBarrier
                {| img_handle := 101; img_valid := true |}
                6 VK_PIPELINE_STAGE_TOP_OF_PIPE_BIT
                VK_PIPELINE_STAGE_BOTTOM_OF_PIPE_BIT
                VK_ACCESS_MEMORY_READ_BIT VK_IMAGE_LAYOUT_PRESENT_SRC_KHR true)
            (trace (run (Submit (Fake.platform Fake.present_fails))
                        (boot (self fresh) (world fresh))).2)) as HIn.
  { vm_compute. do 2 right. left. reflexivity. }
  split; [exact HIn|]. split; [vm_compute; reflexivity|].
  exact (proj2 (proj2 (proj2 (proj2 (proj2 (proj2
           (proj1 (submit_barrier (Fake.platform Fake.present_fails)
                     (self fresh) (world fresh))
                  _ _ _ _ _ _ _ HIn))))))).
Defined.

Lemma barrier_sources_chain_witness :
  let a := run (AcquireSurface driver) (boot (self fresh) (world fresh)) in
  let r := run (Submit driver) (boot (self a.2) (world a.2)) in
  a.1 = Some (Success, Some 1101)
  /\ In (EvInsertImageMemoryBarrier {| img_handle := 101; img_valid := true |}
           16 VK_PIPELINE_STAGE_COLOR_ATTACHMENT_OUTPUT_BIT
           VK_PIPELINE_STAGE_BOTTOM_OF_PIPE_BIT
           VK_ACCESS_MEMORY_READ_BIT VK_IMAGE_LAYOUT_PRESENT_SRC_KHR true)
        (trace r.2)
  /\ VK_PIPELINE_STAGE_COLOR_ATTACHMENT_OUTPUT_BIT
     = VK_PIPELINE_STAGE_COLOR_ATTACHMENT_OUTPUT_BIT.
Proof.
  cbv zeta.
  assert ((run (AcquireSurface driver) (boot (self fresh) (world fresh))).1
          = Some (Success, Some 1101)) as Hres.
  { vm_compute. reflexivity. }
  assert (In (EvInsertImageMemoryBarrier
                {| img_handle := 101; img_valid := true |}
                16 VK_PIPELINE_STAGE_COLOR_ATTACHMENT_OUTPUT_BIT
                VK_PIPELINE_STAGE_BOTTOM_OF_PIPE_BIT
                VK_ACCESS_MEMORY_READ_BIT VK_IMAGE_LAYOUT_PRESENT_SRC_KHR true)
            (trace (run (Submit driver)
                      (boot (self (run (AcquireSurface driver)
                                       (boot (self fresh) (world fresh))).2)
                            (world (run (AcquireSurface driver)
                                        (boot (self fresh)
                                              (world fresh))).2))).2))
    as HIn.
  { vm_compute. do 2 right. left. reflexivity. }
  split; [exact Hres|]. split; [exact HIn|].
  exact (proj1 (proj2 (barrier_sources_chain driver (self fresh)
                         (world fresh) _))
               _ _ _ _ _ _ _ _ Hres HIn).
Defined.

Lemma acquire_succeeds_when_the_driver_does_witness :
  let r := run (AcquireSurface driver) (boot (self fresh) (world fresh)) in
  all_ok (trace r.2)
  /\ exists sk,
       r.1 = Some (Success, Some sk)
       /\ surfaces_ (self fresh) !! N.to_nat (current_image_index_ (self r.2))
          = Some (Some sk)
       /\ call_of <$> trace r.2 = acquire_protocol.
Proof.
  cbv zeta.
  assert (valid_ (self fresh) = true) as Hvalid.
  { vm_compute. reflexivity. }
  assert (all_ok (trace (run (AcquireSurface driver)
                             (boot (self fresh) (world fresh))).2)) as Hok.
  { vm_compute. repeat constructor. }
  split; [exact Hok|].
  apply (acquire_succeeds_when_the_driver_does driver fresh (world fresh)
           (reach_construct driver _ _ _ _) Hvalid Hok).
  apply indices_below_spec. vm_compute. reflexivity.
Defined.

Lemma submit_succeeds_when_the_driver_does_witness :
  let r := run (Submit driver) (boot (self fresh) (world fresh)) in
  all_ok (trace r.2)
  /\ r.1 = Some true
  /\ call_of <$> trace r.2 = submit_protocol.
Proof.
  cbv zeta.
  assert (valid_ (self fresh) = true) as Hvalid.
  { vm_compute. reflexivity. }
  assert (all_ok (trace (run (Submit driver)
                             (boot (self fresh) (world fresh))).2)) as Hok.
  { vm_compute. repeat constructor. }
  split; [exact Hok|].
  exact (submit_succeeds_when_the_driver_does driver fresh (world fresh)
           (reach_construct driver _ _ _ _) Hvalid Hok).
Defined.

Lemma acquire_is_defined_witness :
  Reachable driver (run (Submit driver) (run (AcquireSurface driver) fresh).2).2
  /\ (run (AcquireSurface driver)
          (run (Submit driver) (run (AcquireSurface driver) fresh).2).2).1
     <> None.
Proof.
  assert (Reachable driver
            (run (Submit driver) (run (AcquireSurface driver) fresh).2).2)
    as Hreach.
  { apply reach_submit, reach_acquire, reach_construct. }
  split; [exact Hreach|].
  exact (acquire_is_defined driver _ Hreach).
Defined.

Lemma acquire_without_a_usable_slot_witness :
  valid_ (set_valid_ true initial) = true
  /\ backbuffers_ (set_valid_ true initial) = []
  /\ run (AcquireSurface driver) (boot (set_valid_ true initial) Fake.power_on)
     = (Some (ErrorSurfaceLost, None),
        boot (set_valid_ true initial) Fake.power_on).
Proof.
  split; [reflexivity|]. split; [reflexivity|].
  apply (acquire_without_a_usable_slot driver
           (boot (set_valid_ true initial) Fake.power_on)).
  - reflexivity.
  - left. reflexivity.
Defined.

Lemma submit_on_invalid_chain_is_inert_witness :
  valid_ initial = false
  /\ run (Submit driver) (boot initial Fake.power_on)
     = (Some false, boot initial Fake.power_on).
Proof.
  split; [reflexivity|].
  apply (submit_on_invalid_chain_is_inert driver (boot initial Fake.power_on)).
  reflexivity.
Defined.


Lemma surfaces_wrap_the_negotiated_format_witness :
  In (EvMakeFromBackendRenderTarget 1 (render_target_of (self fresh) 102)
        None (Some 1102)) (trace fresh)
  /\ GrVkFormatToPixelConfig driver (format (surface_format_ (self fresh)))
     <> kUnknown_GrPixelConfig.
Proof.
  assert (In (EvMakeFromBackendRenderTarget 1
                (render_target_of (self fresh) 102) None (Some 1102))
            (trace fresh)) as HIn.
  { vm_compute. do 16 right. left. reflexivity. }
  split; [exact HIn|].
  exact (proj2 (proj2 (proj2
           (proj1 (surfaces_wrap_the_negotiated_format driver
                     (Some 1) None 0 Fake.power_on) _ _ _ _ HIn)))).
Defined.

Local Abbreviation fresh_create_info :=
  {| ci_surface := 7; ci_minImageCount := 3; ci_imageFormat := 44;
     ci_imageColorSpace := 0;
     ci_imageExtent := {| width := 800; height := 600 |};
     ci_imageArrayLayers := 1;
     ci_imageUsage := VK_IMAGE_USAGE_COLOR_ATTACHMENT_BIT;
     ci_imageSharingMode := VK_SHARING_MODE_EXCLUSIVE;
     ci_queueFamilyIndexCount := 0;
     ci_preTransform := VK_SURFACE_TRANSFORM_IDENTITY_BIT_KHR;
     ci_compositeAlpha := VK_COMPOSITE_ALPHA_INHERIT_BIT_KHR;
     ci_presentMode := VK_PRESENT_MODE_FIFO_KHR;
     ci_clipped := VK_FALSE;
     ci_oldSwapchain := VK_NULL_HANDLE |}.

Lemma swapchain_is_created_from_the_negotiation_witness :
  In (EvCreateSwapchainKHR fresh_create_info VK_SUCCESS (Some 9)) (trace fresh)
  /\ ci_minImageCount fresh_create_info
     = minImageCount (capabilities_ (self fresh))
  /\ swapchain_ (self fresh) = 9.
Proof.
  assert (In (EvCreateSwapchainKHR fresh_create_info VK_SUCCESS (Some 9))
            (trace fresh)) as HIn.
  { vm_compute. do 8 right. left. reflexivity. }
  split; [exact HIn|].
  destruct (swapchain_is_created_from_the_negotiation driver
              (Some 1) None 0 Fake.power_on _ _ _ HIn)
    as ((Hcount & _) & _ & _ & _ & _ & Hhandle & _).
  split; [exact Hcount|].
  exact (Hhandle eq_refl).
Defined.
